(** * Sprint gadgets for Jira: burndown resolver, verified slices

    A shallow embedding of [src/resolvers/index.js] (the resolver with the
    subtask-aware totals, the changelog-based scope detection and the
    worklog-based remaining line), together with the pieces of the earlier
    resolver variants that the specification also draws from.

    Conventions of the embedding

    - JavaScript numbers are exact rationals ([Q]) where the code rounds
      its figures to a tenth before it emits them; equality of computed
      hours is [Qeq] ([==]).  Where a comparison or a rounding depends on
      the last bit of a number (the health classification, the progress of
      a release, the unrounded figures of the issue details), the number is
      the IEEE 754 double the engine holds ([Double]).
    - A [Date] is a UTC timestamp in milliseconds; the local time zone of
      the runtime is UTC, so [setHours(0,0,0,0)] and
      [toISOString().split('T')[0]] name the same calendar day.  A date
      string is represented by the number of its day ([toISODate]).
    - [null] and [undefined] are [None].
    - Asynchronous calls are sequential; external calls that may reject are
      computations that may throw. *)

From Stdlib Require Import ZArith QArith Qround Qminmax Qabs Lia Lqa List String Ascii Bool.
From Stdlib Require Import Permutation Sorting SpecFloat.
From stdpp Require Import base option list gmap strings.

Local Open Scope string_scope.
Local Open Scope Z_scope.

(** ** Numbers *)

Module Num.

(** [Math.round]: the nearest integer, halves towards plus infinity. *)
Definition Math_round (x : Q) : Z := Qfloor (x + (1 # 2))%Q.

(** [Math.round(x * 10) / 10], the idiom used for every emitted figure. *)
Definition round10 (x : Q) : Q := (inject_Z (Math_round (x * 10)) / 10)%Q.

(** Truthiness of a number: [0] is falsy. *)
Definition truthyQ (x : Q) : bool := negb (Qeq_bool x 0%Q).

(** [a || b] on numbers. *)
Definition orQ (a b : Q) : Q := if truthyQ a then a else b.

Definition Qltb (a b : Q) : bool :=
  match Qcompare a b with Lt => true | _ => false end.

Definition Math_max (a b : Q) : Q := if Qle_bool a b then b else a.

(** [arr.reduce((sum, x) => sum + f(x), 0)] *)
Definition reduce_sum {A : Type} (f : A -> Q) (l : list A) : Q :=
  fold_left (fun sum x => sum + f x)%Q l 0%Q.

End Num.
Export Num.

(** ** Doubles

    A JavaScript number as the engine holds it: an IEEE 754 binary64 value,
    with the operations of [SpecFloat] (round to nearest, ties to even). *)

Module Double.

Definition prec : Z := 53.
Definition emax : Z := 1024.

Definition double : Type := spec_float.

(** An integer as a number (rounded beyond 2^53). *)
Definition ofZ (z : Z) : double := binary_normalize prec emax z 0 false.

Definition add : double -> double -> double := SFadd prec emax.
Definition sub : double -> double -> double := SFsub prec emax.
Definition mul : double -> double -> double := SFmul prec emax.
Definition div : double -> double -> double := SFdiv prec emax.

(** [Math.abs] *)
Definition abs : double -> double := SFabs.

(** [a < b], false when either side is NaN; [b > a] is [ltb a b]. *)
Definition ltb : double -> double -> bool := SFltb.

(** [a === b] *)
Definition eqb : double -> double -> bool := SFeqb.

(** The rational a finite double stands for. *)
Definition valueOf (d : double) : Q :=
  match d with
  | S754_finite s m e =>
      let n := if s then Z.neg m else Z.pos m in
      if 0 <=? e then inject_Z (n * 2 ^ e) else n # (2 ^ Z.to_pos (- e))
  | _ => 0%Q
  end.

(** [Math.round]: the nearest integer, halves towards plus infinity; an
    argument from -0.5 up to 0 gives -0; zeros, infinities and NaN are
    returned as they are. *)
Definition Math_round (d : double) : double :=
  match d with
  | S754_finite s _ _ =>
      let z := Qfloor (valueOf d + (1 # 2))%Q in
      if z =? 0 then S754_zero s else ofZ z
  | _ => d
  end.

(** [arr.reduce((sum, x) => sum + f(x), 0)] *)
Definition reduce_sum {A : Type} (f : A -> double) (l : list A) : double :=
  fold_left (fun sum x => add sum (f x)) l (ofZ 0).

(** The same double, bit for bit. *)
Definition same (a b : double) : bool :=
  match a, b with
  | S754_zero s1, S754_zero s2 => Bool.eqb s1 s2
  | S754_infinity s1, S754_infinity s2 => Bool.eqb s1 s2
  | S754_nan, S754_nan => true
  | S754_finite s1 m1 e1, S754_finite s2 m2 e2 =>
      Bool.eqb s1 s2 && Pos.eqb m1 m2 && Z.eqb e1 e2
  | _, _ => false
  end.

End Double.

(** ** Strings *)

Module Str.

Definition lower_ascii (c : ascii) : ascii :=
  let n := nat_of_ascii c in
  if ((65 <=? n)%nat && (n <=? 90)%nat)%bool then ascii_of_nat (n + 32) else c.

(** [s.toLowerCase()] on ASCII text. *)
Fixpoint toLowerCase (s : string) : string :=
  match s with
  | EmptyString => EmptyString
  | String c r => String (lower_ascii c) (toLowerCase r)
  end.

(** [hay.includes(needle)] *)
Fixpoint includes (hay needle : string) : bool :=
  String.prefix needle hay
  || match hay with
     | EmptyString => false
     | String _ r => includes r needle
     end.

(** Truthiness of a possibly missing string: [undefined], [null] and the
    empty string are falsy. *)
Definition truthy (s : option string) : bool :=
  match s with
  | Some s => negb (String.eqb s "")
  | None => false
  end.

(** [s || d] *)
Definition orStr (s : option string) (d : string) : string :=
  match s with
  | Some s => if String.eqb s "" then d else s
  | None => d
  end.

End Str.
Export Str.

(** ** Dates *)

Module Dates.

Definition Date := Z.

Definition DAY_MS : Z := 86400000.

(** The calendar day a timestamp falls on (days since 1970-01-01). *)
Definition toISODate (d : Date) : Z := d / DAY_MS.

(** [d.setHours(0, 0, 0, 0)] *)
Definition setHours0 (d : Date) : Date := toISODate d * DAY_MS.

(** [d.getDay()]: 0 is Sunday; 1970-01-01 was a Thursday. *)
Definition getDay (d : Date) : Z := (toISODate d + 4) mod 7.

(** [d.setDate(d.getDate() + 1)] *)
Definition nextDay (d : Date) : Date := d + DAY_MS.

End Dates.
Export Dates.

(** ** Work items as the tracker returns them *)

Record IssueType := {
  it_subtask : bool;            (* issuetype.subtask === true *)
  it_name : option string       (* issuetype.name *)
}.

Record Issue := {
  key : string;
  summary : string;
  status : option string;               (* fields.status?.name *)
  priority : option string;             (* fields.priority?.name *)
  assignee : option string;             (* fields.assignee?.displayName *)
  issuetype : option IssueType;
  timeoriginalestimate : option Z;      (* seconds *)
  timeestimate : option Z;
  timespent : option Z;
  duedate : option Date;
  created : Date;
  parent : option string;               (* fields.parent?.key *)
  subtasks : list string                (* fields.subtasks, [] when missing *)
}.

(** ** Constants and helper functions *)

Definition WORKING_DAYS_DEFAULT : Z := 10.
Definition HOURS_PER_DAY : Z := 8.

Definition isWorkingDay (date : Date) : bool :=
  let day := getDay date in
  negb (day =? 0) && negb (day =? 6).

Definition secondsToHours (seconds : option Z) : Q :=
  match seconds with
  | None => 0%Q
  | Some s => if s =? 0 then 0%Q else round10 (inject_Z s / 3600)%Q
  end.

(** [secondsToHours] operation by operation on doubles:
    [Math.round((seconds / 3600) * 10) / 10]. *)
Definition secondsToHours64 (seconds : option Z) : Double.double :=
  match seconds with
  | None => Double.ofZ 0
  | Some s =>
      if s =? 0 then Double.ofZ 0
      else Double.div
             (Double.Math_round
                (Double.mul (Double.div (Double.ofZ s) (Double.ofZ 3600)) (Double.ofZ 10)))
             (Double.ofZ 10)
  end.

(** ** Subtask logic *)

Definition typeName (issue : Issue) : string :=
  match issuetype issue with
  | Some t => orStr (it_name t) ""
  | None => ""
  end.

Definition isParentWithSubtasks (issue : Issue) : bool :=
  if (0 <? length (subtasks issue))%nat then true
  else if includes (toLowerCase (typeName issue)) "main task" then true
  else false.

Definition isSubtaskIssue (issue : Issue) : bool :=
  match issuetype issue with Some t => it_subtask t | None => false end
  || includes (toLowerCase (typeName issue)) "sub-task"
  || includes (toLowerCase (typeName issue)) "subtask".

Record SubtaskMap := {
  subtasksByParent : gmap string (list Issue);
  subtaskKeys : gset string;
  parentKeys : gset string
}.

Definition emptySubtaskMap : SubtaskMap :=
  {| subtasksByParent := ∅; subtaskKeys := ∅; parentKeys := ∅ |}.

(** Method 1: one step of the first [forEach]. *)
Definition recordSubtask (acc : SubtaskMap) (issue : Issue) : SubtaskMap :=
  if isSubtaskIssue issue && truthy (parent issue) then
    let parentKey := default "" (parent issue) in
    {| subtasksByParent :=
         <[parentKey := (default [] (subtasksByParent acc !! parentKey) ++ [issue])%list]>
           (subtasksByParent acc);
       subtaskKeys := {[key issue]} ∪ subtaskKeys acc;
       parentKeys := {[parentKey]} ∪ parentKeys acc |}
  else acc.

(** Method 2: one step of the second [forEach]. *)
Definition recordParent (acc : SubtaskMap) (issue : Issue) : SubtaskMap :=
  if isParentWithSubtasks issue then
    {| subtasksByParent := subtasksByParent acc;
       subtaskKeys := subtaskKeys acc;
       parentKeys := {[key issue]} ∪ parentKeys acc |}
  else acc.

Definition buildSubtaskMap (issues : list Issue) : SubtaskMap :=
  fold_left recordParent issues (fold_left recordSubtask issues emptySubtaskMap).

(** [subtasksByParent[k] && subtasksByParent[k].length > 0] *)
Definition subtasksInList (m : SubtaskMap) (k : string) : option (list Issue) :=
  match subtasksByParent m !! k with
  | Some (s :: l) => Some (s :: l)
  | _ => None
  end.

(** The shared shape of [computeEffectiveRemaining],
    [computeEffectiveOriginalEstimate] and [computeEffectiveSpent]; they
    differ in the field they read. *)
Definition computeEffective (field : Issue -> option Z) (issues : list Issue) : Q :=
  let m := buildSubtaskMap issues in
  fold_left
    (fun total issue =>
       if bool_decide (key issue ∈ subtaskKeys m) then total
       else if bool_decide (key issue ∈ parentKeys m) then
         match subtasksInList m (key issue) with
         | Some subs => (total + reduce_sum (fun sub => secondsToHours (field sub)) subs)%Q
         | None => total
         end
       else (total + secondsToHours (field issue))%Q)
    issues 0%Q.

Definition computeEffectiveRemaining : list Issue -> Q :=
  computeEffective timeestimate.

Definition computeEffectiveOriginalEstimate : list Issue -> Q :=
  computeEffective timeoriginalestimate.

Definition computeEffectiveSpent : list Issue -> Q :=
  computeEffective timespent.

(** The assignee filter every endpoint applies:
    [issues.filter(i => i.fields.assignee?.displayName === assignee)]. *)
Definition filterByAssignee (a : string) (issues : list Issue) : list Issue :=
  List.filter (fun i => bool_decide (assignee i = Some a)) issues.

(** ** Sprints, changelogs and worklogs *)

Record Sprint := {
  sprint_id : string;           (* the id in the decimal text the code interpolates *)
  sprint_name : string;
  startDate : Date;
  endDate : Date
}.

Record HistoryItem := {
  field : string;
  fromString : option string;
  toString : option string;
  from : option string;
  to : option string
}.

Record History := {
  history_created : Date;
  items : list HistoryItem
}.

Record Worklog := {
  started : option Date;
  timeSpentSeconds : option Z
}.

Record Board := {
  board_id : string;
  board_name : string;
  projectKey : option string
}.

Definition countWorkingDays_loop (endD : Date) : nat -> Date -> Z -> Z :=
  fix loop (fuel : nat) (current : Date) (count : Z) : Z :=
    match fuel with
    | O => count
    | S fuel' =>
        if current <=? endD then
          loop fuel' (nextDay current) (if isWorkingDay current then count + 1 else count)
        else count
    end.

(** Number of iterations of [while (current <= end)] when [current] starts
    at [start] and advances by one day. *)
Definition loopBound (start endD : Date) : nat :=
  Z.to_nat ((endD - start) / DAY_MS + 1).

Definition countWorkingDays (start endD : Date) : Z :=
  let count := countWorkingDays_loop endD (loopBound start endD) start 0 in
  if count =? 0 then WORKING_DAYS_DEFAULT else count.

(** [[...histories].sort((a, b) => new Date(a.created) - new Date(b.created))],
    a stable sort. *)
Fixpoint insertByCreated (h : History) (l : list History) : list History :=
  match l with
  | [] => [h]
  | x :: r =>
      if history_created h <? history_created x then h :: x :: r
      else x :: insertByCreated h r
  end.

Definition sortByCreated (l : list History) : list History :=
  fold_left (fun acc h => insertByCreated h acc) l [].

Definition analyzeItem (sprintName sprintId : string) (createdAt : Date)
    (acc : option Date * option Date) (item : HistoryItem) : option Date * option Date :=
  if String.eqb (field item) "Sprint" then
    let fromStr := default "" (fromString item) in
    let toStr := default "" (toString item) in
    let fromId := default "" (from item) in
    let toId := default "" (to item) in
    let wasInFrom := includes fromStr sprintName || includes fromId sprintId in
    let isInTo := includes toStr sprintName || includes toId sprintId in
    let acc1 := if negb wasInFrom && isInTo then (Some createdAt, snd acc) else acc in
    if wasInFrom && negb isInTo then (None, Some createdAt) else acc1
  else acc.

(** Returns [(addedDate, removedDate)]. *)
Definition analyzeSprintChangelog (histories : list History)
    (sprintName sprintId : string) : option Date * option Date :=
  fold_left
    (fun acc history =>
       fold_left (analyzeItem sprintName sprintId (history_created history))
                 (items history) acc)
    (sortByCreated histories) (None, None).

(** ** The outside world

    The tracker's REST interface and the failures of the key-value store.
    [getBoards], [getActiveSprint] and [getSprintIssues] reject on a failed
    request; [getRemovedFromSprintIssues], [getIssueChangelog] and
    [getIssueWorklogs] catch every failure and return a list. *)

Inductive Outcome (A : Type) : Type :=
| Returned (a : A)
| Thrown (message : string).
Arguments Returned {A} a.
Arguments Thrown {A} message.

Record World := {
  now : Date;
  getBoards : Outcome (list Board);
  getActiveSprint : string -> Outcome (option Sprint);
  getSprintIssues : string -> Outcome (list Issue);
  getRemovedFromSprintIssues : string -> string -> list Issue;
  getIssueChangelog : string -> list History;
  getIssueWorklogs : string -> list Worklog;
  storage_get_error : string -> option string;
  storage_set_error : string -> option string;
  storage_delete_error : string -> option string
}.

Definition getAllChangelogs (w : World) (issues : list Issue) : gmap string (list History) :=
  fold_left (fun results issue => <[key issue := getIssueChangelog w (key issue)]> results)
            issues ∅.

Definition getAllWorklogs (w : World) (issues : list Issue) : list Worklog :=
  flat_map (fun issue => getIssueWorklogs w (key issue)) issues.

(** ** Baseline and configuration records *)

Module BaselineIssue.
Record t := {
  key : string;
  summary : string;
  originalEstimate : Q;
  remainingEstimate : Q;
  timeSpent : Q;
  assignee : option string;
  status : string;
  issueType : string;
  isSubtask : bool;
  parentKey : option string
}.
End BaselineIssue.

Module Baseline.
Record t := {
  sprintId : string;
  createdAt : Date;
  issueCount : nat;
  issues : list BaselineIssue.t
}.
End Baseline.

Module Config.
Record t := {
  boardId : option string;
  teamSize : option N;
  workingDays : option Z
}.
Definition default : t :=
  {| boardId := None; teamSize := Some 10%N; workingDays := Some 10 |}.
End Config.

(** ** The key-value store *)

Inductive Stored : Type :=
| StoredBaseline (b : Baseline.t)
| StoredConfig (c : Config.t).

Inductive StorageOp : Type :=
| OpGet (k : string)
| OpSet (k : string) (v : Stored)
| OpDelete (k : string).

Record Env := {
  store : gmap string Stored;
  trace : list StorageOp          (* the operations performed, oldest first *)
}.

(** Computations that use the store and may throw. *)
Definition M (A : Type) : Type := Env -> Outcome A * Env.

Definition ret {A} (a : A) : M A := fun e => (Returned a, e).
Definition throw {A} (msg : string) : M A := fun e => (Thrown msg, e).
Definition bind {A B} (m : M A) (f : A -> M B) : M B :=
  fun e => match m e with
           | (Returned a, e') => f a e'
           | (Thrown msg, e') => (Thrown msg, e')
           end.
(** [try { body } catch (error) { handler(error.message) }] *)
Definition try_catch {A} (body : M A) (handler : string -> M A) : M A :=
  fun e => match body e with
           | (Returned a, e') => (Returned a, e')
           | (Thrown msg, e') => handler msg e'
           end.
Definition lift {A} (o : Outcome A) : M A := fun e => (o, e).

Notation "x <- m ;; k" := (bind m (fun x => k))
  (at level 100, m at next level, right associativity).

Module storage.
Definition get (w : World) (k : string) : M (option Stored) :=
  fun e => match storage_get_error w k with
           | Some msg => (Thrown msg, e)
           | None => (Returned (store e !! k),
                      {| store := store e; trace := (trace e ++ [OpGet k])%list |})
           end.
Definition set (w : World) (k : string) (v : Stored) : M unit :=
  fun e => match storage_set_error w k with
           | Some msg => (Thrown msg, e)
           | None => (Returned tt,
                      {| store := <[k := v]> (store e);
                         trace := (trace e ++ [OpSet k v])%list |})
           end.
Definition delete (w : World) (k : string) : M unit :=
  fun e => match storage_delete_error w k with
           | Some msg => (Thrown msg, e)
           | None => (Returned tt,
                      {| store := base.delete k (store e);
                         trace := (trace e ++ [OpDelete k])%list |})
           end.
End storage.

Definition baselineKey (sprintId : string) : string := "baseline-" ++ sprintId.
Definition configKey (gadgetId : string) : string := "config-" ++ gadgetId.

(** ** Baseline storage *)

Definition doneStatuses : list string := ["done"; "closed"; "resolved"; "complete"].

(** [!doneStatuses.some(s => status.includes(s))] on the lower-cased status. *)
Definition isActive (i : Issue) : bool :=
  let status := toLowerCase (orStr (status i) "") in
  negb (existsb (fun s => includes status s) doneStatuses).

Definition getSprintBaseline (w : World) (sprintId : string) : M (option Stored) :=
  try_catch (storage.get w (baselineKey sprintId)) (fun _ => ret None).

Definition baselineEntry (i : Issue) : BaselineIssue.t :=
  {| BaselineIssue.key := key i;
     BaselineIssue.summary := summary i;
     BaselineIssue.originalEstimate := secondsToHours (timeoriginalestimate i);
     BaselineIssue.remainingEstimate := secondsToHours (timeestimate i);
     BaselineIssue.timeSpent := secondsToHours (timespent i);
     BaselineIssue.assignee := if truthy (assignee i) then assignee i else None;
     BaselineIssue.status := orStr (status i) "To Do";
     BaselineIssue.issueType := orStr (match issuetype i with Some t => it_name t | None => None end) "Task";
     BaselineIssue.isSubtask := isSubtaskIssue i;
     BaselineIssue.parentKey := if truthy (parent i) then parent i else None |}.

Definition makeBaseline (w : World) (sprintId : string) (issues : list Issue) : Baseline.t :=
  let activeIssues := List.filter isActive issues in
  {| Baseline.sprintId := sprintId;
     Baseline.createdAt := now w;
     Baseline.issueCount := length activeIssues;
     Baseline.issues := map baselineEntry activeIssues |}.

Definition saveSprintBaseline (w : World) (sprintId : string) (issues : list Issue)
  : M Baseline.t :=
  let baseline := makeBaseline w sprintId issues in
  _ <- storage.set w (baselineKey sprintId) (StoredBaseline baseline) ;;
  ret baseline.

Definition deleteSprintBaseline (w : World) (sprintId : string) : M bool :=
  try_catch (_ <- storage.delete w (baselineKey sprintId) ;; ret true)
            (fun _ => ret false).

(** ** Burndown data: the records of the answer *)

Module Payload.
Record t := {
  boardId : option string;
  assignee : option string;
  teamSize : option N;      (* the settings form stores a whole number *)
  expand : bool
}.
End Payload.

Module ScopeChange.
Record t := { added : Q; removed : Q }.
Definition zero : t := {| added := 0%Q; removed := 0%Q |}.
End ScopeChange.

Module AddedIssue.
Record t := { key : string; summary : string; addedDate : Z; originalEstimate : Q }.
End AddedIssue.

Module RemovedIssue.
Record t := { key : string; summary : string; removedDate : Z; originalEstimate : Q }.
End RemovedIssue.

Inductive DateLabel : Type :=
| StartLabel                  (* date: 'start' *)
| DayLabel (day : Z).         (* date: the ISO date of the day *)

Module DataPoint.
Record t := {
  date : DateLabel;
  ideal : Q;
  remaining : option Q;
  totalRemaining : option Q;
  timeLogged : option Q;
  dayLogged : option Q;
  cumulativeLogged : option Q;
  added : Q;
  removed : Q
}.
End DataPoint.

Module BurndownData.
Record t := {
  dataPoints : list DataPoint.t;
  sprintName : string;
  maxCapacity : Q;
  totalOriginalEstimate : Q;
  currentRemaining : Q;
  totalSpent : Q;
  scopeAddedTotal : Q;
  scopeRemovedTotal : Q;
  workingDays : Z;
  teamSize : Z;
  assignees : list string;
  addedIssuesCount : nat;
  removedIssuesCount : nat;
  addedIssues : list AddedIssue.t;
  baselineIssueCount : nat
}.
End BurndownData.

(** ** Burndown data: the computation after the baseline is at hand *)

(** [[...new Set(l)]]: duplicates dropped, first occurrences kept in order. *)
Definition uniqueValues (l : list string) : list string :=
  fold_left (fun acc x => if bool_decide (x ∈ acc) then acc else (acc ++ [x])%list) l [].

(** [allIssues.map(i => i.fields.assignee?.displayName).filter(Boolean)] *)
Definition allAssigneesOf (allIssues : list Issue) : list string :=
  uniqueValues
    (omap (fun i => if truthy (assignee i) then assignee i else None) allIssues).

(** [assignee && assignee !== 'All'] *)
Definition singleAssignee (p : Payload.t) : option string :=
  match Payload.assignee p with
  | Some a => if truthy (Some a) && negb (String.eqb a "All") then Some a else None
  | None => None
  end.

(** [configTeamSize || allAssignees.length || 1], then [teamSize = 1] under
    an assignee filter. *)
Definition teamSizeOf (p : Payload.t) (allIssues : list Issue) : Z :=
  match singleAssignee p with
  | Some _ => 1
  | None =>
      match Payload.teamSize p with
      | Some (Npos n) => Zpos n
      | _ =>
          let n := Z.of_nat (length (allAssigneesOf allIssues)) in
          if n =? 0 then 1 else n
      end
  end.

Definition issuesOf (p : Payload.t) (allIssues : list Issue) : list Issue :=
  match singleAssignee p with
  | Some a => filterByAssignee a allIssues
  | None => allIssues
  end.

(** [baseline.issues.filter(b => b.assignee === assignee)] *)
Definition filteredBaselineOf (p : Payload.t) (baseline : Baseline.t) : Baseline.t :=
  match singleAssignee p with
  | Some a =>
      {| Baseline.sprintId := Baseline.sprintId baseline;
         Baseline.createdAt := Baseline.createdAt baseline;
         Baseline.issueCount := Baseline.issueCount baseline;
         Baseline.issues :=
           List.filter (fun b => bool_decide (BaselineIssue.assignee b = Some a))
                       (Baseline.issues baseline) |}
  | None => baseline
  end.

(** [filteredBaseline?.issues?.reduce((sum, item) => sum + (item.originalEstimate || 0), 0)
     || computeEffectiveOriginalEstimate(issues)] *)
Definition baselineEstimate (filteredBaseline : Baseline.t) : Q :=
  reduce_sum (fun item => orQ (BaselineIssue.originalEstimate item) 0%Q)
             (Baseline.issues filteredBaseline).

Definition totalOriginalEstimateOf (filteredBaseline : Baseline.t) (issues : list Issue) : Q :=
  orQ (baselineEstimate filteredBaseline) (computeEffectiveOriginalEstimate issues).

(** *** Changelog-based scope changes *)

Definition issueAddedDate (allChangelogs : gmap string (list History)) (sprint : Sprint)
    (sprintStartDate : Date) (issue : Issue) : option Date :=
  let histories := default [] (allChangelogs !! key issue) in
  match fst (analyzeSprintChangelog histories (sprint_name sprint) (sprint_id sprint)) with
  | Some addedDate =>
      let addedDay := setHours0 addedDate in
      if sprintStartDate <? addedDay then Some addedDay else None
  | None =>
      let createdDate := setHours0 (created issue) in
      if sprintStartDate <? createdDate then Some createdDate else None
  end.

Definition bumpAdded (dateStr : Z) (oe : Q) (m : gmap Z ScopeChange.t) : gmap Z ScopeChange.t :=
  let c := default ScopeChange.zero (m !! dateStr) in
  <[dateStr := {| ScopeChange.added := (ScopeChange.added c + oe)%Q;
                  ScopeChange.removed := ScopeChange.removed c |}]> m.

Definition bumpRemoved (dateStr : Z) (oe : Q) (m : gmap Z ScopeChange.t) : gmap Z ScopeChange.t :=
  let c := default ScopeChange.zero (m !! dateStr) in
  <[dateStr := {| ScopeChange.added := ScopeChange.added c;
                  ScopeChange.removed := (ScopeChange.removed c + oe)%Q |}]> m.

Definition issuesNeedingChangelogOf (sprintStartDate : Date) (issues : list Issue) : list Issue :=
  List.filter (fun issue => sprintStartDate <=? setHours0 (created issue)) issues.

(** The [issues.forEach] that fills [addedIssues] and [scopeChangesByDate]. *)
Definition detectAdded (w : World) (sprint : Sprint) (issues : list Issue)
  : list AddedIssue.t * gmap Z ScopeChange.t :=
  let sprintStartDate := setHours0 (startDate sprint) in
  let allChangelogs := getAllChangelogs w (issuesNeedingChangelogOf sprintStartDate issues) in
  fold_left
    (fun acc issue =>
       match issueAddedDate allChangelogs sprint sprintStartDate issue with
       | Some d =>
           let dateStr := toISODate d in
           let oe := secondsToHours (timeoriginalestimate issue) in
           ((fst acc ++ [ {| AddedIssue.key := key issue;
                             AddedIssue.summary := summary issue;
                             AddedIssue.addedDate := dateStr;
                             AddedIssue.originalEstimate := oe |} ])%list,
            bumpAdded dateStr oe (snd acc))
       | None => acc
       end)
    issues ([], ∅).

(** [removeDateStr]: the day the changelog says the issue left the sprint,
    else today, clamped to the sprint end. *)
Definition removeDateOf (w : World) (sprint : Sprint)
    (removedChangelogs : gmap string (list History)) (removedIssue : Issue) : Z :=
  let histories := default [] (removedChangelogs !! key removedIssue) in
  match snd (analyzeSprintChangelog histories (sprint_name sprint) (sprint_id sprint)) with
  | Some removedDate => toISODate removedDate
  | None =>
      let today := setHours0 (now w) in
      if today <=? endDate sprint then toISODate today else toISODate (endDate sprint)
  end.

(** The loop over [removedFromSprintIssues]. *)
Definition detectRemoved (w : World) (sprint : Sprint)
    (scopeChangesByDate : gmap Z ScopeChange.t)
  : list RemovedIssue.t * gmap Z ScopeChange.t :=
  let removedFromSprintIssues :=
    getRemovedFromSprintIssues w (sprint_id sprint) (sprint_name sprint) in
  let removedChangelogs := getAllChangelogs w removedFromSprintIssues in
  fold_left
    (fun acc removedIssue =>
       let removeDateStr := removeDateOf w sprint removedChangelogs removedIssue in
       let oe := secondsToHours (timeoriginalestimate removedIssue) in
       ((fst acc ++ [ {| RemovedIssue.key := key removedIssue;
                         RemovedIssue.summary := summary removedIssue;
                         RemovedIssue.removedDate := removeDateStr;
                         RemovedIssue.originalEstimate := oe |} ])%list,
        bumpRemoved removeDateStr oe (snd acc)))
    removedFromSprintIssues ([], scopeChangesByDate).

(** *** Worklog-based remaining

    [wl.started.split('T')[0]] is the calendar day of the worklog as the
    tracker writes it; [started] holds a timestamp of that day. *)

(** [secondsToHours(wl.timeSpentSeconds || 0)] *)
Definition worklogHours (wl : Worklog) : Q :=
  secondsToHours (Some (default 0 (timeSpentSeconds wl))).

Definition worklogByDateOf (allWorklogs : list Worklog) : gmap Z Q :=
  fold_left
    (fun m wl =>
       match started wl with
       | Some s =>
           let dateStr := toISODate s in
           <[dateStr := (default 0%Q (m !! dateStr) + worklogHours wl)%Q]> m
       | None => m
       end)
    allWorklogs ∅.

(** *** Data points *)

Record LoopState := {
  current : Date;
  workingDayCount : Z;
  runningRemaining : Q;
  cumulativeLogged : Q;
  dataPoints : list DataPoint.t
}.

Record LoopConsts := {
  lc_startDate : Date;
  lc_endDate : Date;
  lc_today : Date;
  lc_maxCapacity : Q;
  lc_dailyDecrease : Q;
  lc_scopeChangesByDate : gmap Z ScopeChange.t;
  lc_worklogByDate : gmap Z Q
}.

Definition startPoint (maxCapacity totalOriginalEstimate : Q) : DataPoint.t :=
  {| DataPoint.date := StartLabel;
     DataPoint.ideal := round10 maxCapacity;
     DataPoint.remaining := Some (round10 totalOriginalEstimate);
     DataPoint.totalRemaining := None;
     DataPoint.timeLogged := Some 0%Q;
     DataPoint.dayLogged := Some 0%Q;
     DataPoint.cumulativeLogged := Some 0%Q;
     DataPoint.added := 0%Q;
     DataPoint.removed := 0%Q |}.

(** One pass through the body of [while (current <= endDate)]. *)
Definition loopBody (c : LoopConsts) (st : LoopState) : LoopState :=
  let workingDayCount :=
    if isWorkingDay (current st) && (lc_startDate c <? current st)
    then workingDayCount st + 1 else workingDayCount st in
  let ideal := Math_max 0%Q (lc_maxCapacity c - lc_dailyDecrease c * inject_Z workingDayCount)%Q in
  let dateStr := toISODate (current st) in
  let currentDate := setHours0 (current st) in
  let isPastOrToday := currentDate <=? lc_today c in
  let scopeChange := default ScopeChange.zero (lc_scopeChangesByDate c !! dateStr) in
  let dayLogged := default 0%Q (lc_worklogByDate c !! dateStr) in
  let cumulativeLogged :=
    if isPastOrToday then (cumulativeLogged st + dayLogged)%Q else cumulativeLogged st in
  let runningRemaining :=
    if isPastOrToday
    then (runningRemaining st - dayLogged + ScopeChange.added scopeChange
          - ScopeChange.removed scopeChange)%Q
    else runningRemaining st in
  let whenPast (x : Q) : option Q := if isPastOrToday then Some (round10 x) else None in
  let point :=
    {| DataPoint.date := DayLabel dateStr;
       DataPoint.ideal := round10 ideal;
       DataPoint.remaining := whenPast (runningRemaining - ScopeChange.added scopeChange)%Q;
       DataPoint.totalRemaining := whenPast runningRemaining;
       DataPoint.timeLogged := whenPast cumulativeLogged;
       DataPoint.dayLogged := whenPast dayLogged;
       DataPoint.cumulativeLogged := whenPast cumulativeLogged;
       DataPoint.added :=
         if Qltb 0%Q (ScopeChange.added scopeChange)
         then round10 (ScopeChange.added scopeChange) else 0%Q;
       DataPoint.removed :=
         if Qltb 0%Q (ScopeChange.removed scopeChange)
         then (- round10 (ScopeChange.removed scopeChange))%Q else 0%Q |} in
  {| current := nextDay (current st);
     workingDayCount := workingDayCount;
     runningRemaining := runningRemaining;
     cumulativeLogged := cumulativeLogged;
     dataPoints := (dataPoints st ++ [point])%list |}.

Fixpoint generateLoop (c : LoopConsts) (fuel : nat) (st : LoopState) : LoopState :=
  match fuel with
  | O => st
  | S fuel' =>
      if current st <=? lc_endDate c then generateLoop c fuel' (loopBody c st) else st
  end.

Definition initialState (c : LoopConsts) (totalOriginalEstimate : Q) : LoopState :=
  {| current := lc_startDate c;
     workingDayCount := 0;
     runningRemaining := totalOriginalEstimate;
     cumulativeLogged := 0%Q;
     dataPoints := [startPoint (lc_maxCapacity c) totalOriginalEstimate] |}.

Definition generateDataPoints (c : LoopConsts) (totalOriginalEstimate : Q) : list DataPoint.t :=
  dataPoints
    (generateLoop c (loopBound (lc_startDate c) (lc_endDate c))
                  (initialState c totalOriginalEstimate)).

(** *** The answer *)

Definition loopConstsOf (w : World) (p : Payload.t) (sprint : Sprint)
    (allIssues : list Issue) : LoopConsts :=
  let issues := issuesOf p allIssues in
  let workingDays := countWorkingDays (startDate sprint) (endDate sprint) in
  let maxCapacity := inject_Z (workingDays * HOURS_PER_DAY * teamSizeOf p allIssues) in
  let scopeChangesByDate := snd (detectRemoved w sprint (snd (detectAdded w sprint issues))) in
  {| lc_startDate := startDate sprint;
     lc_endDate := endDate sprint;
     lc_today := setHours0 (now w);
     lc_maxCapacity := maxCapacity;
     lc_dailyDecrease := (maxCapacity / inject_Z workingDays)%Q;
     lc_scopeChangesByDate := scopeChangesByDate;
     lc_worklogByDate := worklogByDateOf (getAllWorklogs w issues) |}.

Definition burndownData (w : World) (p : Payload.t) (sprint : Sprint)
    (allIssues : list Issue) (baseline : Baseline.t) : BurndownData.t :=
  let issues := issuesOf p allIssues in
  let filteredBaseline := filteredBaselineOf p baseline in
  let c := loopConstsOf w p sprint allIssues in
  let totalOriginalEstimate := totalOriginalEstimateOf filteredBaseline issues in
  let addedIssues := fst (detectAdded w sprint issues) in
  let removedIssues := fst (detectRemoved w sprint (snd (detectAdded w sprint issues))) in
  let scopeAddedTotal :=
    reduce_sum (fun i => orQ (AddedIssue.originalEstimate i) 0%Q) addedIssues in
  let scopeRemovedTotal :=
    reduce_sum (fun i => orQ (RemovedIssue.originalEstimate i) 0%Q) removedIssues in
  {| BurndownData.dataPoints := generateDataPoints c totalOriginalEstimate;
     BurndownData.sprintName := sprint_name sprint;
     BurndownData.maxCapacity := round10 (lc_maxCapacity c);
     BurndownData.totalOriginalEstimate := round10 totalOriginalEstimate;
     BurndownData.currentRemaining := round10 (computeEffectiveRemaining issues);
     BurndownData.totalSpent := round10 (computeEffectiveSpent issues);
     BurndownData.scopeAddedTotal := round10 scopeAddedTotal;
     BurndownData.scopeRemovedTotal := round10 scopeRemovedTotal;
     BurndownData.workingDays := countWorkingDays (startDate sprint) (endDate sprint);
     BurndownData.teamSize := teamSizeOf p allIssues;
     BurndownData.assignees := allAssigneesOf allIssues;
     BurndownData.addedIssuesCount := length addedIssues;
     BurndownData.removedIssuesCount := length removedIssues;
     BurndownData.addedIssues := addedIssues;
     BurndownData.baselineIssueCount := length (Baseline.issues filteredBaseline) |}.

(** ** Resolvers *)

Module HealthCounts.
Record t := { under : nat; normal : nat; good : nat; total : nat }.
End HealthCounts.

(** The corruption test of [getBurndownData]:
    [baseline.issues.length < currentActiveCount * 0.3 && baseline.issues.length < 10] *)
Definition currentActiveCountOf (allIssues : list Issue) : nat :=
  length (List.filter isActive allIssues).

Definition isCorrupted (baseline : Baseline.t) (allIssues : list Issue) : bool :=
  let n := length (Baseline.issues baseline) in
  Qltb (inject_Z (Z.of_nat n))
       (inject_Z (Z.of_nat (currentActiveCountOf allIssues)) * (3 # 10))%Q
  && (n <? 10)%nat.

(** What [getBurndownData] does with the answer of [getSprintBaseline]:
    the automatic repair of a corrupted baseline, and the creation of a
    baseline when there is none (any more). *)
Definition repairOrCreate (w : World) (sprint : Sprint) (allIssues : list Issue)
    (stored : option Stored) : M Baseline.t :=
  baseline <-
    match stored with
    | Some (StoredBaseline b) =>
        if isCorrupted b allIssues
        then (_ <- deleteSprintBaseline w (sprint_id sprint) ;; ret None)
        else ret (Some b)
    | Some (StoredConfig _) =>
        throw "Cannot read properties of undefined (reading 'length')"
    | None => ret None
    end ;;
  match baseline with
  | Some b => ret b
  | None => saveSprintBaseline w (sprint_id sprint) allIssues
  end.

(** "Get or create baseline", as [getBurndownData] does it. *)
Definition obtainBaseline (w : World) (sprint : Sprint) (allIssues : list Issue)
  : M Baseline.t :=
  stored <- getSprintBaseline w (sprint_id sprint) ;;
  repairOrCreate w sprint allIssues stored.

(** One step of the [issues.forEach] of [getSprintHealth]. *)
Definition healthStep (acc : HealthCounts.t) (issue : Issue) : HealthCounts.t :=
  let original := secondsToHours64 (timeoriginalestimate issue) in
  let spent := secondsToHours64 (timespent issue) in
  let remaining := secondsToHours64 (timeestimate issue) in
  let actualTotal := Double.add spent remaining in
  if Double.ltb original actualTotal then
    {| HealthCounts.under := S (HealthCounts.under acc);
       HealthCounts.normal := HealthCounts.normal acc;
       HealthCounts.good := HealthCounts.good acc;
       HealthCounts.total := HealthCounts.total acc |}
  else if Double.ltb actualTotal original then
    {| HealthCounts.under := HealthCounts.under acc;
       HealthCounts.normal := HealthCounts.normal acc;
       HealthCounts.good := S (HealthCounts.good acc);
       HealthCounts.total := HealthCounts.total acc |}
  else
    {| HealthCounts.under := HealthCounts.under acc;
       HealthCounts.normal := S (HealthCounts.normal acc);
       HealthCounts.good := HealthCounts.good acc;
       HealthCounts.total := HealthCounts.total acc |}.

Definition sprintHealth (issues : list Issue) : HealthCounts.t :=
  fold_left healthStep issues
    {| HealthCounts.under := O; HealthCounts.normal := O; HealthCounts.good := O;
       HealthCounts.total := length issues |}.

Section Resolvers.

(** What [getAtRiskItems], [getScopeChanges], [getHighPriorityItems] and
    [getReleaseData] compute from the fetched (and filtered) issues.
    These computations do not touch the store; any step of them may
    throw. *)
Variable Report : Type.
Variable atRiskItems scopeChanges highPriorityItems releaseData
  : World -> Payload.t -> Sprint -> list Issue -> Outcome Report.

Inductive Body : Type :=
| BoardsBody (boards : list Board)
| NoBody                                  (* { success: true } *)
| MessageBody (message : string)
| BurndownBody (data : BurndownData.t)
| HealthBody (counts : HealthCounts.t) (sprintName : string)
| ReportBody (data : Report).

Inductive Response : Type :=
| Success (body : Body)           (* { success: true, ... } *)
| Failure (error : string)        (* { success: false, error } *)
| StoredObject (v : Stored).      (* a stored object handed back as it is *)

(** [try { ... } catch (error) { return { success: false, error: error.message } }] *)
Definition guarded (body : M Response) : M Response :=
  try_catch body (fun message => ret (Failure message)).

(** [const { boardId, ... } = payload] *)
Definition destructure (payload : option Payload.t) : M Payload.t :=
  match payload with
  | Some p => ret p
  | None => throw "Cannot destructure property 'boardId' of 'payload' as it is undefined."
  end.

(** The opening every sprint endpoint shares: the board check and the
    active sprint. *)
Definition withSprint (w : World) (payload : option Payload.t)
    (k : Payload.t -> Sprint -> M Response) : M Response :=
  guarded (
    p <- destructure payload ;;
    if negb (truthy (Payload.boardId p)) then ret (Failure "Board ID is required")
    else
      sprint <- lift (getActiveSprint w (default "" (Payload.boardId p))) ;;
      match sprint with
      | None => ret (Failure "No active sprint found")
      | Some sprint => k p sprint
      end).

(** ... followed by the issues of the sprint under the assignee filter. *)
Definition withIssues (w : World) (payload : option Payload.t)
    (k : Payload.t -> Sprint -> list Issue -> M Response) : M Response :=
  withSprint w payload (fun p sprint =>
    issues <- lift (getSprintIssues w (sprint_id sprint)) ;;
    k p sprint (issuesOf p issues)).

Definition resolve_getBoards (w : World) : M Response :=
  guarded (boards <- lift (getBoards w) ;; ret (Success (BoardsBody boards))).

Definition resolve_getConfig (w : World) (gadgetId : option string) : M Response :=
  try_catch
    (config <- storage.get w (configKey (orStr gadgetId "default")) ;;
     ret (StoredObject (default (StoredConfig Config.default) config)))
    (fun _ => ret (StoredObject (StoredConfig Config.default))).

Definition resolve_saveConfig (w : World) (payload : Config.t) (gadgetId : option string)
  : M Response :=
  guarded (
    _ <- storage.set w (configKey (orStr gadgetId "default")) (StoredConfig payload) ;;
    ret (Success NoBody)).

Definition resolve_getBurndownData (w : World) (payload : option Payload.t) : M Response :=
  withSprint w payload (fun p sprint =>
    allIssues <- lift (getSprintIssues w (sprint_id sprint)) ;;
    baseline <- obtainBaseline w sprint allIssues ;;
    ret (Success (BurndownBody (burndownData w p sprint allIssues baseline)))).

Definition resolve_deleteBaseline (w : World) (payload : option Payload.t) : M Response :=
  withSprint w payload (fun p sprint =>
    _ <- deleteSprintBaseline w (sprint_id sprint) ;;
    ret (Success (MessageBody
           ("Baseline for sprint " ++ sprint_name sprint ++ " deleted.")))).

Definition resolve_getSprintHealth (w : World) (payload : option Payload.t) : M Response :=
  withIssues w payload (fun p sprint issues =>
    ret (Success (HealthBody (sprintHealth issues) (sprint_name sprint)))).

Definition resolve_report
    (compute : World -> Payload.t -> Sprint -> list Issue -> Outcome Report)
    (w : World) (payload : option Payload.t) : M Response :=
  withIssues w payload (fun p sprint issues =>
    data <- lift (compute w p sprint issues) ;;
    ret (Success (ReportBody data))).

(** The endpoints registered with [resolver.define]. *)
Inductive Request : Type :=
| getBoardsReq
| getConfigReq (gadgetId : option string)
| saveConfigReq (payload : Config.t) (gadgetId : option string)
| getBurndownDataReq (payload : option Payload.t)
| deleteBaselineReq (payload : option Payload.t)
| getSprintHealthReq (payload : option Payload.t)
| getAtRiskItemsReq (payload : option Payload.t)
| getScopeChangesReq (payload : option Payload.t)
| getHighPriorityItemsReq (payload : option Payload.t)
| getReleaseDataReq (payload : option Payload.t).

(** [export const handler = resolver.getDefinitions()] *)
Definition handler (w : World) (r : Request) : M Response :=
  match r with
  | getBoardsReq => resolve_getBoards w
  | getConfigReq g => resolve_getConfig w g
  | saveConfigReq p g => resolve_saveConfig w p g
  | getBurndownDataReq p => resolve_getBurndownData w p
  | deleteBaselineReq p => resolve_deleteBaseline w p
  | getSprintHealthReq p => resolve_getSprintHealth w p
  | getAtRiskItemsReq p => resolve_report atRiskItems w p
  | getScopeChangesReq p => resolve_report scopeChanges w p
  | getHighPriorityItemsReq p => resolve_report highPriorityItems w p
  | getReleaseDataReq p => resolve_report releaseData w p
  end.

(** A tagged answer carries the [success] flag. *)
Definition tagged (r : Response) : bool :=
  match r with
  | Success _ | Failure _ => true
  | StoredObject _ => false
  end.

(** The explicit reset of the baseline. *)
Definition isReset (r : Request) : bool :=
  match r with deleteBaselineReq _ => true | _ => false end.

End Resolvers.

Arguments Success {Report} body.
Arguments Failure {Report} error.
Arguments StoredObject {Report} v.
Arguments BoardsBody {Report} boards.
Arguments NoBody {Report}.
Arguments MessageBody {Report} message.
Arguments BurndownBody {Report} data.
Arguments HealthBody {Report} counts sprintName.
Arguments ReportBody {Report} data.
Arguments tagged {Report} r.

(** ** The sibling resolver texts

    [src/resolvers/index.js] holds a second resolver text (its lines
    1-1153) that reports the health classification per issue, and
    [src/index.js] holds a third. *)

Inductive Classification : Type := UNDERESTIMATED | NORMAL | GOOD.

Module FirstVariant.

(** [getSprintHealth], the body of [issues.map] (lines 624-648); the
    literal [0.1] is the double nearest to one tenth. *)
Definition classification (issue : Issue) : Classification :=
  let original := secondsToHours64 (timeoriginalestimate issue) in
  let spent := secondsToHours64 (timespent issue) in
  let remaining := secondsToHours64 (timeestimate issue) in
  let totalActual := Double.add spent remaining in
  if Double.ltb original totalActual then UNDERESTIMATED
  else if Double.ltb (Double.abs (Double.sub original totalActual))
                     (Double.div (Double.ofZ 1) (Double.ofZ 10))
       then NORMAL
  else GOOD.

(** The ideal line of this text (lines 508-529):
    [workingDays > 1 ? maxCapacity / (workingDays - 1) : maxCapacity]. *)
Definition dailyDecrease (maxCapacity : Q) (workingDays : Z) : Q :=
  if 1 <? workingDays then (maxCapacity / inject_Z (workingDays - 1))%Q else maxCapacity.

End FirstVariant.

Module IndexVariant.

(** [getSprintHealth] of [src/index.js] (lines 444-453). *)
Definition status (issue : Issue) : Classification :=
  let original := secondsToHours64 (timeoriginalestimate issue) in
  let spent := secondsToHours64 (timespent issue) in
  let remaining := secondsToHours64 (timeestimate issue) in
  let actualTotal := Double.add spent remaining in
  if Double.eqb original (Double.ofZ 0) then NORMAL
  else if Double.ltb original actualTotal then UNDERESTIMATED
  else if Double.ltb actualTotal original then GOOD
  else NORMAL.

End IndexVariant.

(** The classification behind the three counters of [healthStep]. *)
Definition healthBucket (issue : Issue) : Classification :=
  let original := secondsToHours64 (timeoriginalestimate issue) in
  let actualTotal :=
    Double.add (secondsToHours64 (timespent issue)) (secondsToHours64 (timeestimate issue)) in
  if Double.ltb original actualTotal then UNDERESTIMATED
  else if Double.ltb actualTotal original then GOOD
  else NORMAL.

(** *** The engine's figures against the exact ones

    For comparison: the tenths of an hour of a duration, exactly as
    [secondsToHours] has them in [Q], and the double nearest to a number of
    tenths.  The three tests below are run on every duration up to ten
    hours, every pair of figures up to ten hours and every neighbouring
    pair of tenths up to twenty hours. *)








(** ** The rules the specification states, for comparison with the code *)

Module Rule.

(** An item the working set holds as a subtask: typed as one and naming
    its parent. *)
Definition isSubtask (s : Issue) : bool := isSubtaskIssue s && truthy (parent s).

(** The subtasks of [k] present in the working set. *)
Definition presentSubtasks (issues : list Issue) (k : string) : list Issue :=
  List.filter (fun s => isSubtask s && bool_decide (parent s = Some k)) issues.

(** The item's key is the key of a subtask of the working set. *)
Definition countedAsSubtask (issues : list Issue) (i : Issue) : bool :=
  existsb (fun s => isSubtask s && bool_decide (key s = key i)) issues.

(** The item's key is a parent's: some present subtask names it, or the
    tracker says the item has subtasks. *)
Definition countedAsParent (issues : list Issue) (i : Issue) : bool :=
  existsb (fun s => isSubtask s && bool_decide (parent s = Some (key i))) issues
  || existsb (fun p => isParentWithSubtasks p && bool_decide (key p = key i)) issues.

(** What one item contributes to an effective total. *)
Definition contribution (field : Issue -> option Z) (issues : list Issue) (i : Issue) : Q :=
  if countedAsSubtask issues i then 0%Q
  else if countedAsParent issues i then
    reduce_sum (fun sub => secondsToHours (field sub)) (presentSubtasks issues (key i))
  else secondsToHours (field i).

(** Working days elapsed since the sprint start after [k] further days:
    the working days among day 1 .. day [k]. *)
Fixpoint workingDaysElapsed (start : Date) (k : nat) : Z :=
  match k with
  | O => 0
  | S k' =>
      workingDaysElapsed start k'
      + (if isWorkingDay (start + Z.of_nat k * DAY_MS) then 1 else 0)
  end.

(** [idealForDay(n) = max(0, maxCapacity - n * maxCapacity / workingDays)] *)
Definition idealForDay (maxCapacity : Q) (workingDays : Z) (n : Z) : Q :=
  Qmax 0 (maxCapacity - inject_Z n * maxCapacity / inject_Z workingDays)%Q.

(** The forward accumulation: the value after the start point and [k]
    days. *)
Fixpoint forwardAccumulation (total : Q) (logged added removed : Z -> Q)
    (startDay : Z) (k : nat) : Q :=
  match k with
  | O => total
  | S k' =>
      let day := startDay + Z.of_nat k' in
      (forwardAccumulation total logged added removed startDay k'
       - logged day + added day - removed day)%Q
  end.

End Rule.

(** Readings of the two date-indexed tables of the loop. *)
Definition loggedOn (c : LoopConsts) (day : Z) : Q :=
  default 0%Q (lc_worklogByDate c !! day).
Definition addedOn (c : LoopConsts) (day : Z) : Q :=
  ScopeChange.added (default ScopeChange.zero (lc_scopeChangesByDate c !! day)).
Definition removedOn (c : LoopConsts) (day : Z) : Q :=
  ScopeChange.removed (default ScopeChange.zero (lc_scopeChangesByDate c !! day)).

(** The point emitted for the [k]-th day of the sprint, if any (index 0 of
    the series is the start point). *)
Definition pointOfDay (points : list DataPoint.t) (k : nat) : option DataPoint.t :=
  points !! S k.

(** A number of tenths: what [secondsToHours] and [round10] produce. *)
Definition tenths (x : Q) : Prop := exists z : Z, (x == inject_Z z / 10)%Q.

(** The entry of [subtasksByParent] after further subtasks are pushed. *)
Definition mergeSubs (old : option (list Issue)) (new : list Issue) : option (list Issue) :=
  match new with
  | [] => old
  | _ => Some (default [] old ++ new)%list
  end.

(** ** Sample data *)

Module Sample.

Definition subtaskType : IssueType := {| it_subtask := true; it_name := Some "Sub-task" |}.
Definition taskType : IssueType := {| it_subtask := false; it_name := Some "Task" |}.

Definition item (k : string) (ty : IssueType) (owner : option string)
    (st : string) (original remainingSeconds spent : option Z) (createdAt : Date)
    (parentKey : option string) (subs : list string) : Issue :=
  {| key := k; summary := k; status := Some st; priority := Some "Medium";
     assignee := owner; issuetype := Some ty;
     timeoriginalestimate := original; timeestimate := remainingSeconds;
     timespent := spent; duedate := None; created := createdAt;
     parent := parentKey; subtasks := subs |}.

(** A parent with two subtasks of 3h remaining each; [raw] is the
    aggregate the tracker keeps on the parent itself. *)
Definition parentItem (raw : option Z) (owner : string) : Issue :=
  item "P-1" taskType (Some owner) "In Progress" raw raw None 0 None ["P-2"; "P-3"].
Definition sub1 : Issue :=
  item "P-2" subtaskType (Some "alice") "In Progress" (Some 10800) (Some 10800) None 0
       (Some "P-1") [].
Definition sub2 : Issue :=
  item "P-3" subtaskType (Some "bob") "In Progress" (Some 10800) (Some 10800) None 0
       (Some "P-1") [].

End Sample.

(** ** The loop of the data points, unrolled *)

(** The [k]-th day of the sprint as the loop reaches it. *)
Definition dayOfSprint (c : LoopConsts) (k : nat) : Date :=
  lc_startDate c + Z.of_nat k * DAY_MS.

(** [currentDate <= today], both at midnight. *)
Definition isPastOrToday (c : LoopConsts) (current : Date) : bool :=
  setHours0 current <=? lc_today c.

(** The state after [k] passes through the body. *)
Definition stateAfter (c : LoopConsts) (total : Q) (k : nat) : LoopState :=
  Nat.iter k (loopBody c) (initialState c total).

(** The point a pass pushes, in terms of the state it leaves. *)
Definition emittedPoint (c : LoopConsts) (st : LoopState) : DataPoint.t :=
  let st' := loopBody c st in
  let day := toISODate (current st) in
  let whenPast (x : Q) : option Q :=
    if isPastOrToday c (current st) then Some (round10 x) else None in
  {| DataPoint.date := DayLabel day;
     DataPoint.ideal :=
       round10 (Math_max 0%Q (lc_maxCapacity c
                              - lc_dailyDecrease c * inject_Z (workingDayCount st'))%Q);
     DataPoint.remaining := whenPast (runningRemaining st' - addedOn c day)%Q;
     DataPoint.totalRemaining := whenPast (runningRemaining st');
     DataPoint.timeLogged := whenPast (cumulativeLogged st');
     DataPoint.dayLogged := whenPast (loggedOn c day);
     DataPoint.cumulativeLogged := whenPast (cumulativeLogged st');
     DataPoint.added :=
       if Qltb 0%Q (addedOn c day) then round10 (addedOn c day) else 0%Q;
     DataPoint.removed :=
       if Qltb 0%Q (removedOn c day) then (- round10 (removedOn c day))%Q else 0%Q |}.

(** [dp.totalRemaining ?? dp.remaining]: the value of the remaining line
    at a point, as the gadget reads it. *)
Definition remainingValue (p : DataPoint.t) : option Q :=
  match DataPoint.totalRemaining p with
  | Some x => Some x
  | None => DataPoint.remaining p
  end.

(** The locals of [getBurndownData] by name. *)
Definition workingDaysOf (sprint : Sprint) : Z :=
  countWorkingDays (startDate sprint) (endDate sprint).

Definition maxCapacityOf (p : Payload.t) (sprint : Sprint) (allIssues : list Issue) : Q :=
  inject_Z (workingDaysOf sprint * HOURS_PER_DAY * teamSizeOf p allIssues).

Definition totalOriginalEstimateIn (p : Payload.t) (allIssues : list Issue)
    (baseline : Baseline.t) : Q :=
  totalOriginalEstimateOf (filteredBaselineOf p baseline) (issuesOf p allIssues).

Module SampleSprint.

(** Monday 2024-01-01 to Friday 2024-01-12: ten working days. *)
Definition jan (d : Z) : Date := (19722 + d) * DAY_MS.

Definition sprint : Sprint :=
  {| sprint_id := "7"; sprint_name := "PRJ Sprint 7";
     startDate := jan 1; endDate := jan 12 |}.

Definition payload (a : option string) (t : option N) : Payload.t :=
  {| Payload.boardId := Some "1"; Payload.assignee := a;
     Payload.teamSize := t; Payload.expand := false |}.

(** A tracker that answers every request, with the given clock, issues,
    removed issues and worklogs, over a store that never fails. *)
Definition world (today : Date) (issues removedIssues : list Issue)
    (worklogs : string -> list Worklog) : World :=
  {| now := today;
     getBoards := Returned [];
     getActiveSprint := fun _ => Returned (Some sprint);
     getSprintIssues := fun _ => Returned issues;
     getRemovedFromSprintIssues := fun _ _ => removedIssues;
     getIssueChangelog := fun _ => [];
     getIssueWorklogs := worklogs;
     storage_get_error := fun _ => None;
     storage_set_error := fun _ => None;
     storage_delete_error := fun _ => None |}.

Definition plain (k : string) (owner : string) (st : string)
    (original remainingSeconds spent : option Z) (createdAt : Date) : Issue :=
  Sample.item k Sample.taskType (Some owner) st original remainingSeconds spent
              createdAt None [].

(** Two items planned before the sprint (5h and 3h) and one created on
    Wednesday 3 January (2h). *)
Definition issues : list Issue :=
  [ plain "PRJ-1" "alice" "In Progress" (Some 18000) (Some 7200) (Some 10800) (jan (-9));
    plain "PRJ-2" "bob" "To Do" (Some 10800) (Some 10800) None (jan (-9));
    plain "PRJ-3" "alice" "To Do" (Some 7200) (Some 7200) None (jan 3) ].

(** Alice logged 3h on PRJ-1 on Tuesday 2 January. *)
Definition worklogs (k : string) : list Worklog :=
  if String.eqb k "PRJ-1"
  then [ {| started := Some (jan 2 + 36000000); timeSpentSeconds := Some 10800 |} ]
  else [].

Definition baseline : Baseline.t :=
  makeBaseline (world (jan 1) [] [] worklogs) "7"
    (List.filter (fun i => created i <? jan 1) issues).

(** The request of Thursday 4 January, at noon. *)
Definition thursday : World := world (jan 4 + 43200000) issues [] worklogs.

End SampleSprint.

Module SampleHealth.



(** original = 0.3h, spent = 0.1h, remaining = 0.2h: the sum computes to
    0.30000000000000004 *)
Definition sumAbove : Issue :=
  SampleSprint.plain "PRJ-11" "alice" "In Progress" (Some 1080) (Some 720) (Some 360) 0.

(** original = 0.8h, spent = 0.1h, remaining = 0.7h: the sum computes to
    0.7999999999999999 *)
Definition sumBelow : Issue :=
  SampleSprint.plain "PRJ-12" "alice" "In Progress" (Some 2880) (Some 2520) (Some 360) 0.

(** original = 2h, spent = 0.5h, remaining = 1.5h: the sum is 2 *)
Definition onEstimate : Issue :=
  SampleSprint.plain "PRJ-13" "alice" "In Progress" (Some 7200) (Some 5400) (Some 1800) 0.

End SampleHealth.

(** The figures the health classification compares: [original] and
    [actualTotal = spent + remaining], as the resolver computes them. *)
Definition originalOf (issue : Issue) : Double.double :=
  secondsToHours64 (timeoriginalestimate issue).
Definition actualTotalOf (issue : Issue) : Double.double :=
  Double.add (secondsToHours64 (timespent issue)) (secondsToHours64 (timeestimate issue)).

#[global] Instance Classification_eq_dec : EqDecision Classification.
Proof. solve_decision. Defined.

Arguments handler {Report} atRiskItems scopeChanges highPriorityItems releaseData w r.
Arguments resolve_report {Report} compute w payload.
Arguments resolve_getBurndownData {Report} w payload.
Arguments resolve_getConfig {Report} w gadgetId.
Arguments guarded {Report} body.
Arguments withSprint {Report} w payload k.
Arguments withIssues {Report} w payload k.

(** The payload of the endpoints that work on the active sprint of a
    board. *)
Definition sprintRequest (r : Request) : option (option Payload.t) :=
  match r with
  | getBurndownDataReq p | deleteBaselineReq p | getSprintHealthReq p
  | getAtRiskItemsReq p | getScopeChangesReq p | getHighPriorityItemsReq p
  | getReleaseDataReq p => Some p
  | _ => None
  end.

(** The endpoints that fetch the issues of the sprint. *)
Definition fetchesIssues (r : Request) : bool :=
  match r with
  | getBurndownDataReq _ | getSprintHealthReq _ | getAtRiskItemsReq _
  | getScopeChangesReq _ | getHighPriorityItemsReq _ | getReleaseDataReq _ => true
  | _ => false
  end.

(** The request is a burndown request for the sprint [sid] that finds the
    stored baseline [b] corrupted. *)
Definition repairDue (w : World) (r : Request) (sid : string) (b : Baseline.t) : bool :=
  match r with
  | getBurndownDataReq (Some p) =>
      truthy (Payload.boardId p)
      && match getActiveSprint w (default "" (Payload.boardId p)) with
         | Returned (Some sprint) =>
             bool_decide (sprint_id sprint = sid)
             && match getSprintIssues w (sprint_id sprint) with
                | Returned allIssues => isCorrupted b allIssues
                | Thrown _ => false
                end
         | _ => false
         end
  | _ => false
  end.

(** A computation that finds [v] stored under [k] leaves it there. *)
Definition keeps {A : Type} (k : string) (v : Stored) (m : M A) : Prop :=
  forall e, store e !! k = Some v -> store (snd (m e)) !! k = Some v.

(** What a computation returns, if it returns, is tagged. *)
Definition returnsTagged {Report : Type} (m : M (Response Report)) : Prop :=
  forall e resp e', m e = (Returned resp, e') -> tagged resp = true.

(** A computation always returns, and what it returns is tagged. *)
Definition answersTagged {Report : Type} (m : M (Response Report)) : Prop :=
  forall e, exists resp e', m e = (Returned resp, e') /\ tagged resp = true.

Module SampleStore.

(** The store holds the baseline of sprint 7 taken before the sprint. *)
Definition env : Env :=
  {| store := {[ baselineKey "7" := StoredBaseline SampleSprint.baseline ]};
     trace := [] |}.

(** The world of Thursday, with a store whose reads fail. *)
Definition unreadable : World :=
  {| now := now SampleSprint.thursday;
     getBoards := getBoards SampleSprint.thursday;
     getActiveSprint := getActiveSprint SampleSprint.thursday;
     getSprintIssues := getSprintIssues SampleSprint.thursday;
     getRemovedFromSprintIssues := getRemovedFromSprintIssues SampleSprint.thursday;
     getIssueChangelog := getIssueChangelog SampleSprint.thursday;
     getIssueWorklogs := getIssueWorklogs SampleSprint.thursday;
     storage_get_error := fun _ => Some "storage unavailable";
     storage_set_error := fun _ => None;
     storage_delete_error := fun _ => None |}.

(** The reports of the four endpoints whose computation is left open. *)
Definition noReport : World -> Payload.t -> Sprint -> list Issue -> Outcome unit :=
  fun _ _ _ _ => Returned tt.

Definition serve (w : World) (r : Request) : M (Response unit) :=
  handler noReport noReport noReport noReport w r.

End SampleStore.

(** The open computation behind a report endpoint. *)
Definition reportComputation {Report : Type}
    (atRiskItems scopeChanges highPriorityItems releaseData
       : World -> Payload.t -> Sprint -> list Issue -> Outcome Report)
    (r : Request) : option (World -> Payload.t -> Sprint -> list Issue -> Outcome Report) :=
  match r with
  | getAtRiskItemsReq _ => Some atRiskItems
  | getScopeChangesReq _ => Some scopeChanges
  | getHighPriorityItemsReq _ => Some highPriorityItems
  | getReleaseDataReq _ => Some releaseData
  | _ => None
  end.

(** ** The scope totals *)

Definition estimateOf (i : Issue) : Q := secondsToHours (timeoriginalestimate i).

Module SampleScope.

Import SampleSprint.

(** An item of 4h that existed before the sprint and was moved into it on
    Friday 5 January, as its changelog says. *)
Definition latecomer : Issue :=
  plain "PRJ-4" "bob" "To Do" (Some 14400) (Some 14400) None (jan (-9)).

Definition movedIn : History :=
  {| history_created := jan 5 + 32400000;
     items := [ {| field := "Sprint"; fromString := None;
                   toString := Some "PRJ Sprint 7"; from := None; to := Some "7" |} ] |}.

(** The request of Monday 8 January. *)
Definition monday : World :=
  {| now := jan 8 + 43200000;
     getBoards := Returned [];
     getActiveSprint := fun _ => Returned (Some sprint);
     getSprintIssues := fun _ => Returned (issues ++ [latecomer])%list;
     getRemovedFromSprintIssues := fun _ _ => [];
     getIssueChangelog := fun k => if String.eqb k "PRJ-4" then [movedIn] else [];
     getIssueWorklogs := worklogs;
     storage_get_error := fun _ => None;
     storage_set_error := fun _ => None;
     storage_delete_error := fun _ => None |}.

End SampleScope.

Module SampleRun.

Import SampleSprint.

(** The answer to Thursday's request for the whole team of five. *)
Definition teamPayload : Payload.t := payload None (Some 5%N).
Definition consts : LoopConsts := loopConstsOf thursday teamPayload sprint issues.

(** The point of Wednesday 3 January and the point of Friday 5 January. *)
Definition wednesday : DataPoint.t := emittedPoint consts (stateAfter consts 8 2).
Definition friday : DataPoint.t := emittedPoint consts (stateAfter consts 8 4).

(** Alice's own chart. *)
Definition alicePayload : Payload.t := payload (Some "alice") (Some 5%N).

(** A request without a board. *)
Definition boardless : Payload.t :=
  {| Payload.boardId := None; Payload.assignee := None;
     Payload.teamSize := None; Payload.expand := false |}.

End SampleRun.

Module SampleCounts.

Import SampleSprint.

(** Twenty-three current issues, PRJ-A to PRJ-W, none of them done, and a
    baseline of the first twenty. *)
Definition current : list Issue :=
  map (fun n => plain ("PRJ-" ++ String (ascii_of_nat (65 + n)) "") "alice" "To Do"
                      (Some 18000) (Some 18000) None (jan (-9)))
      (seq 0 23).

Definition twenty : Baseline.t := makeBaseline thursday "7" (firstn 20 current).

(** Thursday's tracker with these issues in the sprint. *)
Definition tracker : World := world (jan 4 + 43200000) current [] worklogs.

(** The same tracker over a store whose reads fail. *)
Definition unreadable : World :=
  {| now := now tracker;
     getBoards := getBoards tracker;
     getActiveSprint := getActiveSprint tracker;
     getSprintIssues := getSprintIssues tracker;
     getRemovedFromSprintIssues := getRemovedFromSprintIssues tracker;
     getIssueChangelog := getIssueChangelog tracker;
     getIssueWorklogs := getIssueWorklogs tracker;
     storage_get_error := fun _ => Some "storage unavailable";
     storage_set_error := fun _ => None;
     storage_delete_error := fun _ => None |}.

(** The store holds the baseline of twenty entries. *)
Definition env : Env :=
  {| store := {[ baselineKey "7" := StoredBaseline twenty ]}; trace := [] |}.

End SampleCounts.

(** ** What the date-indexed tables hold *)

(** The day an item is reported as added on, if it is. *)
Definition addedDayOf (w : World) (sprint : Sprint) (issues : list Issue)
    (i : Issue) : option Z :=
  let sprintStartDate := setHours0 (startDate sprint) in
  match issueAddedDate
          (getAllChangelogs w (issuesNeedingChangelogOf sprintStartDate issues))
          sprint sprintStartDate i with
  | Some d => Some (toISODate d)
  | None => None
  end.

(** The day an item is reported as removed on. *)
Definition removedDayOf (w : World) (sprint : Sprint) (removedIssue : Issue) : Z :=
  removeDateOf w sprint
    (getAllChangelogs w (getRemovedFromSprintIssues w (sprint_id sprint) (sprint_name sprint)))
    removedIssue.

(** The worklogs started on a day. *)
Definition worklogsOn (day : Z) (allWorklogs : list Worklog) : list Worklog :=
  List.filter (fun wl => match started wl with
                         | Some s => toISODate s =? day
                         | None => false
                         end) allWorklogs.

(** Every entry of the baseline is a number of tenths of an hour, as
    [saveSprintBaseline] writes them. *)
Definition baselineInTenths (baseline : Baseline.t) : Prop :=
  forall b, In b (Baseline.issues baseline) -> tenths (BaselineIssue.originalEstimate b).


(** ** Sorting by status *)

(** [arr.sort(compare)]: the stable sort of the runtime, for a comparator
    that orders consistently.  [compare h x < 0] places [h] before [x]. *)
Fixpoint insertSorted {A : Type} (compare : A -> A -> Z) (h : A) (l : list A) : list A :=
  match l with
  | [] => [h]
  | x :: r => if compare h x <? 0 then h :: x :: r else x :: insertSorted compare h r
  end.

Definition Array_sort {A : Type} (compare : A -> A -> Z) (l : list A) : list A :=
  fold_left (fun acc h => insertSorted compare h acc) l [].

(** The entries of [STATUS_ORDER], in the order [Object.entries] lists
    them. *)
Definition STATUS_ORDER : list (string * Z) :=
  [ ("in progress", 1); ("in progress - main task", 1);
    ("to do", 2); ("open", 2); ("backlog", 2); ("hold", 2);
    ("done", 3); ("closed", 3); ("resolved", 3); ("complete", 3) ].

Definition getStatusOrder (statusName : option string) : Z :=
  let lower := toLowerCase (orStr statusName "") in
  match List.find (fun entry => includes lower (fst entry)) STATUS_ORDER with
  | Some entry => snd entry
  | None => 2
  end.

(** [sortByStatus(items)]; [statusOf] reads [item.status]. *)
Definition sortByStatus {A : Type} (statusOf : A -> option string) (items : list A) : list A :=
  Array_sort (fun a b => getStatusOrder (statusOf a) - getStatusOrder (statusOf b)) items.

(** ** Items at risk *)

Inductive RiskReason : Type := TIME_BOX_EXCEEDED | DEADLINE_EXCEEDED.

Module AtRiskItem.
Record t := {
  key : string;
  summary : string;
  assignee : string;
  priority : string;
  status : string;
  originalEstimate : Q;
  remainingEstimate : Q;
  riskReason : RiskReason
}.
End AtRiskItem.

Module AtRiskReport.
Record t := { items : list AtRiskItem.t; total : nat; sprintName : string }.
End AtRiskReport.

(** The two triggers of [getAtRiskItems]; [today] is [now] at midnight, and
    the deadline, checked second, overrides the time box. *)
Definition riskReasonOf (today : Date) (issue : Issue) : option RiskReason :=
  let remaining := secondsToHours (timeestimate issue) in
  let original := secondsToHours (timeoriginalestimate issue) in
  let riskReason :=
    if Qeq_bool remaining 0 && Qltb 0 original then Some TIME_BOX_EXCEEDED else None in
  match duedate issue with
  | Some dueDate => if setHours0 dueDate <=? today then Some DEADLINE_EXCEEDED else riskReason
  | None => riskReason
  end.

Definition atRiskItemOf (issue : Issue) (reason : RiskReason) : AtRiskItem.t :=
  {| AtRiskItem.key := key issue;
     AtRiskItem.summary := summary issue;
     AtRiskItem.assignee := orStr (assignee issue) "Unassigned";
     AtRiskItem.priority := orStr (priority issue) "Medium";
     AtRiskItem.status := orStr (status issue) "To Do";
     AtRiskItem.originalEstimate := secondsToHours (timeoriginalestimate issue);
     AtRiskItem.remainingEstimate := secondsToHours (timeestimate issue);
     AtRiskItem.riskReason := reason |}.

(** The [issues.forEach] of [getAtRiskItems]: items whose status names a
    done state are skipped ([isActive] is the same test as in
    [saveSprintBaseline]). *)
Definition collectAtRisk (today : Date) (issues : list Issue) : list AtRiskItem.t :=
  fold_left
    (fun atRiskItems issue =>
       if negb (isActive issue) then atRiskItems
       else match riskReasonOf today issue with
            | Some reason => (atRiskItems ++ [atRiskItemOf issue reason])%list
            | None => atRiskItems
            end)
    issues [].

Definition atRiskItems (w : World) (p : Payload.t) (sprint : Sprint) (issues : list Issue)
  : Outcome AtRiskReport.t :=
  let atRiskItems :=
    sortByStatus (fun item => Some (AtRiskItem.status item))
                 (collectAtRisk (setHours0 (now w)) issues) in
  Returned {| AtRiskReport.items := atRiskItems;
              AtRiskReport.total := length atRiskItems;
              AtRiskReport.sprintName := sprint_name sprint |}.

(** The endpoint [getAtRiskItems]. *)
Definition resolve_getAtRiskItems (w : World) (payload : option Payload.t)
  : M (Response AtRiskReport.t) :=
  resolve_report atRiskItems w payload.

(** ** Scope changes *)

Inductive ChangeType : Type := ADDED | REMOVED.

Module ScopeItem.
Record t := {
  key : string;
  summary : string;
  assignee : string;
  priority : option string;
  status : option string;
  changeType : ChangeType;
  changeDate : Date;
  changeSource : string;
  originalEstimate : Q;
  remainingEstimate : Q
}.
End ScopeItem.

Module ScopeReport.
Record t := {
  added : list ScopeItem.t;
  removed : list ScopeItem.t;
  priorityChanged : list ScopeItem.t;
  totalAdded : nat;
  totalRemoved : nat;
  totalPriorityChanged : nat;
  sprintName : string;
  sprintStartDate : Date
}.
End ScopeReport.

(** [issueAddedDate] and [changeSource] of [getScopeChanges]. *)
Definition scopeAddedDate (allChangelogs : gmap string (list History)) (sprint : Sprint)
    (sprintStartDate : Date) (issue : Issue) : option (Date * string) :=
  let histories := default [] (allChangelogs !! key issue) in
  match fst (analyzeSprintChangelog histories (sprint_name sprint) (sprint_id sprint)) with
  | Some addedDate =>
      let addedDay := setHours0 addedDate in
      if sprintStartDate <? addedDay then Some (addedDay, "sprint_changelog") else None
  | None =>
      let createdDate := setHours0 (created issue) in
      if sprintStartDate <? createdDate then Some (createdDate, "created_after_start") else None
  end.

Definition addedScopeItem (issue : Issue) (change : Date * string) : ScopeItem.t :=
  {| ScopeItem.key := key issue;
     ScopeItem.summary := summary issue;
     ScopeItem.assignee := orStr (assignee issue) "Unassigned";
     ScopeItem.priority := priority issue;
     ScopeItem.status := status issue;
     ScopeItem.changeType := ADDED;
     ScopeItem.changeDate := fst change;
     ScopeItem.changeSource := snd change;
     ScopeItem.originalEstimate := secondsToHours (timeoriginalestimate issue);
     ScopeItem.remainingEstimate := secondsToHours (timeestimate issue) |}.

(** The [allIssues.forEach] of [getScopeChanges]. *)
Definition scopeAdded (w : World) (sprint : Sprint) (allIssues : list Issue)
  : list ScopeItem.t :=
  let sprintStartDate := setHours0 (startDate sprint) in
  let allChangelogs := getAllChangelogs w (issuesNeedingChangelogOf sprintStartDate allIssues) in
  fold_left
    (fun added issue =>
       match scopeAddedDate allChangelogs sprint sprintStartDate issue with
       | Some change => (added ++ [addedScopeItem issue change])%list
       | None => added
       end)
    allIssues [].

Definition removedScopeItem (w : World) (sprint : Sprint)
    (removedChangelogs : gmap string (list History)) (removedIssue : Issue) : ScopeItem.t :=
  let histories := default [] (removedChangelogs !! key removedIssue) in
  let removedDate :=
    snd (analyzeSprintChangelog histories (sprint_name sprint) (sprint_id sprint)) in
  {| ScopeItem.key := key removedIssue;
     ScopeItem.summary := summary removedIssue;
     ScopeItem.assignee := orStr (assignee removedIssue) "Unassigned";
     ScopeItem.priority := priority removedIssue;
     ScopeItem.status := Some (orStr (status removedIssue) "Removed from sprint");
     ScopeItem.changeType := REMOVED;
     ScopeItem.changeDate := default (now w) removedDate;
     ScopeItem.changeSource :=
       match removedDate with Some _ => "sprint_changelog" | None => "jql_was_sprint" end;
     ScopeItem.originalEstimate := secondsToHours (timeoriginalestimate removedIssue);
     ScopeItem.remainingEstimate := secondsToHours (timeestimate removedIssue) |}.

(** The loop over [removedFromSprintIssues] of [getScopeChanges]. *)
Definition scopeRemoved (w : World) (sprint : Sprint) : list ScopeItem.t :=
  let removedFromSprintIssues :=
    getRemovedFromSprintIssues w (sprint_id sprint) (sprint_name sprint) in
  let removedChangelogs := getAllChangelogs w removedFromSprintIssues in
  map (removedScopeItem w sprint removedChangelogs) removedFromSprintIssues.

Definition scopeChanges (w : World) (p : Payload.t) (sprint : Sprint) (allIssues : list Issue)
  : Outcome ScopeReport.t :=
  let added := sortByStatus ScopeItem.status (scopeAdded w sprint allIssues) in
  let removed := scopeRemoved w sprint in
  Returned {| ScopeReport.added := added;
              ScopeReport.removed := removed;
              ScopeReport.priorityChanged := [];
              ScopeReport.totalAdded := length added;
              ScopeReport.totalRemoved := length removed;
              ScopeReport.totalPriorityChanged := 0;
              ScopeReport.sprintName := sprint_name sprint;
              ScopeReport.sprintStartDate := startDate sprint |}.

(** The endpoint [getScopeChanges]. *)
Definition resolve_getScopeChanges (w : World) (payload : option Payload.t)
  : M (Response ScopeReport.t) :=
  resolve_report scopeChanges w payload.

(** ** High-priority items *)

Module PriorityItem.
Record t := {
  key : string;
  summary : string;
  assignee : string;
  priority : string;
  status : option string;
  dueDate : option Date;
  originalEstimate : Q;
  remainingEstimate : Q;
  timeSpent : Q
}.
End PriorityItem.

Module PriorityReport.
Record t := {
  items : list PriorityItem.t;
  total : nat;
  highestCount : nat;
  highCount : nat;
  mediumCount : nat;
  lowCount : nat;
  lowestCount : nat;
  sprintName : string;
  isExpanded : bool
}.
End PriorityReport.

Definition priorityOrder : list (string * Z) :=
  [ ("Highest", 1); ("High", 2); ("Medium", 3); ("Low", 4); ("Lowest", 5) ].

(** [priorityOrder[name] || 3], for the priority names of the tracker. *)
Definition priorityRank (name : string) : Z :=
  match List.find (fun entry => String.eqb (fst entry) name) priorityOrder with
  | Some entry => snd entry
  | None => 3
  end.

Definition priorityItemOf (issue : Issue) : PriorityItem.t :=
  {| PriorityItem.key := key issue;
     PriorityItem.summary := summary issue;
     PriorityItem.assignee := orStr (assignee issue) "Unassigned";
     PriorityItem.priority := orStr (priority issue) "Medium";
     PriorityItem.status := status issue;
     PriorityItem.dueDate := duedate issue;
     PriorityItem.originalEstimate := secondsToHours (timeoriginalestimate issue);
     PriorityItem.remainingEstimate := secondsToHours (timeestimate issue);
     PriorityItem.timeSpent := secondsToHours (timespent issue) |}.

(** The comparator of [allItems.sort]: status first, then priority. *)
Definition comparePriorityItems (a b : PriorityItem.t) : Z :=
  let statusA := getStatusOrder (PriorityItem.status a) in
  let statusB := getStatusOrder (PriorityItem.status b) in
  if negb (statusA =? statusB) then statusA - statusB
  else priorityRank (PriorityItem.priority a) - priorityRank (PriorityItem.priority b).

(** [allItems.filter(i => i.priority === name).length] *)
Definition countPriority (name : string) (allItems : list PriorityItem.t) : nat :=
  length (List.filter (fun i => String.eqb (PriorityItem.priority i) name) allItems).

Definition highPriorityItems (w : World) (p : Payload.t) (sprint : Sprint)
    (issues : list Issue) : Outcome PriorityReport.t :=
  let allItems := Array_sort comparePriorityItems (map priorityItemOf issues) in
  let displayItems := if Payload.expand p then allItems else firstn 5 allItems in
  Returned {| PriorityReport.items := displayItems;
              PriorityReport.total := length allItems;
              PriorityReport.highestCount := countPriority "Highest" allItems;
              PriorityReport.highCount := countPriority "High" allItems;
              PriorityReport.mediumCount := countPriority "Medium" allItems;
              PriorityReport.lowCount := countPriority "Low" allItems;
              PriorityReport.lowestCount := countPriority "Lowest" allItems;
              PriorityReport.sprintName := sprint_name sprint;
              PriorityReport.isExpanded := Payload.expand p |}.

(** The endpoint [getHighPriorityItems]. *)
Definition resolve_getHighPriorityItems (w : World) (payload : option Payload.t)
  : M (Response PriorityReport.t) :=
  resolve_report highPriorityItems w payload.

(** ** Releases *)

Record Version := {
  version_id : string;
  version_name : string;
  version_description : option string;
  version_releaseDate : option Date;
  version_released : bool                (* version.released || false *)
}.

(** An issue with its [fields.fixVersions] ([None] when the field is
    missing). *)
Record VersionedIssue := {
  vi_issue : Issue;
  fixVersions : option (list Version)
}.

Module ReleaseItem.
Record t := {
  key : string;
  summary : string;
  status : option string;
  priority : option string;
  assignee : string;
  isDone : bool;
  estimate : Q
}.
End ReleaseItem.

(** A value of [releaseMap]. *)
Module ReleaseEntry.
Record t := {
  id : string;
  name : string;
  description : string;
  releaseDate : option Date;
  released : bool;
  totalIssues : nat;
  doneIssues : nat;
  totalEstimate : Q;
  doneEstimate : Q;
  issues : list ReleaseItem.t
}.
End ReleaseEntry.

(** A release of the answer: the entry with its progress. *)
Module Release.
Record t := {
  id : string;
  name : string;
  description : string;
  releaseDate : option Date;
  released : bool;
  totalIssues : nat;
  doneIssues : nat;
  totalEstimate : Q;
  doneEstimate : Q;
  issues : list ReleaseItem.t;
  progress : Double.double
}.
End Release.

Module ReleaseReport.
Record t := {
  releases : list Release.t;
  totalReleases : nat;
  unversionedCount : nat;
  sprintName : string
}.
End ReleaseReport.

(** [doneStatuses.some(s => status.includes(s))] on the lower-cased
    status. *)
Definition isDoneStatus (issue : Issue) : bool :=
  let status := toLowerCase (orStr (status issue) "") in
  existsb (fun s => includes status s) doneStatuses.

Definition newRelease (version : Version) : ReleaseEntry.t :=
  {| ReleaseEntry.id := version_id version;
     ReleaseEntry.name := version_name version;
     ReleaseEntry.description := orStr (version_description version) "";
     ReleaseEntry.releaseDate := version_releaseDate version;
     ReleaseEntry.released := version_released version;
     ReleaseEntry.totalIssues := 0;
     ReleaseEntry.doneIssues := 0;
     ReleaseEntry.totalEstimate := 0%Q;
     ReleaseEntry.doneEstimate := 0%Q;
     ReleaseEntry.issues := [] |}.

Definition releaseItemOf (issue : Issue) : ReleaseItem.t :=
  {| ReleaseItem.key := key issue;
     ReleaseItem.summary := summary issue;
     ReleaseItem.status := status issue;
     ReleaseItem.priority := priority issue;
     ReleaseItem.assignee := orStr (assignee issue) "Unassigned";
     ReleaseItem.isDone := isDoneStatus issue;
     ReleaseItem.estimate := secondsToHours (timeoriginalestimate issue) |}.

(** What the body of [versions.forEach] does to the entry of the
    version. *)
Definition countIssue (issue : Issue) (release : ReleaseEntry.t) : ReleaseEntry.t :=
  let isDone := isDoneStatus issue in
  let estimate := secondsToHours (timeoriginalestimate issue) in
  {| ReleaseEntry.id := ReleaseEntry.id release;
     ReleaseEntry.name := ReleaseEntry.name release;
     ReleaseEntry.description := ReleaseEntry.description release;
     ReleaseEntry.releaseDate := ReleaseEntry.releaseDate release;
     ReleaseEntry.released := ReleaseEntry.released release;
     ReleaseEntry.totalIssues := S (ReleaseEntry.totalIssues release);
     ReleaseEntry.doneIssues :=
       if isDone then S (ReleaseEntry.doneIssues release) else ReleaseEntry.doneIssues release;
     ReleaseEntry.totalEstimate := (ReleaseEntry.totalEstimate release + estimate)%Q;
     ReleaseEntry.doneEstimate :=
       if isDone then (ReleaseEntry.doneEstimate release + estimate)%Q
       else ReleaseEntry.doneEstimate release;
     ReleaseEntry.issues := (ReleaseEntry.issues release ++ [releaseItemOf issue])%list |}.

(** [releaseMap]: a [Map] keeps its keys in the order of their first
    insertion.  One pass of [versions.forEach]: the entry of [version.id]
    is created if the map does not have it, then updated. *)
Fixpoint recordVersion (issue : Issue) (version : Version)
    (releaseMap : list (string * ReleaseEntry.t)) : list (string * ReleaseEntry.t) :=
  match releaseMap with
  | [] => [(version_id version, countIssue issue (newRelease version))]
  | (k, release) :: rest =>
      if String.eqb k (version_id version) then (k, countIssue issue release) :: rest
      else (k, release) :: recordVersion issue version rest
  end.

Definition buildReleaseMap (issues : list VersionedIssue) : list (string * ReleaseEntry.t) :=
  fold_left
    (fun releaseMap issue =>
       fold_left (fun m version => recordVersion (vi_issue issue) version m)
                 (default [] (fixVersions issue)) releaseMap)
    issues [].

(** [Math.round((r.doneIssues / r.totalIssues) * 100)], on doubles. *)
Definition progressOf (doneIssues totalIssues : nat) : Double.double :=
  Double.Math_round
    (Double.mul (Double.div (Double.ofZ (Z.of_nat doneIssues))
                            (Double.ofZ (Z.of_nat totalIssues)))
                (Double.ofZ 100)).

(** For comparison with the engine's figure: the percentage rounded half
    up from the exact quotient, and whether the exact percentage lies half
    way between two whole numbers. *)
Definition exactProgress (doneIssues totalIssues : nat) : Z :=
  (200 * Z.of_nat doneIssues + Z.of_nat totalIssues) / (2 * Z.of_nat totalIssues).
Definition halfWay (doneIssues totalIssues : nat) : bool :=
  (200 * Z.of_nat doneIssues + Z.of_nat totalIssues) mod (2 * Z.of_nat totalIssues) =? 0.

(** The engine's figure is the exact one, or one below it on a half. *)
Definition progressAsExact (doneIssues totalIssues : nat) : bool :=
  Double.same (progressOf doneIssues totalIssues)
              (Double.ofZ (exactProgress doneIssues totalIssues))
  || (halfWay doneIssues totalIssues
      && Double.same (progressOf doneIssues totalIssues)
                     (Double.ofZ (exactProgress doneIssues totalIssues - 1))).

Definition finishRelease (r : ReleaseEntry.t) : Release.t :=
  {| Release.id := ReleaseEntry.id r;
     Release.name := ReleaseEntry.name r;
     Release.description := ReleaseEntry.description r;
     Release.releaseDate := ReleaseEntry.releaseDate r;
     Release.released := ReleaseEntry.released r;
     Release.totalIssues := ReleaseEntry.totalIssues r;
     Release.doneIssues := ReleaseEntry.doneIssues r;
     Release.totalEstimate := round10 (ReleaseEntry.totalEstimate r);
     Release.doneEstimate := round10 (ReleaseEntry.doneEstimate r);
     Release.issues := sortByStatus ReleaseItem.status (ReleaseEntry.issues r);
     Release.progress :=
       if (0 <? ReleaseEntry.totalIssues r)%nat
       then progressOf (ReleaseEntry.doneIssues r) (ReleaseEntry.totalIssues r)
       else Double.ofZ 0 |}.

(** [new Date('9999-12-31')] *)
Definition NO_RELEASE_DATE : Date := 253402214400000.

(** The comparator of [releases.sort]: unreleased first, then by release
    date, undated last. *)
Definition compareReleases (a b : Release.t) : Z :=
  if negb (Bool.eqb (Release.released a) (Release.released b))
  then (if Release.released a then 1 else -1)
  else default NO_RELEASE_DATE (Release.releaseDate a)
       - default NO_RELEASE_DATE (Release.releaseDate b).

Definition isUnversioned (issue : VersionedIssue) : bool :=
  match fixVersions issue with
  | None | Some [] => true
  | Some (_ :: _) => false
  end.

Definition releaseData (sprint : Sprint) (issues : list VersionedIssue) : ReleaseReport.t :=
  let releases :=
    Array_sort compareReleases (map (fun '(_, r) => finishRelease r) (buildReleaseMap issues)) in
  {| ReleaseReport.releases := releases;
     ReleaseReport.totalReleases := length releases;
     ReleaseReport.unversionedCount := length (List.filter isUnversioned issues);
     ReleaseReport.sprintName := sprint_name sprint |}.

(** ** Orderings of the sorts *)

(** [a] may stand before [b]: the comparator does not put [b] first. *)
Definition inOrder {A : Type} (compare : A -> A -> Z) (a b : A) : Prop := compare a b <= 0.

(** [x] ranks with [c]: neither is put before the other. *)
Definition sameRank {A : Type} (compare : A -> A -> Z) (c x : A) : bool :=
  (compare c x <=? 0) && (compare x c <=? 0).

(** A comparator that subtracts whole-number ranks. *)
Definition byRank {A : Type} (rank : A -> Z) (a b : A) : Z := rank a - rank b.

(** ** The release map, read back *)

(** The (issue, version) pairs in the order the two nested [forEach]es of
    [getReleaseData] visit them. *)
Definition versionPairs (issues : list VersionedIssue) : list (Issue * Version) :=
  flat_map (fun issue => map (fun version => (vi_issue issue, version))
                             (default [] (fixVersions issue)))
           issues.

(** The issues filed under the version id [k], in that order (an issue
    that lists the id twice is there twice). *)
Definition issuesOfVersion (k : string) (issues : list VersionedIssue) : list Issue :=
  map fst (List.filter (fun pair => String.eqb (version_id (snd pair)) k)
                       (versionPairs issues)).

(** [releaseMap.get(k)] *)
Fixpoint releaseMap_get (k : string) (releaseMap : list (string * ReleaseEntry.t))
  : option ReleaseEntry.t :=
  match releaseMap with
  | [] => None
  | (k', release) :: rest =>
      if String.eqb k' k then Some release else releaseMap_get k rest
  end.

(** The release date the comparator of the releases uses. *)
Definition releaseDateOrNone (r : Release.t) : Date :=
  default NO_RELEASE_DATE (Release.releaseDate r).

(** ** Counting days *)

(** The working days among the [n] days that begin with [current]. *)
Fixpoint workingDaysFrom (current : Date) (n : nat) : Z :=
  match n with
  | O => 0
  | S n' => (if isWorkingDay current then 1 else 0) + workingDaysFrom (nextDay current) n'
  end.

(** ** The moves of a changelog *)

(** What a changelog item says about the sprint: the issue entered it,
    left it, or neither. *)
Inductive SprintMove : Type := Entered | Departed | Unmoved.

Definition moveOf (sprintName sprintId : string) (item : HistoryItem) : SprintMove :=
  if String.eqb (field item) "Sprint" then
    let wasInFrom := includes (default "" (fromString item)) sprintName
                     || includes (default "" (from item)) sprintId in
    let isInTo := includes (default "" (toString item)) sprintName
                  || includes (default "" (to item)) sprintId in
    if negb wasInFrom && isInTo then Entered
    else if wasInFrom && negb isInTo then Departed
    else Unmoved
  else Unmoved.

(** The moves of the changelog with their times, oldest first. *)
Definition sprintMoves (histories : list History) (sprintName sprintId : string)
  : list (Date * SprintMove) :=
  flat_map (fun history =>
              map (fun item => (history_created history, moveOf sprintName sprintId item))
                  (items history))
           (sortByCreated histories).

Definition isMove (e : Date * SprintMove) : bool :=
  match snd e with Unmoved => false | _ => true end.

Definition isDeparture (e : Date * SprintMove) : bool :=
  match snd e with Departed => true | _ => false end.

(** The hours logged on the first [k] days from [startDay]. *)
Fixpoint loggedThrough (logged : Z -> Q) (startDay : Z) (k : nat) : Q :=
  match k with
  | O => 0%Q
  | S k' => (loggedThrough logged startDay k' + logged (startDay + Z.of_nat k')%Z)%Q
  end.

(** The items whose own figures an effective total is to read: the
    subtasks, and the items that are not parents. *)
Definition isLeaf (issues : list Issue) (i : Issue) : bool :=
  Rule.isSubtask i || negb (Rule.countedAsParent issues i).

(** ** Issue details of the burndown answer *)

Module IssueDetail.
Record t := {
  key : string;
  summary : string;
  assignee : string;
  status : string;
  originalEstimate : Double.double;
  remainingEstimate : Double.double;
  timeSpent : Double.double;
  issueType : string;
  isSubtask : bool;
  hasSubtasks : bool;
  skippedInTotal : bool;
  subtaskCount : nat;
  parentKey : option string
}.
End IssueDetail.

(** The body of [issues.map] that builds [issueDetails]; [m] is
    [buildSubtaskMap(issues)].  The figures of a row are emitted as they
    are computed, without rounding: a parent's are sums of doubles. *)
Definition issueDetailOf (m : SubtaskMap) (i : Issue) : IssueDetail.t :=
  let isSubtask := isSubtaskIssue i || bool_decide (key i ∈ subtaskKeys m) in
  let hasSubtasks := bool_decide (key i ∈ parentKeys m) in
  let hasSubtasksInList := subtasksInList m (key i) in
  let effective (field : Issue -> option Z) : Double.double :=
    if hasSubtasks then
      match hasSubtasksInList with
      | Some subs => Double.reduce_sum (fun sub => secondsToHours64 (field sub)) subs
      | None => secondsToHours64 (field i)
      end
    else secondsToHours64 (field i) in
  {| IssueDetail.key := key i;
     IssueDetail.summary := summary i;
     IssueDetail.assignee := orStr (assignee i) "Unassigned";
     IssueDetail.status := orStr (status i) "To Do";
     IssueDetail.originalEstimate := effective timeoriginalestimate;
     IssueDetail.remainingEstimate := effective timeestimate;
     IssueDetail.timeSpent := effective timespent;
     IssueDetail.issueType :=
       orStr (match issuetype i with Some t => it_name t | None => None end) "Task";
     IssueDetail.isSubtask := isSubtask;
     IssueDetail.hasSubtasks := hasSubtasks;
     IssueDetail.skippedInTotal :=
       hasSubtasks && match hasSubtasksInList with Some _ => false | None => true end;
     IssueDetail.subtaskCount := length (subtasks i);
     IssueDetail.parentKey := if truthy (parent i) then parent i else None |}.

Definition issueDetailsOf (issues : list Issue) : list IssueDetail.t :=
  sortByStatus (fun detail => Some (IssueDetail.status detail))
               (map (issueDetailOf (buildSubtaskMap issues)) issues).

(** The rows of [issueDetails] that enter the totals: neither a subtask
    nor skipped. *)
Definition countedInTotal (detail : IssueDetail.t) : bool :=
  negb (IssueDetail.isSubtask detail) && negb (IssueDetail.skippedInTotal detail).

(** ** Issues removed from the sprint *)

(** The answer of a search request: [response.ok] and [data.issues]. *)
Record SearchResponse := {
  ok : bool;
  data_issues : option (list Issue)
}.

(** The search endpoints [getRemovedFromSprintIssues] calls, by the query
    they are given; a request may throw. *)
Record Searches := {
  searchGet : string -> Outcome SearchResponse;        (* GET  /rest/api/2/search *)
  searchJqlPost : string -> Outcome SearchResponse;    (* POST /rest/api/3/search/jql *)
  searchPost : string -> Outcome SearchResponse        (* POST /rest/api/2/search *)
}.

(** What one method finds: [data.issues || []] of a response that is ok;
    nothing from a response that is not, or from a request that threw
    (each method catches its own errors). *)
Definition issuesFound (r : Outcome SearchResponse) : list Issue :=
  match r with
  | Returned response => if ok response then default [] (data_issues response) else []
  | Thrown _ => []
  end.

Definition isUpper (c : ascii) : bool :=
  let n := nat_of_ascii c in (65 <=? n)%nat && (n <=? 90)%nat.

(** [sprintName.match(/^([A-Z]+)/)]: the leading capital letters. *)
Fixpoint leadingCapitals (s : string) : string :=
  match s with
  | String c r => if isUpper c then String c (leadingCapitals r) else EmptyString
  | EmptyString => EmptyString
  end.

Definition quote : string := String (ascii_of_nat 34) EmptyString.

Definition jqlById (sprintId : string) : string :=
  "sprint was " ++ sprintId ++ " AND sprint != " ++ sprintId.

Definition jqlByName (sprintName : string) : string :=
  "sprint was " ++ quote ++ sprintName ++ quote
  ++ " AND sprint != " ++ quote ++ sprintName ++ quote.

Definition jqlByIdNot (sprintId : string) : string :=
  "sprint was " ++ sprintId ++ " AND NOT sprint = " ++ sprintId.

Definition jqlRecent (sprintId sprintName : string) : string :=
  let projectJql :=
    match leadingCapitals sprintName with
    | EmptyString => ""
    | project => "project = " ++ project ++ " AND "
    end in
  projectJql ++ "updated >= -30d AND sprint != " ++ sprintId ++ " ORDER BY updated DESC".

(** The test of method 4 on the changelog of a candidate: some Sprint item
    whose origin names the sprint and whose target does not. *)
Definition leftSprint (sprintName sprintId : string) (histories : list History) : bool :=
  existsb
    (fun history =>
       existsb
         (fun item =>
            String.eqb (field item) "Sprint"
            && (let fromStr := default "" (fromString item) in
                let toStr := default "" (toString item) in
                let fromId := default "" (from item) in
                let wasInSprint := includes fromStr sprintName || includes fromId sprintId in
                let stillInSprint := includes toStr sprintName in
                wasInSprint && negb stillInSprint))
         (items history))
    histories.

(** [getRemovedFromSprintIssues], over the searches [s] and the
    changelogs of [w]. *)
Definition removedFromSprint (s : Searches) (w : World) (sprintId sprintName : string)
  : list Issue :=
  match issuesFound (searchGet s (jqlById sprintId)) with
  | (_ :: _) as issues => issues
  | [] =>
      match (if truthy (Some sprintName)
             then issuesFound (searchJqlPost s (jqlByName sprintName)) else []) with
      | (_ :: _) as issues2 => issues2
      | [] =>
          match issuesFound (searchPost s (jqlByIdNot sprintId)) with
          | (_ :: _) as issues3 => issues3
          | [] =>
              if truthy (Some sprintName) then
                let candidateIssues :=
                  issuesFound (searchPost s (jqlRecent sprintId sprintName)) in
                List.filter
                  (fun issue => leftSprint sprintName sprintId (getIssueChangelog w (key issue)))
                  (firstn 100 candidateIssues)
              else []
          end
      end
  end.

(** ** Further sample data *)

Module SampleReleases.

Import SampleSprint.

(** Version 1.0 is due on 15 January; version 1.1 has no date yet. *)
Definition v10 : Version :=
  {| version_id := "10000"; version_name := "1.0"; version_description := None;
     version_releaseDate := Some (jan 15); version_released := false |}.
Definition v11 : Version :=
  {| version_id := "10001"; version_name := "1.1"; version_description := None;
     version_releaseDate := None; version_released := false |}.

(** PRJ-1 and PRJ-3 go into 1.0, PRJ-2 into both, and a finished item
    into 1.0. *)
Definition finished : Issue :=
  plain "PRJ-5" "bob" "Done" (Some 3600) None (Some 3600) (jan (-9)).

Definition issues : list VersionedIssue :=
  [ {| vi_issue := plain "PRJ-1" "alice" "In Progress" (Some 18000) (Some 7200)
                         (Some 10800) (jan (-9));
       fixVersions := Some [v10] |};
    {| vi_issue := plain "PRJ-2" "bob" "To Do" (Some 10800) (Some 10800) None (jan (-9));
       fixVersions := Some [v10; v11] |};
    {| vi_issue := finished; fixVersions := Some [v10] |};
    {| vi_issue := plain "PRJ-3" "alice" "To Do" (Some 7200) (Some 7200) None (jan 3);
       fixVersions := None |} ].

(** The release the answer lists first. *)
Definition first : Release.t :=
  nth 0 (ReleaseReport.releases (releaseData sprint issues))
      (finishRelease (newRelease v10)).

End SampleReleases.

Module SampleChangelog.

Import SampleSprint.

(** The item of [SampleScope] left the sprint again on Tuesday 9 January. *)
Definition movedOut : History :=
  {| history_created := jan 9 + 32400000;
     items := [ {| field := "Sprint"; fromString := Some "PRJ Sprint 7";
                   toString := None; from := Some "7"; to := None |} ] |}.

End SampleChangelog.

Module SampleFamily.

(** A parent of 6h with its two subtasks of 3h, all in the working set. *)
Definition issues : list Issue :=
  [Sample.parentItem (Some 21600) "alice"; Sample.sub1; Sample.sub2].

(** The same family when the parent belongs to Bob. *)
Definition bobsParent : list Issue :=
  [Sample.parentItem (Some 21600) "bob"; Sample.sub1; Sample.sub2].

End SampleFamily.

Module SampleConfig.

Definition config : Config.t :=
  {| Config.boardId := Some "1"; Config.teamSize := Some 5%N; Config.workingDays := Some 10 |}.

End SampleConfig.

(** * Properties *)

(** ** Arithmetic of the embedding *)

(** Division by ten, in the form the linear solver reads. *)
Ltac tenth_form :=
  unfold Qdiv in *; change (/ 10)%Q with (1 # 10)%Q in *.

Lemma Qltb_lt (a b : Q) : Qltb a b = true <-> (a < b)%Q.
Proof.
  unfold Qltb. rewrite Qlt_alt. destruct (Qcompare a b); split; congruence.
Qed.

Lemma Qltb_ge (a b : Q) : Qltb a b = false <-> (b <= a)%Q.
Proof.
  split; intros H.
  - apply Qnot_lt_le. intros Hlt. apply Qltb_lt in Hlt. congruence.
  - destruct (Qltb a b) eqn:E; [|reflexivity].
    apply Qltb_lt in E. exfalso. apply (Qlt_not_le _ _ E H).
Qed.

Lemma Math_max_Qmax (a b : Q) : (Math_max a b == Qmax a b)%Q.
Proof.
  unfold Math_max. destruct (Qle_bool a b) eqn:E.
  - apply Qle_bool_iff in E. symmetry. apply Q.max_r. exact E.
  - assert (H : (b <= a)%Q).
    { apply Qnot_lt_le. intros Hlt. apply Qlt_le_weak in Hlt.
      apply Qle_bool_iff in Hlt. congruence. }
    symmetry. apply Q.max_l. exact H.
Qed.

Lemma Math_round_inject_Z (z : Z) : Math_round (inject_Z z) = z.
Proof.
  unfold Math_round.
  assert (H1 : (inject_Z z <= inject_Z z + (1 # 2))%Q) by lra.
  assert (H2 : (inject_Z z + (1 # 2) < inject_Z (z + 1))%Q).
  { rewrite inject_Z_plus. change (inject_Z 1) with 1%Q. lra. }
  pose proof (Qfloor_le (inject_Z z + (1 # 2))) as Hle.
  pose proof (Qlt_floor (inject_Z z + (1 # 2))) as Hlt.
  set (f := Qfloor (inject_Z z + (1 # 2))) in *.
  assert (Hzf : (z <= f)%Z).
  { apply Z.lt_succ_r. rewrite Zlt_Qlt. unfold Z.succ.
    eapply Qle_lt_trans; [exact H1 | exact Hlt]. }
  assert (Hfz : (f < z + 1)%Z).
  { rewrite Zlt_Qlt. eapply Qle_lt_trans; [exact Hle | exact H2]. }
  lia.
Qed.

Lemma Math_round_proper (x y : Q) : (x == y)%Q -> Math_round x = Math_round y.
Proof. intros H. unfold Math_round. apply Qfloor_comp. rewrite H. reflexivity. Qed.

Lemma round10_proper (x y : Q) : (x == y)%Q -> (round10 x == round10 y)%Q.
Proof.
  intros H. unfold round10.
  rewrite (Math_round_proper (x * 10) (y * 10)); [reflexivity | rewrite H; reflexivity].
Qed.

Lemma round10_tenths (x : Q) : tenths x -> (round10 x == x)%Q.
Proof.
  intros [z Hz]. unfold round10.
  rewrite (Math_round_proper (x * 10) (inject_Z z)).
  - rewrite Math_round_inject_Z. symmetry. exact Hz.
  - rewrite Hz. field.
Qed.

Lemma round10_is_tenths (x : Q) : tenths (round10 x).
Proof. exists (Math_round (x * 10)). reflexivity. Qed.

Lemma tenths_inject_Z (z : Z) : tenths (inject_Z z).
Proof.
  exists (z * 10)%Z. rewrite inject_Z_mult. change (inject_Z 10) with 10%Q. field.
Qed.

Lemma tenths_proper (x y : Q) : (x == y)%Q -> tenths x -> tenths y.
Proof. intros H [z Hz]. exists z. rewrite <- H. exact Hz. Qed.

Lemma tenths_plus (x y : Q) : tenths x -> tenths y -> tenths (x + y).
Proof.
  intros [a Ha] [b Hb]. exists (a + b)%Z.
  rewrite Ha, Hb, inject_Z_plus. field.
Qed.

Lemma tenths_minus (x y : Q) : tenths x -> tenths y -> tenths (x - y).
Proof.
  intros [a Ha] [b Hb]. exists (a - b)%Z.
  rewrite Ha, Hb. unfold Z.sub. rewrite inject_Z_plus, inject_Z_opp. field.
Qed.

Lemma secondsToHours_tenths (s : option Z) : tenths (secondsToHours s).
Proof.
  destruct s as [s|]; simpl.
  - destruct (s =? 0)%Z; [apply (tenths_inject_Z 0) | apply round10_is_tenths].
  - apply (tenths_inject_Z 0).
Qed.

(** Two numbers of tenths that differ do so by a tenth at least. *)
Lemma tenths_gap (x y : Q) : tenths x -> tenths y -> (x < y)%Q -> (x + (1 # 10) <= y)%Q.
Proof.
  intros [a Ha] [b Hb] Hlt.
  assert (Hab : (a < b)%Z).
  { rewrite Zlt_Qlt. rewrite Ha, Hb in Hlt. tenth_form. lra. }
  assert (Hab' : (inject_Z (a + 1) <= inject_Z b)%Q).
  { rewrite <- Zle_Qle. lia. }
  rewrite inject_Z_plus in Hab'. change (inject_Z 1) with 1%Q in Hab'.
  rewrite Ha, Hb. tenth_form. lra.
Qed.

(** ** Sums *)

Lemma fold_sum_shift {A : Type} (f : A -> Q) (l : list A) (a : Q) :
  (fold_left (fun sum x => sum + f x)%Q l a == a + reduce_sum f l)%Q.
Proof.
  unfold reduce_sum. revert a.
  induction l as [|x l IH]; intros a; simpl.
  - lra.
  - rewrite (IH (a + f x)%Q), (IH (0 + f x)%Q). lra.
Qed.

Lemma reduce_sum_cons {A : Type} (f : A -> Q) (x : A) (l : list A) :
  (reduce_sum f (x :: l) == f x + reduce_sum f l)%Q.
Proof.
  unfold reduce_sum at 1. simpl. rewrite fold_sum_shift. lra.
Qed.

Lemma reduce_sum_app {A : Type} (f : A -> Q) (l1 l2 : list A) :
  (reduce_sum f (l1 ++ l2)%list == reduce_sum f l1 + reduce_sum f l2)%Q.
Proof.
  induction l1 as [|x l1 IH]; simpl.
  - unfold reduce_sum at 2. simpl. lra.
  - rewrite !reduce_sum_cons, IH. lra.
Qed.

(** A loop whose every step adds [g x] to its total computes the sum of
    [g]. *)
Lemma fold_additive {A : Type} (step : Q -> A -> Q) (g : A -> Q) (l : list A) :
  (forall t x, In x l -> (step t x == t + g x)%Q) ->
  (forall t t' x, In x l -> (t == t')%Q -> (step t x == step t' x)%Q) ->
  forall a, (fold_left step l a == a + reduce_sum g l)%Q.
Proof.
  induction l as [|x l IH]; intros Hstep Hprop a; simpl.
  - unfold reduce_sum. simpl. lra.
  - rewrite IH.
    + rewrite reduce_sum_cons, Hstep; [lra | left; reflexivity].
    + intros t y Hy. apply Hstep. right. exact Hy.
    + intros t t' y Hy. apply Hprop. right. exact Hy.
Qed.

Lemma orQ_zero (x : Q) : (orQ x 0 == x)%Q.
Proof.
  unfold orQ, truthyQ. destruct (Qeq_bool x 0) eqn:E; simpl; [|reflexivity].
  apply Qeq_bool_iff in E. symmetry. exact E.
Qed.

Lemma reduce_sum_ext {A : Type} (f g : A -> Q) (l : list A) :
  (forall x, In x l -> (f x == g x)%Q) -> (reduce_sum f l == reduce_sum g l)%Q.
Proof.
  induction l as [|x l IH]; intros H; [reflexivity|].
  rewrite !reduce_sum_cons.
  pose proof (IH (fun y Hy => H y (or_intror Hy))) as H1.
  pose proof (H x (or_introl eq_refl)) as H2.
  lra.
Qed.

Lemma reduce_sum_tenths {A : Type} (f : A -> Q) (l : list A) :
  (forall x, In x l -> tenths (f x)) -> tenths (reduce_sum f l).
Proof.
  induction l as [|x l IH]; intros H.
  - apply (tenths_inject_Z 0).
  - eapply tenths_proper; [symmetry; apply reduce_sum_cons|].
    apply tenths_plus; [apply H; left; reflexivity|].
    apply IH. intros y Hy. apply H. right. exact Hy.
Qed.

(** ** The subtask map *)

Lemma isSubtask_parent (s : Issue) :
  Rule.isSubtask s = true -> parent s = Some (default "" (parent s)).
Proof.
  unfold Rule.isSubtask. intros H. apply andb_true_iff in H as [_ H].
  destruct (parent s); [reflexivity | discriminate].
Qed.

Lemma recordSubtask_folded (l : list Issue) (acc : SubtaskMap) (k : string) :
  subtasksByParent (fold_left recordSubtask l acc) !! k
  = mergeSubs (subtasksByParent acc !! k) (Rule.presentSubtasks l k).
Proof.
  revert acc. induction l as [|a l IH]; intros acc; [reflexivity|].
  simpl fold_left. rewrite IH. unfold recordSubtask.
  unfold Rule.presentSubtasks. simpl List.filter.
  fold (Rule.isSubtask a). fold (Rule.presentSubtasks l k).
  destruct (Rule.isSubtask a) eqn:Ea; simpl; [|reflexivity].
  pose proof (isSubtask_parent a Ea) as Hp.
  destruct (decide (default "" (parent a) = k)) as [Heq|Hne].
  - rewrite Heq in Hp. rewrite bool_decide_eq_true_2 by exact Hp.
    rewrite Heq, lookup_insert_eq.
    destruct (Rule.presentSubtasks l k) as [|s r]; simpl.
    + reflexivity.
    + rewrite <- app_assoc. reflexivity.
  - rewrite bool_decide_eq_false_2.
    + rewrite lookup_insert_ne by exact Hne. reflexivity.
    + intros Hk. rewrite Hk in Hp. simpl in Hp. apply Hne. rewrite Hk. reflexivity.
Qed.

Lemma recordSubtask_keys (l : list Issue) (acc : SubtaskMap) (k : string) :
  k ∈ subtaskKeys (fold_left recordSubtask l acc)
  <-> k ∈ subtaskKeys acc \/ exists s, In s l /\ Rule.isSubtask s = true /\ key s = k.
Proof.
  revert acc. induction l as [|a l IH]; intros acc; simpl fold_left.
  - split; [auto | intros [H | (s & [] & _)]; exact H].
  - rewrite IH. unfold recordSubtask. fold (Rule.isSubtask a).
    destruct (Rule.isSubtask a) eqn:Ea; simpl.
    + rewrite elem_of_union, elem_of_singleton. split.
      * intros [[-> | H] | (s & Hs & Hi & Hk)]; eauto 8.
      * intros [H | (s & [-> | Hs] & Hi & Hk)]; eauto 8.
    + split.
      * intros [H | (s & Hs & Hi & Hk)]; eauto 8.
      * intros [H | (s & [-> | Hs] & Hi & Hk)]; [auto | congruence | eauto 8].
Qed.

Lemma recordSubtask_parents (l : list Issue) (acc : SubtaskMap) (k : string) :
  k ∈ parentKeys (fold_left recordSubtask l acc)
  <-> k ∈ parentKeys acc
      \/ exists s, In s l /\ Rule.isSubtask s = true /\ parent s = Some k.
Proof.
  revert acc. induction l as [|a l IH]; intros acc; simpl fold_left.
  - split; [auto | intros [H | (s & [] & _)]; exact H].
  - rewrite IH. unfold recordSubtask. fold (Rule.isSubtask a).
    destruct (Rule.isSubtask a) eqn:Ea; simpl.
    + pose proof (isSubtask_parent a Ea) as Hp.
      rewrite elem_of_union, elem_of_singleton. split.
      * intros [[-> | H] | (s & Hs & Hi & Hk)]; eauto 8.
      * intros [H | (s & [-> | Hs] & Hi & Hk)]; [auto | | eauto 8].
        left. left. rewrite Hp in Hk. congruence.
    + split.
      * intros [H | (s & Hs & Hi & Hk)]; eauto 8.
      * intros [H | (s & [-> | Hs] & Hi & Hk)]; [auto | congruence | eauto 8].
Qed.

Lemma recordParent_folded (l : list Issue) (acc : SubtaskMap) :
  subtasksByParent (fold_left recordParent l acc) = subtasksByParent acc
  /\ subtaskKeys (fold_left recordParent l acc) = subtaskKeys acc
  /\ forall k, k ∈ parentKeys (fold_left recordParent l acc)
               <-> k ∈ parentKeys acc
                   \/ exists p, In p l /\ isParentWithSubtasks p = true /\ key p = k.
Proof.
  revert acc. induction l as [|a l IH]; intros acc; simpl fold_left.
  - repeat split; [auto | intros [H | (s & [] & _)]; exact H].
  - destruct (IH (recordParent acc a)) as (H1 & H2 & H3).
    rewrite H1, H2. unfold recordParent at 1 2.
    split; [|split].
    + destruct (isParentWithSubtasks a); reflexivity.
    + destruct (isParentWithSubtasks a); reflexivity.
    + intros k. rewrite H3. unfold recordParent.
      destruct (isParentWithSubtasks a) eqn:Ea; simpl.
      * rewrite elem_of_union, elem_of_singleton. split.
        -- intros [[-> | H] | (s & Hs & Hi & Hk)]; eauto 8.
        -- intros [H | (s & [-> | Hs] & Hi & Hk)]; eauto 8.
      * split.
        -- intros [H | (s & Hs & Hi & Hk)]; eauto 8.
        -- intros [H | (s & [-> | Hs] & Hi & Hk)]; [auto | congruence | eauto 8].
Qed.

(** What [buildSubtaskMap] holds, read off the list. *)
Lemma buildSubtaskMap_subtasks (issues : list Issue) (k : string) :
  subtasksInList (buildSubtaskMap issues) k
  = match Rule.presentSubtasks issues k with
    | [] => None
    | subs => Some subs
    end.
Proof.
  unfold subtasksInList, buildSubtaskMap.
  destruct (recordParent_folded issues (fold_left recordSubtask issues emptySubtaskMap))
    as (H1 & _ & _).
  rewrite H1, recordSubtask_folded. simpl. rewrite lookup_empty.
  destruct (Rule.presentSubtasks issues k); reflexivity.
Qed.

Lemma buildSubtaskMap_subtaskKeys (issues : list Issue) (i : Issue) :
  bool_decide (key i ∈ subtaskKeys (buildSubtaskMap issues))
  = Rule.countedAsSubtask issues i.
Proof.
  unfold buildSubtaskMap.
  destruct (recordParent_folded issues (fold_left recordSubtask issues emptySubtaskMap))
    as (_ & H2 & _).
  rewrite H2. apply eq_true_iff_eq. rewrite bool_decide_eq_true, recordSubtask_keys.
  unfold Rule.countedAsSubtask. rewrite existsb_exists. simpl. split.
  - intros [H | (s & Hs & Hi & Hk)]; [set_solver|].
    exists s. split; [exact Hs|]. rewrite Hi. simpl. apply bool_decide_eq_true. exact Hk.
  - intros (s & Hs & H). apply andb_true_iff in H as [Hi Hk].
    apply bool_decide_eq_true in Hk. right. eauto.
Qed.

Lemma buildSubtaskMap_parentKeys (issues : list Issue) (i : Issue) :
  bool_decide (key i ∈ parentKeys (buildSubtaskMap issues))
  = Rule.countedAsParent issues i.
Proof.
  unfold buildSubtaskMap.
  destruct (recordParent_folded issues (fold_left recordSubtask issues emptySubtaskMap))
    as (_ & _ & H3).
  apply eq_true_iff_eq. rewrite bool_decide_eq_true, H3, recordSubtask_parents.
  unfold Rule.countedAsParent. rewrite orb_true_iff, !existsb_exists. simpl. split.
  - intros [[H | (s & Hs & Hi & Hk)] | (p & Hp & Hi & Hk)]; [set_solver | left | right].
    + exists s. split; [exact Hs|]. rewrite Hi. simpl. apply bool_decide_eq_true. exact Hk.
    + exists p. split; [exact Hp|]. rewrite Hi. simpl. apply bool_decide_eq_true. exact Hk.
  - intros [(s & Hs & H) | (p & Hp & H)]; apply andb_true_iff in H as [Hi Hk];
      apply bool_decide_eq_true in Hk; eauto 8.
Qed.

(** The totals of [computeEffective] are the sums of the contributions. *)
Lemma computeEffective_contributions (field : Issue -> option Z) (issues : list Issue) :
  (computeEffective field issues == reduce_sum (Rule.contribution field issues) issues)%Q.
Proof.
  unfold computeEffective.
  rewrite (fold_additive _ (Rule.contribution field issues)).
  - lra.
  - intros t x _. unfold Rule.contribution.
    rewrite buildSubtaskMap_subtaskKeys, buildSubtaskMap_parentKeys,
      buildSubtaskMap_subtasks.
    destruct (Rule.countedAsSubtask issues x); [lra|].
    destruct (Rule.countedAsParent issues x); [|lra].
    destruct (Rule.presentSubtasks issues (key x)); [|lra].
    unfold reduce_sum. simpl. lra.
  - intros t t' x _ Ht.
    destruct (bool_decide (key x ∈ subtaskKeys (buildSubtaskMap issues))); [exact Ht|].
    destruct (bool_decide (key x ∈ parentKeys (buildSubtaskMap issues)));
      [destruct (subtasksInList (buildSubtaskMap issues) (key x))|];
      rewrite ?Ht; reflexivity.
Qed.

(** ** Effective totals (subtask aggregation) *)

Lemma contribution_subtask field issues i :
  Rule.countedAsSubtask issues i = true -> Rule.contribution field issues i = 0%Q.
Proof. intros H. unfold Rule.contribution. rewrite H. reflexivity. Qed.

Lemma contribution_parent field issues i :
  Rule.countedAsSubtask issues i = false ->
  Rule.countedAsParent issues i = true ->
  Rule.contribution field issues i
  = reduce_sum (fun sub => secondsToHours (field sub)) (Rule.presentSubtasks issues (key i)).
Proof. intros H1 H2. unfold Rule.contribution. rewrite H1, H2. reflexivity. Qed.

Lemma contribution_parent_alone field issues i :
  Rule.countedAsSubtask issues i = false ->
  Rule.countedAsParent issues i = true ->
  Rule.presentSubtasks issues (key i) = [] ->
  Rule.contribution field issues i = 0%Q.
Proof.
  intros H1 H2 H3. rewrite contribution_parent by assumption. rewrite H3. reflexivity.
Qed.

Lemma contribution_plain field issues i :
  Rule.countedAsSubtask issues i = false ->
  Rule.countedAsParent issues i = false ->
  Rule.contribution field issues i = secondsToHours (field i).
Proof. intros H1 H2. unfold Rule.contribution. rewrite H1, H2. reflexivity. Qed.

(** With distinct keys an item is counted as a subtask exactly when it is
    one itself. *)
Lemma countedAsSubtask_self issues i :
  In i issues -> NoDup (map key issues) ->
  Rule.countedAsSubtask issues i = Rule.isSubtask i.
Proof.
  intros Hi Hnd. apply eq_true_iff_eq. unfold Rule.countedAsSubtask.
  rewrite existsb_exists. split.
  - intros (s & Hs & H). apply andb_true_iff in H as [H1 H2].
    apply bool_decide_eq_true in H2.
    assert (s = i); [|congruence].
    clear H1. induction issues as [|a l IH]; [destruct Hi|].
    simpl in Hnd. apply NoDup_cons in Hnd as [Hna Hnd].
    destruct Hs as [-> | Hs], Hi as [-> | Hi]; auto.
    + exfalso. apply Hna. rewrite H2. apply list_elem_of_In, in_map, Hi.
    + exfalso. apply Hna. rewrite <- H2. apply list_elem_of_In, in_map, Hs.
  - intros H. exists i. split; [exact Hi|]. rewrite H. simpl.
    apply bool_decide_eq_true. reflexivity.
Qed.


(** The same working set when the parent belongs to somebody else: the
    filter drops the parent, and the subtask, counted only through its
    parent, adds nothing. *)
Remark subtask_without_its_parent (raw : option Z) :
  (computeEffectiveRemaining
     (filterByAssignee "alice" [Sample.parentItem raw "bob"; Sample.sub1; Sample.sub2])
   == 0)%Q.
Proof.
  unfold computeEffectiveRemaining. rewrite computeEffective_contributions.
  vm_compute. reflexivity.
Qed.


(** ** The loop of the data points *)

Lemma loopBody_dataPoints (c : LoopConsts) (st : LoopState) :
  dataPoints (loopBody c st) = (dataPoints st ++ [emittedPoint c st])%list.
Proof. reflexivity. Qed.

Lemma loopBody_current (c : LoopConsts) (st : LoopState) :
  current (loopBody c st) = nextDay (current st).
Proof. reflexivity. Qed.

Lemma stateAfter_S (c : LoopConsts) (total : Q) (k : nat) :
  stateAfter c total (S k) = loopBody c (stateAfter c total k).
Proof. reflexivity. Qed.

Lemma stateAfter_current (c : LoopConsts) (total : Q) (k : nat) :
  current (stateAfter c total k) = dayOfSprint c k.
Proof.
  unfold dayOfSprint. induction k as [|k IH].
  - simpl. lia.
  - rewrite stateAfter_S, loopBody_current, IH. unfold nextDay. lia.
Qed.

Lemma stateAfter_dataPoints (c : LoopConsts) (total : Q) (k : nat) :
  dataPoints (stateAfter c total k)
  = startPoint (lc_maxCapacity c) total
    :: map (fun j => emittedPoint c (stateAfter c total j)) (seq 0 k).
Proof.
  induction k as [|k IH]; [reflexivity|].
  rewrite stateAfter_S, loopBody_dataPoints, IH, seq_S, map_app. reflexivity.
Qed.

(** The guard of the loop holds on exactly the first [loopBound] days. *)
Lemma loop_guard (start endD : Date) (k : nat) :
  start + Z.of_nat k * DAY_MS <= endD <-> (k < loopBound start endD)%nat.
Proof.
  unfold loopBound, DAY_MS.
  pose proof (Z.div_mod (endD - start) 86400000 ltac:(lia)) as Hdm.
  pose proof (Z.mod_pos_bound (endD - start) 86400000 ltac:(lia)) as Hb.
  set (q := (endD - start) / 86400000) in *.
  set (r := (endD - start) mod 86400000) in *.
  split; intros H.
  - assert (Z.of_nat k <= q) by lia. lia.
  - assert (Z.of_nat k <= q) by lia. lia.
Qed.

Lemma generateLoop_stateAfter (c : LoopConsts) (total : Q) (fuel k : nat) :
  (k + fuel <= loopBound (lc_startDate c) (lc_endDate c))%nat ->
  generateLoop c fuel (stateAfter c total k) = stateAfter c total (k + fuel).
Proof.
  revert k. induction fuel as [|fuel IH]; intros k Hk; simpl.
  - rewrite Nat.add_0_r. reflexivity.
  - rewrite stateAfter_current.
    assert (Hg : dayOfSprint c k <= lc_endDate c).
    { apply loop_guard. lia. }
    apply Z.leb_le in Hg. rewrite Hg, <- stateAfter_S, IH by lia.
    f_equal. lia.
Qed.

(** The loop leaves by its guard: further fuel changes nothing. *)
Lemma generateLoop_exits (c : LoopConsts) (total : Q) (extra : nat) :
  generateLoop c (loopBound (lc_startDate c) (lc_endDate c) + extra)
               (initialState c total)
  = stateAfter c total (loopBound (lc_startDate c) (lc_endDate c)).
Proof.
  set (n := loopBound (lc_startDate c) (lc_endDate c)).
  assert (H : forall fuel k, (k <= n)%nat -> (n <= k + fuel)%nat ->
            generateLoop c fuel (stateAfter c total k) = stateAfter c total n).
  { induction fuel as [|fuel IH]; intros k Hk Hn; simpl.
    - f_equal. lia.
    - rewrite stateAfter_current.
      destruct (Z.leb_spec (dayOfSprint c k) (lc_endDate c)) as [Hg|Hg].
      + apply loop_guard in Hg. fold n in Hg.
        rewrite <- stateAfter_S. apply IH; lia.
      + assert (~ (k < n)%nat).
        { intros Hlt. apply loop_guard in Hlt. unfold dayOfSprint in Hg. lia. }
        f_equal. lia. }
  apply (H _ 0%nat); lia.
Qed.

Lemma generateDataPoints_unrolled (c : LoopConsts) (total : Q) :
  generateDataPoints c total
  = startPoint (lc_maxCapacity c) total
    :: map (fun j => emittedPoint c (stateAfter c total j))
           (seq 0 (loopBound (lc_startDate c) (lc_endDate c))).
Proof.
  unfold generateDataPoints.
  rewrite <- (Nat.add_0_r (loopBound _ _)) at 1.
  rewrite generateLoop_exits. apply stateAfter_dataPoints.
Qed.

Lemma pointOfDay_emitted (c : LoopConsts) (total : Q) (k : nat) (p : DataPoint.t) :
  pointOfDay (generateDataPoints c total) k = Some p <->
  (k < loopBound (lc_startDate c) (lc_endDate c))%nat
  /\ p = emittedPoint c (stateAfter c total k).
Proof.
  unfold pointOfDay. rewrite generateDataPoints_unrolled. simpl.
  rewrite list_lookup_fmap. split.
  - intros H. destruct (seq 0 _ !! k) as [j|] eqn:E; [|discriminate].
    apply lookup_seq in E as [-> Hlt]. simpl in H. split; [exact Hlt | congruence].
  - intros [Hlt ->]. rewrite (lookup_seq_lt _ _ _ Hlt). reflexivity.
Qed.

Lemma toISODate_dayOfSprint (c : LoopConsts) (k : nat) :
  toISODate (dayOfSprint c k) = toISODate (lc_startDate c) + Z.of_nat k.
Proof.
  unfold toISODate, dayOfSprint. apply Z.div_add. unfold DAY_MS. lia.
Qed.

Lemma isPastOrToday_earlier (c : LoopConsts) (j k : nat) :
  (j <= k)%nat ->
  isPastOrToday c (dayOfSprint c k) = true -> isPastOrToday c (dayOfSprint c j) = true.
Proof.
  unfold isPastOrToday, setHours0. rewrite !toISODate_dayOfSprint.
  intros Hjk H. apply Z.leb_le in H. apply Z.leb_le. unfold DAY_MS in *. lia.
Qed.

(** The working-day counter after the pass for day [k]. *)
Lemma workingDayCount_elapsed (c : LoopConsts) (total : Q) (k : nat) :
  workingDayCount (stateAfter c total (S k)) = Rule.workingDaysElapsed (lc_startDate c) k.
Proof.
  induction k as [|k IH].
  - simpl. rewrite Z.ltb_irrefl, andb_false_r. reflexivity.
  - rewrite stateAfter_S. unfold loopBody at 1. cbn [workingDayCount].
    rewrite IH, stateAfter_current. unfold dayOfSprint.
    assert (Hlt : (lc_startDate c <? lc_startDate c + Z.of_nat (S k) * DAY_MS) = true).
    { apply Z.ltb_lt. unfold DAY_MS. lia. }
    rewrite Hlt, andb_true_r. cbn [Rule.workingDaysElapsed].
    destruct (isWorkingDay _); lia.
Qed.

(** The running remainder after the pass for a day not after today. *)
Lemma runningRemaining_accumulates (c : LoopConsts) (total : Q) (k : nat) :
  isPastOrToday c (dayOfSprint c k) = true ->
  runningRemaining (stateAfter c total (S k))
  = Rule.forwardAccumulation total (loggedOn c) (addedOn c) (removedOn c)
      (toISODate (lc_startDate c)) (S k).
Proof.
  induction k as [|k IH]; intros Hpast.
  - rewrite stateAfter_S. unfold loopBody at 1. cbn [runningRemaining].
    rewrite stateAfter_current. fold (isPastOrToday c (dayOfSprint c 0)).
    rewrite Hpast, toISODate_dayOfSprint. reflexivity.
  - rewrite stateAfter_S. unfold loopBody at 1. cbn [runningRemaining].
    rewrite stateAfter_current. fold (isPastOrToday c (dayOfSprint c (S k))).
    rewrite Hpast, toISODate_dayOfSprint, IH.
    + reflexivity.
    + apply (isPastOrToday_earlier c k (S k)); [lia | exact Hpast].
Qed.

(** ** The burndown series *)

Lemma burndownData_dataPoints w p sprint allIssues baseline :
  BurndownData.dataPoints (burndownData w p sprint allIssues baseline)
  = generateDataPoints (loopConstsOf w p sprint allIssues)
                       (totalOriginalEstimateIn p allIssues baseline).
Proof. reflexivity. Qed.

Lemma isPastOrToday_day w p sprint allIssues (k : nat) :
  let c := loopConstsOf w p sprint allIssues in
  isPastOrToday c (dayOfSprint c k) = true
  <-> toISODate (startDate sprint) + Z.of_nat k <= toISODate (now w).
Proof.
  intros c. unfold isPastOrToday. rewrite Z.leb_le.
  unfold setHours0. rewrite toISODate_dayOfSprint.
  change (lc_today c) with (toISODate (now w) * DAY_MS).
  change (lc_startDate c) with (startDate sprint).
  unfold DAY_MS. lia.
Qed.

Lemma emitted_date (c : LoopConsts) (total : Q) (k : nat) :
  DataPoint.date (emittedPoint c (stateAfter c total k))
  = DayLabel (toISODate (lc_startDate c) + Z.of_nat k).
Proof.
  unfold emittedPoint. cbn [DataPoint.date].
  rewrite stateAfter_current, toISODate_dayOfSprint. reflexivity.
Qed.

Lemma emitted_remainingValue (c : LoopConsts) (total : Q) (k : nat) :
  isPastOrToday c (dayOfSprint c k) = true ->
  remainingValue (emittedPoint c (stateAfter c total k))
  = Some (round10 (Rule.forwardAccumulation total (loggedOn c) (addedOn c) (removedOn c)
                     (toISODate (lc_startDate c)) (S k))).
Proof.
  intros Hpast. unfold emittedPoint, remainingValue.
  cbn [DataPoint.totalRemaining]. rewrite stateAfter_current, Hpast.
  rewrite <- stateAfter_S, runningRemaining_accumulates by exact Hpast.
  reflexivity.
Qed.

(** *** The date-indexed tables *)

Lemma worklogByDate_folded (l : list Worklog) (m : gmap Z Q) (d : Z) :
  (default 0%Q
     (fold_left
        (fun m wl =>
           match started wl with
           | Some s =>
               <[toISODate s := (default 0%Q (m !! toISODate s) + worklogHours wl)%Q]> m
           | None => m
           end) l m !! d)
   == default 0%Q (m !! d) + reduce_sum worklogHours (worklogsOn d l))%Q.
Proof.
  unfold worklogsOn. revert m.
  induction l as [|wl l IH]; intros m; cbn [fold_left List.filter].
  - change (reduce_sum worklogHours []) with 0%Q. lra.
  - rewrite IH. destruct (started wl) as [s|]; [|lra].
    destruct (Z.eqb_spec (toISODate s) d) as [-> | Hne].
    + rewrite lookup_insert_eq, reduce_sum_cons. simpl. lra.
    + rewrite lookup_insert_ne by exact Hne. lra.
Qed.

Lemma worklogByDate_lookup (l : list Worklog) (d : Z) :
  (default 0%Q (worklogByDateOf l !! d) == reduce_sum worklogHours (worklogsOn d l))%Q.
Proof.
  unfold worklogByDateOf. rewrite worklogByDate_folded, lookup_empty. simpl. lra.
Qed.

Lemma bumpAdded_lookup (day d : Z) (oe : Q) (m : gmap Z ScopeChange.t) :
  let before := default ScopeChange.zero (m !! d) in
  let after := default ScopeChange.zero (bumpAdded day oe m !! d) in
  (ScopeChange.added after
   == ScopeChange.added before + (if day =? d then oe else 0))%Q
  /\ ScopeChange.removed after = ScopeChange.removed before.
Proof.
  unfold bumpAdded. destruct (Z.eqb_spec day d) as [-> | Hne].
  - rewrite lookup_insert_eq. simpl. split; reflexivity.
  - rewrite lookup_insert_ne by exact Hne. simpl. split; [lra | reflexivity].
Qed.

Lemma bumpRemoved_lookup (day d : Z) (oe : Q) (m : gmap Z ScopeChange.t) :
  let before := default ScopeChange.zero (m !! d) in
  let after := default ScopeChange.zero (bumpRemoved day oe m !! d) in
  ScopeChange.added after = ScopeChange.added before
  /\ (ScopeChange.removed after
      == ScopeChange.removed before + (if day =? d then oe else 0))%Q.
Proof.
  unfold bumpRemoved. destruct (Z.eqb_spec day d) as [-> | Hne].
  - rewrite lookup_insert_eq. simpl. split; reflexivity.
  - rewrite lookup_insert_ne by exact Hne. simpl. split; [reflexivity | lra].
Qed.

Lemma detectAdded_table (w : World) (sprint : Sprint) (issues : list Issue) (d : Z) :
  let entry := default ScopeChange.zero (snd (detectAdded w sprint issues) !! d) in
  (ScopeChange.added entry
   == reduce_sum estimateOf
        (List.filter (fun i => bool_decide (addedDayOf w sprint issues i = Some d)) issues))%Q
  /\ (ScopeChange.removed entry == 0)%Q.
Proof.
  unfold detectAdded, addedDayOf.
  set (cl := getAllChangelogs w _).
  set (day := setHours0 (startDate sprint)).
  set (step := fun (acc : list AddedIssue.t * gmap Z ScopeChange.t) issue => _).
  set (on := fun i : Issue =>
               bool_decide (match issueAddedDate cl sprint day i with
                            | Some d0 => Some (toISODate d0)
                            | None => None
                            end = Some d)).
  assert (H : forall l acc,
    let entry := default ScopeChange.zero (snd (fold_left step l acc) !! d) in
    (ScopeChange.added entry
     == ScopeChange.added (default ScopeChange.zero (snd acc !! d))
        + reduce_sum estimateOf (List.filter on l))%Q
    /\ ScopeChange.removed entry
       = ScopeChange.removed (default ScopeChange.zero (snd acc !! d))).
  { induction l as [|i l IH]; intros acc; cbn [fold_left List.filter].
    - change (reduce_sum estimateOf []) with 0%Q. split; [lra | reflexivity].
    - destruct (IH (step acc i)) as [IH1 IH2]. cbv zeta. rewrite IH1, IH2.
      subst step on. cbv beta.
      destruct (issueAddedDate cl sprint day i) as [d0|]; cbn [snd].
      + destruct (bumpAdded_lookup (toISODate d0) d
                    (secondsToHours (timeoriginalestimate i)) (snd acc)) as [B1 B2].
        cbv zeta in B1, B2. rewrite B1, B2. split; [|reflexivity].
        destruct (Z.eqb_spec (toISODate d0) d) as [-> | Hne].
        * rewrite bool_decide_eq_true_2 by reflexivity.
          rewrite reduce_sum_cons. unfold estimateOf at 2. lra.
        * rewrite bool_decide_eq_false_2 by congruence. lra.
      + rewrite bool_decide_eq_false_2 by discriminate. split; [lra | reflexivity]. }
  destruct (H issues ([], ∅)) as [H1 H2]. cbv zeta in H1, H2 |- *.
  rewrite H1, H2. cbn [snd]. rewrite lookup_empty. simpl. split; [lra | reflexivity].
Qed.

Lemma detectRemoved_table (w : World) (sprint : Sprint) (m : gmap Z ScopeChange.t)
    (d : Z) :
  let before := default ScopeChange.zero (m !! d) in
  let after := default ScopeChange.zero (snd (detectRemoved w sprint m) !! d) in
  ScopeChange.added after = ScopeChange.added before
  /\ (ScopeChange.removed after
      == ScopeChange.removed before
         + reduce_sum estimateOf
             (List.filter (fun r => removedDayOf w sprint r =? d)
                (getRemovedFromSprintIssues w (sprint_id sprint) (sprint_name sprint))))%Q.
Proof.
  unfold detectRemoved, removedDayOf.
  set (removedFrom := getRemovedFromSprintIssues w _ _).
  set (cl := getAllChangelogs w removedFrom).
  set (step := fun (acc : list RemovedIssue.t * gmap Z ScopeChange.t) removedIssue => _).
  assert (H : forall l acc,
    let after := default ScopeChange.zero (snd (fold_left step l acc) !! d) in
    ScopeChange.added after = ScopeChange.added (default ScopeChange.zero (snd acc !! d))
    /\ (ScopeChange.removed after
        == ScopeChange.removed (default ScopeChange.zero (snd acc !! d))
           + reduce_sum estimateOf
               (List.filter (fun r => removeDateOf w sprint cl r =? d) l))%Q).
  { induction l as [|i l IH]; intros acc; cbn [fold_left List.filter].
    - change (reduce_sum estimateOf []) with 0%Q. split; [reflexivity | lra].
    - destruct (IH (step acc i)) as [IH1 IH2]. cbv zeta. rewrite IH1, IH2.
      subst step. cbv beta. cbn [snd].
      destruct (bumpRemoved_lookup (removeDateOf w sprint cl i) d
                  (secondsToHours (timeoriginalestimate i)) (snd acc)) as [B1 B2].
      cbv zeta in B1, B2. rewrite B1, B2. split; [reflexivity|].
      destruct (removeDateOf w sprint cl i =? d).
      + rewrite reduce_sum_cons. unfold estimateOf at 2. lra.
      + lra. }
  destruct (H removedFrom ([], m)) as [H1 H2]. cbv zeta in H1, H2 |- *.
  rewrite H1, H2. cbn [snd]. split; [reflexivity | lra].
Qed.

(** The hours logged on a day are those of the worklogs of the working set
    started that day. *)
Lemma loggedOn_sum w p sprint allIssues (d : Z) :
  (loggedOn (loopConstsOf w p sprint allIssues) d
   == reduce_sum worklogHours (worklogsOn d (getAllWorklogs w (issuesOf p allIssues))))%Q.
Proof. unfold loggedOn. cbn [loopConstsOf lc_worklogByDate]. apply worklogByDate_lookup. Qed.

(** The scope added on a day is the sum of the original estimates of the
    items reported as added on that day. *)
Lemma addedOn_sum w p sprint allIssues (d : Z) :
  let issues := issuesOf p allIssues in
  (addedOn (loopConstsOf w p sprint allIssues) d
   == reduce_sum estimateOf
        (List.filter (fun i => bool_decide (addedDayOf w sprint issues i = Some d)) issues))%Q.
Proof.
  intros issues. unfold addedOn. cbn [loopConstsOf lc_scopeChangesByDate].
  destruct (detectRemoved_table w sprint (snd (detectAdded w sprint issues)) d) as [H _].
  cbv zeta in H. fold issues. rewrite H.
  apply (detectAdded_table w sprint issues d).
Qed.

(** The scope removed on a day is the sum of the original estimates of the
    items reported as removed on that day. *)
Lemma removedOn_sum w p sprint allIssues (d : Z) :
  (removedOn (loopConstsOf w p sprint allIssues) d
   == reduce_sum estimateOf
        (List.filter (fun r => removedDayOf w sprint r =? d)
           (getRemovedFromSprintIssues w (sprint_id sprint) (sprint_name sprint))))%Q.
Proof.
  unfold removedOn. cbn [loopConstsOf lc_scopeChangesByDate].
  destruct (detectRemoved_table w sprint
              (snd (detectAdded w sprint (issuesOf p allIssues))) d) as [_ H].
  cbv zeta in H. rewrite H.
  destruct (detectAdded_table w sprint (issuesOf p allIssues) d) as [_ H0].
  cbv zeta in H0. rewrite H0. lra.
Qed.

(** *** Figures in tenths of an hour *)

Lemma estimateOf_tenths (i : Issue) : tenths (estimateOf i).
Proof. apply secondsToHours_tenths. Qed.

Lemma tables_in_tenths w p sprint allIssues (d : Z) :
  let c := loopConstsOf w p sprint allIssues in
  tenths (loggedOn c d) /\ tenths (addedOn c d) /\ tenths (removedOn c d).
Proof.
  intros c. split; [|split].
  - eapply tenths_proper; [symmetry; apply loggedOn_sum|].
    apply reduce_sum_tenths. intros wl _. apply secondsToHours_tenths.
  - eapply tenths_proper; [symmetry; apply addedOn_sum|].
    apply reduce_sum_tenths. intros i _. apply estimateOf_tenths.
  - eapply tenths_proper; [symmetry; apply removedOn_sum|].
    apply reduce_sum_tenths. intros i _. apply estimateOf_tenths.
Qed.

Lemma computeEffective_tenths (field : Issue -> option Z) (issues : list Issue) :
  tenths (computeEffective field issues).
Proof.
  eapply tenths_proper; [symmetry; apply computeEffective_contributions|].
  apply reduce_sum_tenths. intros i _. unfold Rule.contribution.
  destruct (Rule.countedAsSubtask issues i); [apply (tenths_inject_Z 0)|].
  destruct (Rule.countedAsParent issues i); [|apply secondsToHours_tenths].
  apply reduce_sum_tenths. intros s _. apply secondsToHours_tenths.
Qed.

Lemma makeBaseline_in_tenths (w : World) (sid : string) (issues : list Issue) :
  baselineInTenths (makeBaseline w sid issues).
Proof.
  intros b Hb. unfold makeBaseline in Hb. cbn [Baseline.issues] in Hb.
  apply in_map_iff in Hb as (i & <- & _). apply secondsToHours_tenths.
Qed.

Lemma totalOriginalEstimate_tenths p allIssues baseline :
  baselineInTenths baseline -> tenths (totalOriginalEstimateIn p allIssues baseline).
Proof.
  intros Hb. unfold totalOriginalEstimateIn, totalOriginalEstimateOf, orQ.
  destruct (truthyQ _); [|apply computeEffective_tenths].
  unfold baselineEstimate. apply reduce_sum_tenths. intros b Hin.
  eapply tenths_proper; [symmetry; apply orQ_zero|]. apply Hb.
  unfold filteredBaselineOf in Hin. destruct (singleAssignee p); [|exact Hin].
  cbn [Baseline.issues] in Hin. apply filter_In in Hin as [Hin _]. exact Hin.
Qed.

Lemma forwardAccumulation_tenths (total : Q) (logged added removed : Z -> Q)
    (startDay : Z) (k : nat) :
  tenths total ->
  (forall d, tenths (logged d) /\ tenths (added d) /\ tenths (removed d)) ->
  tenths (Rule.forwardAccumulation total logged added removed startDay k).
Proof.
  intros Ht Hd. induction k as [|k IH]; [exact Ht|].
  cbn [Rule.forwardAccumulation].
  destruct (Hd (startDay + Z.of_nat k)) as (H1 & H2 & H3).
  apply tenths_minus; [apply tenths_plus; [apply tenths_minus|]|]; assumption.
Qed.

(** C2.  The series opens with the start point, whose remaining value is
    the total original estimate, and on every day up to today the remaining
    value is (to the tenth it is rounded to for display) the forward
    accumulation: the value before, less the hours logged that day, plus
    the scope added and less the scope removed that day.  With a baseline in
    tenths of an hour, as the resolver saves it, the rounding changes
    nothing and the emitted values satisfy the recurrence themselves:
    each is the value of the point before it, less the logged hours, plus
    the added and less the removed scope of its day. *)
Theorem remaining_line_is_forward_accumulation w p sprint allIssues baseline :
  let c := loopConstsOf w p sprint allIssues in
  let total := totalOriginalEstimateIn p allIssues baseline in
  let points := BurndownData.dataPoints (burndownData w p sprint allIssues baseline) in
  let startDay := toISODate (startDate sprint) in
  let accumulated := Rule.forwardAccumulation total (loggedOn c) (addedOn c) (removedOn c)
                       startDay in
  (exists s, points !! 0%nat = Some s /\ DataPoint.date s = StartLabel
             /\ remainingValue s = Some (round10 total))
  /\ accumulated 0%nat = total
  /\ (forall k, accumulated (S k)
                = (accumulated k - loggedOn c (startDay + Z.of_nat k)
                   + addedOn c (startDay + Z.of_nat k)
                   - removedOn c (startDay + Z.of_nat k))%Q)
  /\ (forall k pt, pointOfDay points k = Some pt ->
                   startDay + Z.of_nat k <= toISODate (now w) ->
                   DataPoint.date pt = DayLabel (startDay + Z.of_nat k)
                   /\ remainingValue pt = Some (round10 (accumulated (S k))))
  /\ (baselineInTenths baseline ->
      forall k pt before,
        pointOfDay points k = Some pt -> points !! k = Some before ->
        startDay + Z.of_nat k <= toISODate (now w) ->
        exists x y,
          remainingValue pt = Some x /\ remainingValue before = Some y
          /\ (x == y - loggedOn c (startDay + Z.of_nat k)
                  + addedOn c (startDay + Z.of_nat k)
                  - removedOn c (startDay + Z.of_nat k))%Q).
Proof.
  intros c total points startDay accumulated.
  assert (Hstart : points !! 0%nat = Some (startPoint (lc_maxCapacity c) total)).
  { unfold points. rewrite burndownData_dataPoints, generateDataPoints_unrolled.
    reflexivity. }
  assert (Hday : forall k pt, pointOfDay points k = Some pt ->
                   startDay + Z.of_nat k <= toISODate (now w) ->
                   DataPoint.date pt = DayLabel (startDay + Z.of_nat k)
                   /\ remainingValue pt = Some (round10 (accumulated (S k)))).
  { intros k pt Hpt Hle. unfold points in Hpt.
    rewrite burndownData_dataPoints in Hpt.
    apply pointOfDay_emitted in Hpt as [_ ->].
    apply (isPastOrToday_day w p sprint allIssues k) in Hle.
    split; [apply emitted_date | apply emitted_remainingValue; exact Hle]. }
  split; [|split; [|split; [|split]]].
  - exists (startPoint (lc_maxCapacity c) total). repeat split. exact Hstart.
  - reflexivity.
  - reflexivity.
  - exact Hday.
  - intros Hb k pt before Hpt Hbefore Hle.
    assert (Hacc : forall n, tenths (accumulated n)).
    { intros n. apply forwardAccumulation_tenths.
      - apply totalOriginalEstimate_tenths, Hb.
      - intros d. apply tables_in_tenths. }
    exists (round10 (accumulated (S k))), (round10 (accumulated k)).
    split; [apply (Hday k pt Hpt Hle)|]. split.
    + destruct k as [|k].
      * rewrite Hstart in Hbefore. injection Hbefore as <-. reflexivity.
      * apply (Hday k before Hbefore). lia.
    + rewrite !round10_tenths by apply Hacc. reflexivity.
Qed.

(** *** Capacity and the ideal line *)

Lemma countWorkingDays_loop_nonneg (endD : Date) (fuel : nat) (current : Date) (count : Z) :
  0 <= count -> count <= countWorkingDays_loop endD fuel current count.
Proof.
  revert current count. induction fuel as [|fuel IH]; intros current count H; simpl.
  - lia.
  - destruct (current <=? endD); [|lia].
    destruct (isWorkingDay current).
    + specialize (IH (nextDay current) (count + 1) ltac:(lia)). lia.
    + apply IH. exact H.
Qed.

Lemma countWorkingDays_pos (start endD : Date) : 0 < countWorkingDays start endD.
Proof.
  unfold countWorkingDays.
  pose proof (countWorkingDays_loop_nonneg endD (loopBound start endD) start 0 ltac:(lia)).
  destruct (Z.eqb_spec (countWorkingDays_loop endD (loopBound start endD) start 0) 0).
  - unfold WORKING_DAYS_DEFAULT. lia.
  - lia.
Qed.

Lemma teamSizeOf_pos (p : Payload.t) (allIssues : list Issue) : 0 < teamSizeOf p allIssues.
Proof.
  unfold teamSizeOf. destruct (singleAssignee p); [lia|].
  destruct (Payload.teamSize p) as [[|n]|].
  - destruct (Z.eqb_spec (Z.of_nat (length (allAssigneesOf allIssues))) 0); lia.
  - lia.
  - destruct (Z.eqb_spec (Z.of_nat (length (allAssigneesOf allIssues))) 0); lia.
Qed.

Lemma workingDaysElapsed_mono (start : Date) (j k : nat) :
  (j <= k)%nat -> Rule.workingDaysElapsed start j <= Rule.workingDaysElapsed start k.
Proof.
  induction 1 as [|k _ IH]; [lia|].
  cbn [Rule.workingDaysElapsed]. destruct (isWorkingDay _); lia.
Qed.

Lemma Qmax_inject_Z (z : Z) : (Qmax 0 (inject_Z z) == inject_Z (Z.max 0 z))%Q.
Proof.
  destruct (Z.max_spec 0 z) as [[Hlt ->] | [Hle ->]].
  - apply Q.max_r. change 0%Q with (inject_Z 0). rewrite <- Zle_Qle. lia.
  - apply Q.max_l. change 0%Q with (inject_Z 0). rewrite <- Zle_Qle. lia.
Qed.

Lemma Qmax_proper_r (x y : Q) : (x == y)%Q -> (Qmax 0 x == Qmax 0 y)%Q.
Proof.
  intros H.
  destruct (Q.max_spec 0 x) as [[H1 ->] | [H1 ->]],
           (Q.max_spec 0 y) as [[H2 ->] | [H2 ->]]; lra.
Qed.

(** With a capacity of [W * 8 * t] hours the ideal value after [n] working
    days is the whole number [max(0, 8 t (W - n))]. *)
Lemma idealForDay_whole (W t n : Z) :
  0 < W ->
  (Rule.idealForDay (inject_Z (W * 8 * t)) W n == inject_Z (Z.max 0 (8 * t * (W - n))))%Q.
Proof.
  intros HW. unfold Rule.idealForDay. rewrite <- Qmax_inject_Z.
  apply Qmax_proper_r.
  assert (HW' : ~ (inject_Z W == 0)%Q).
  { change 0%Q with (inject_Z 0). rewrite inject_Z_injective. lia. }
  replace (8 * t * (W - n)) with (W * 8 * t - n * 8 * t) by ring.
  unfold Z.sub. rewrite inject_Z_plus, inject_Z_opp, !inject_Z_mult.
  field. exact HW'.
Qed.

Lemma emitted_ideal_whole (W t n : Z) :
  0 < W ->
  let M := inject_Z (W * 8 * t) in
  (round10 (Math_max 0 (M - M / inject_Z W * inject_Z n))
   == inject_Z (Z.max 0 (8 * t * (W - n))))%Q.
Proof.
  intros HW M.
  assert (HW' : ~ (inject_Z W == 0)%Q).
  { change 0%Q with (inject_Z 0). rewrite inject_Z_injective. lia. }
  assert (HX : (M - M / inject_Z W * inject_Z n == inject_Z (8 * t * (W - n)))%Q).
  { unfold M. replace (8 * t * (W - n)) with (W * 8 * t - n * 8 * t) by ring.
    unfold Z.sub. rewrite inject_Z_plus, inject_Z_opp, !inject_Z_mult.
    field. exact HW'. }
  rewrite (round10_proper _ (inject_Z (Z.max 0 (8 * t * (W - n))))).
  - apply round10_tenths, tenths_inject_Z.
  - rewrite Math_max_Qmax, <- Qmax_inject_Z. apply Qmax_proper_r. exact HX.
Qed.

Lemma emitted_ideal w p sprint allIssues (total : Q) (k : nat) :
  let c := loopConstsOf w p sprint allIssues in
  (DataPoint.ideal (emittedPoint c (stateAfter c total k))
   == inject_Z (Z.max 0 (8 * teamSizeOf p allIssues
                         * (workingDaysOf sprint
                            - Rule.workingDaysElapsed (startDate sprint) k))))%Q.
Proof.
  intros c. unfold emittedPoint. cbn [DataPoint.ideal].
  rewrite <- stateAfter_S, workingDayCount_elapsed.
  apply (emitted_ideal_whole (workingDaysOf sprint) (teamSizeOf p allIssues)).
  apply countWorkingDays_pos.
Qed.

(** C3, without the clause that the series reaches zero on the last
    working day.  The ideal value is the capacity [maxCapacity] at the start
    point and on the sprint start day; on every emitted day it is
    [max(0, maxCapacity - n * maxCapacity / workingDays)] for the number [n]
    of working days elapsed since the start; it does not move on a day that
    is not a working day; it never increases along the series; and the
    formula gives 0 at [n = workingDays]. *)
Theorem ideal_line_formula w p sprint allIssues baseline :
  let M := maxCapacityOf p sprint allIssues in
  let W := workingDaysOf sprint in
  let elapsed := Rule.workingDaysElapsed (startDate sprint) in
  let points := BurndownData.dataPoints (burndownData w p sprint allIssues baseline) in
  (exists s, points !! 0%nat = Some s /\ DataPoint.date s = StartLabel
             /\ (DataPoint.ideal s == M)%Q)
  /\ (forall pt, pointOfDay points 0 = Some pt -> (DataPoint.ideal pt == M)%Q)
  /\ (forall k pt, pointOfDay points k = Some pt ->
                   (DataPoint.ideal pt == Rule.idealForDay M W (elapsed k))%Q)
  /\ elapsed 0%nat = 0
  /\ (forall k pt pt', pointOfDay points k = Some pt ->
                       pointOfDay points (S k) = Some pt' ->
                       isWorkingDay (startDate sprint + Z.of_nat (S k) * DAY_MS) = false ->
                       (DataPoint.ideal pt' == DataPoint.ideal pt)%Q)
  /\ (forall j k pj pk, (j <= k)%nat ->
                        pointOfDay points j = Some pj -> pointOfDay points k = Some pk ->
                        (DataPoint.ideal pk <= DataPoint.ideal pj)%Q)
  /\ (Rule.idealForDay M W W == 0)%Q.
Proof.
  intros M W elapsed points.
  pose proof (countWorkingDays_pos (startDate sprint) (endDate sprint)) as HW.
  fold (workingDaysOf sprint) in HW. fold W in HW.
  pose proof (teamSizeOf_pos p allIssues) as Ht.
  assert (Hpt : forall k pt, pointOfDay points k = Some pt ->
            (DataPoint.ideal pt
             == inject_Z (Z.max 0 (8 * teamSizeOf p allIssues * (W - elapsed k))))%Q).
  { intros k pt H. unfold points in H. rewrite burndownData_dataPoints in H.
    apply pointOfDay_emitted in H as [_ ->]. apply emitted_ideal. }
  assert (HM : forall n, (Rule.idealForDay M W n
                          == inject_Z (Z.max 0 (8 * teamSizeOf p allIssues * (W - n))))%Q).
  { intros n. apply idealForDay_whole. exact HW. }
  split; [|split; [|split; [|split; [|split; [|split]]]]].
  - exists (startPoint M (totalOriginalEstimateIn p allIssues baseline)).
    unfold points. rewrite burndownData_dataPoints, generateDataPoints_unrolled.
    split; [reflexivity|]. split; [reflexivity|].
    simpl. apply round10_tenths, tenths_inject_Z.
  - intros pt H. rewrite (Hpt _ _ H). unfold M, maxCapacityOf, HOURS_PER_DAY.
    fold W. apply inject_Z_injective. unfold elapsed. simpl. nia.
  - intros k pt H. rewrite (Hpt _ _ H), HM. reflexivity.
  - reflexivity.
  - intros k pt pt' H H' Hday. rewrite (Hpt _ _ H), (Hpt _ _ H').
    unfold elapsed. cbn [Rule.workingDaysElapsed]. rewrite Hday, Z.add_0_r. reflexivity.
  - intros j k pj pk Hjk Hj Hk. rewrite (Hpt _ _ Hj), (Hpt _ _ Hk), <- Zle_Qle.
    pose proof (workingDaysElapsed_mono (startDate sprint) j k Hjk). fold elapsed in H.
    nia.
  - rewrite HM. apply inject_Z_injective. nia.
Qed.

(** C3 as stated fails: in the sprint from Monday 1 to Friday 12 January
    2024 with a team of five, the last working day is the last day of the
    series and the ideal value there is 40, not 0. *)
Lemma ideal_on_last_working_day_not_zero :
  let points :=
    BurndownData.dataPoints
      (burndownData SampleSprint.thursday (SampleSprint.payload None (Some 5%N))
                    SampleSprint.sprint SampleSprint.issues SampleSprint.baseline) in
  exists pt,
    pointOfDay points 11 = Some pt
    /\ pointOfDay points 12 = None
    /\ DataPoint.date pt = DayLabel (toISODate (endDate SampleSprint.sprint))
    /\ isWorkingDay (endDate SampleSprint.sprint) = true
    /\ workingDaysOf SampleSprint.sprint = 10
    /\ (DataPoint.ideal pt == 40)%Q
    /\ ~ (DataPoint.ideal pt == 0)%Q.
Proof.
  eexists. split; [vm_compute; reflexivity|].
  repeat split; try (vm_compute; congruence).
Qed.

(** The sibling resolver text divides by [workingDays - 1] instead, so
    that its line is at zero once [workingDays - 1] working days have
    elapsed, on the last working day of a sprint that starts on one. *)
Remark first_variant_reaches_zero (maxCapacity : Q) (workingDays : Z) :
  1 < workingDays ->
  (maxCapacity - FirstVariant.dailyDecrease maxCapacity workingDays
                 * inject_Z (workingDays - 1) == 0)%Q.
Proof.
  intros H. unfold FirstVariant.dailyDecrease.
  apply Z.ltb_lt in H as Hb. rewrite Hb.
  assert (Hne : ~ (inject_Z (workingDays - 1) == 0)%Q).
  { change 0%Q with (inject_Z 0). rewrite inject_Z_injective. lia. }
  field. exact Hne.
Qed.

(** *** Days after today *)

Lemma points_cases (c : LoopConsts) (total : Q) (pt : DataPoint.t) :
  In pt (generateDataPoints c total) ->
  pt = startPoint (lc_maxCapacity c) total
  \/ exists k, (k < loopBound (lc_startDate c) (lc_endDate c))%nat
               /\ pt = emittedPoint c (stateAfter c total k).
Proof.
  rewrite generateDataPoints_unrolled. intros [H | H]; [left; congruence | right].
  apply in_map_iff in H as (k & Hk & Hin). apply in_seq in Hin.
  exists k. split; [lia | congruence].
Qed.

(** C6.  Every point of the series dated after today has no remaining
    value and no cumulative logged value ([null]); the start point and every
    point dated today or earlier carry both as numbers. *)
Theorem future_points_are_null w p sprint allIssues baseline (pt : DataPoint.t) :
  In pt (BurndownData.dataPoints (burndownData w p sprint allIssues baseline)) ->
  match DataPoint.date pt with
  | StartLabel =>
      is_Some (DataPoint.remaining pt) /\ is_Some (DataPoint.cumulativeLogged pt)
  | DayLabel day =>
      if day <=? toISODate (now w)
      then is_Some (DataPoint.remaining pt) /\ is_Some (DataPoint.totalRemaining pt)
           /\ is_Some (DataPoint.cumulativeLogged pt) /\ is_Some (DataPoint.timeLogged pt)
      else DataPoint.remaining pt = None /\ DataPoint.totalRemaining pt = None
           /\ DataPoint.cumulativeLogged pt = None /\ DataPoint.timeLogged pt = None
  end.
Proof.
  rewrite burndownData_dataPoints. intros H.
  apply points_cases in H as [-> | (k & _ & ->)].
  - simpl. split; eexists; reflexivity.
  - rewrite emitted_date.
    change (lc_startDate (loopConstsOf w p sprint allIssues)) with (startDate sprint).
    unfold emittedPoint.
    cbn [DataPoint.remaining DataPoint.totalRemaining DataPoint.cumulativeLogged
         DataPoint.timeLogged].
    rewrite stateAfter_current.
    destruct (isPastOrToday (loopConstsOf w p sprint allIssues)
                (dayOfSprint (loopConstsOf w p sprint allIssues) k)) eqn:E.
    + apply (isPastOrToday_day w p sprint allIssues k) in E.
      apply Z.leb_le in E. rewrite E. repeat split; eexists; reflexivity.
    + destruct (Z.leb_spec (toISODate (startDate sprint) + Z.of_nat k)
                           (toISODate (now w))) as [Hle | Hgt]; [|repeat split].
      apply (isPastOrToday_day w p sprint allIssues k) in Hle. congruence.
Qed.

(** *** The assignee filter and the team size *)

(** C10.  A request that names a single assignee (a non-empty value other
    than ['All']) is answered with [teamSize = 1] and
    [maxCapacity = workingDays * 8], whatever team size the request carries
    and however many assignees the sprint has. *)
Theorem single_assignee_team_of_one w p sprint allIssues baseline (a : string) :
  singleAssignee p = Some a ->
  let data := burndownData w p sprint allIssues baseline in
  teamSizeOf p allIssues = 1
  /\ BurndownData.teamSize data = 1
  /\ (BurndownData.maxCapacity data == inject_Z (BurndownData.workingDays data * 8))%Q.
Proof.
  intros Ha data.
  assert (Ht : teamSizeOf p allIssues = 1).
  { unfold teamSizeOf. rewrite Ha. reflexivity. }
  split; [exact Ht|]. split; [exact Ht|].
  unfold data, burndownData. cbn [BurndownData.maxCapacity BurndownData.workingDays].
  cbn [loopConstsOf lc_maxCapacity]. rewrite Ht, Z.mul_1_r.
  apply round10_tenths, tenths_inject_Z.
Qed.

Lemma singleAssignee_spec (p : Payload.t) (a : string) :
  singleAssignee p = Some a
  <-> Payload.assignee p = Some a /\ a <> "" /\ a <> "All".
Proof.
  unfold singleAssignee. destruct (Payload.assignee p) as [b|]; [|split; [discriminate | intros [? _]; discriminate]].
  simpl. destruct (String.eqb_spec b ""), (String.eqb_spec b "All"); simpl;
    split; try discriminate; try (intros [H1 [H2 H3]]; congruence).
  - intros H. injection H as ->. auto.
Qed.

(** ** Sprint health *)

(** *** Comparison of doubles *)

Lemma SFcompare_swap (a b : spec_float) :
  SFcompare b a = option_map CompOpp (SFcompare a b).
Proof.
  destruct a as [sa | sa | | sa ma ea], b as [sb | sb | | sb mb eb]; simpl;
    try reflexivity;
    try (destruct sa; reflexivity); try (destruct sb; reflexivity);
    try (destruct sa, sb; reflexivity).
  destruct sa, sb; try reflexivity; f_equal;
    rewrite (Z.compare_antisym ea eb);
    destruct (ea ?= eb); simpl; try reflexivity;
    rewrite (Pos.compare_cont_antisym ma mb Eq); simpl;
    rewrite ?CompOpp_involutive; reflexivity.
Qed.

Lemma ltb_asym (a b : Double.double) :
  Double.ltb a b = true -> Double.ltb b a = false.
Proof.
  unfold Double.ltb, SFltb. rewrite (SFcompare_swap a b).
  destruct (SFcompare a b) as [[| |]|]; simpl; congruence.
Qed.



(** *** The engine's figures against the exact ones *)


Lemma same_eq (a b : Double.double) : Double.same a b = true -> a = b.
Proof.
  destruct a as [s1 | s1 | | s1 m1 e1], b as [s2 | s2 | | s2 m2 e2]; simpl;
    try discriminate; try reflexivity.
  - intros H. apply eqb_prop in H. congruence.
  - intros H. apply eqb_prop in H. congruence.
  - rewrite !andb_true_iff. intros [[H1 H2] H3].
    apply eqb_prop in H1. apply Pos.eqb_eq in H2. apply Z.eqb_eq in H3. congruence.
Qed.















(** *** The classification *)

(** The three counters of [getSprintHealth] count the classes. *)
Lemma sprintHealth_counts (issues : list Issue) :
  let count c := length (List.filter
                           (fun i => bool_decide (healthBucket i = c)) issues) in
  HealthCounts.under (sprintHealth issues) = count UNDERESTIMATED
  /\ HealthCounts.normal (sprintHealth issues) = count NORMAL
  /\ HealthCounts.good (sprintHealth issues) = count GOOD
  /\ HealthCounts.total (sprintHealth issues) = length issues.
Proof.
  intros count. unfold sprintHealth.
  assert (H : forall acc,
    let r := fold_left healthStep issues acc in
    HealthCounts.under r = (HealthCounts.under acc + count UNDERESTIMATED)%nat
    /\ HealthCounts.normal r = (HealthCounts.normal acc + count NORMAL)%nat
    /\ HealthCounts.good r = (HealthCounts.good acc + count GOOD)%nat
    /\ HealthCounts.total r = HealthCounts.total acc).
  { unfold count. clear count.
    induction issues as [|i l IH]; intros acc; simpl.
    - repeat split; lia.
    - destruct (IH (healthStep acc i)) as (H1 & H2 & H3 & H4).
      rewrite H1, H2, H3, H4. unfold healthStep, healthBucket.
      destruct (Double.ltb _ _); [|destruct (Double.ltb _ _)]; simpl; repeat split; lia. }
  specialize (H {| HealthCounts.under := 0; HealthCounts.normal := 0;
                   HealthCounts.good := 0; HealthCounts.total := length issues |}).
  simpl in H. exact H.
Qed.



(** The figures of the samples: the doubles nearest to 0.8 and 0.3 on one
    side, the computed sums on the other; whole and half hours add up
    without error. *)
Lemma sample_sums :
  (Double.valueOf (originalOf SampleHealth.sumBelow)
   == 7205759403792794 # 9007199254740992
   /\ Double.valueOf (actualTotalOf SampleHealth.sumBelow)
      == 7205759403792793 # 9007199254740992)%Q
  /\ (Double.valueOf (originalOf SampleHealth.sumAbove)
      == 5404319552844595 # 18014398509481984
      /\ Double.valueOf (actualTotalOf SampleHealth.sumAbove)
         == 5404319552844596 # 18014398509481984)%Q
  /\ healthBucket SampleHealth.onEstimate = NORMAL
  /\ FirstVariant.classification SampleHealth.sumBelow = NORMAL.
Proof. repeat split; vm_compute; reflexivity. Qed.


(** ** The stored baseline *)

Lemma getSprintBaseline_read (w : World) (sid : string) (e : Env) :
  storage_get_error w (baselineKey sid) = None ->
  getSprintBaseline w sid e
  = (Returned (store e !! baselineKey sid),
     {| store := store e; trace := (trace e ++ [OpGet (baselineKey sid)])%list |}).
Proof.
  intros H. unfold getSprintBaseline, try_catch, storage.get. rewrite H. reflexivity.
Qed.

Lemma isCorrupted_spec (b : Baseline.t) (allIssues : list Issue) :
  isCorrupted b allIssues = true
  <-> 10 * Z.of_nat (length (Baseline.issues b)) < 3 * Z.of_nat (currentActiveCountOf allIssues)
      /\ Z.of_nat (length (Baseline.issues b)) < 10.
Proof.
  unfold isCorrupted. rewrite andb_true_iff, Qltb_lt, Nat.ltb_lt.
  set (n := Z.of_nat (length (Baseline.issues b))).
  set (a := Z.of_nat (currentActiveCountOf allIssues)).
  assert (H : (inject_Z n < inject_Z a * (3 # 10))%Q <-> 10 * n < 3 * a).
  { rewrite (Zlt_Qlt (10 * n) (3 * a)), !inject_Z_mult.
    change (inject_Z 10) with 10%Q. change (inject_Z 3) with 3%Q.
    split; intros; lra. }
  rewrite H. unfold n. split; intros [H1 H2]; split; try exact H1; lia.
Qed.


(** ** Effects of the computations on the store *)

Lemma baselineKey_inj (a b : string) : baselineKey a = baselineKey b -> a = b.
Proof. unfold baselineKey. simpl. intros H. injection H. auto. Qed.

Lemma configKey_not_baselineKey (g sid : string) : configKey g <> baselineKey sid.
Proof. unfold configKey, baselineKey. simpl. discriminate. Qed.

Section Keeps.

Context {A B : Type} (k : string) (v : Stored).

Lemma keeps_ret (a : A) : keeps k v (ret a).
Proof. intros e H. exact H. Qed.

Lemma keeps_throw (msg : string) : keeps k v (@throw A msg).
Proof. intros e H. exact H. Qed.

Lemma keeps_lift (o : Outcome A) : keeps k v (lift o).
Proof. intros e H. exact H. Qed.

Lemma keeps_bind (m : M A) (f : A -> M B) :
  keeps k v m -> (forall a, keeps k v (f a)) -> keeps k v (bind m f).
Proof.
  intros Hm Hf e H. unfold bind. specialize (Hm e H).
  destruct (m e) as [[a | msg] e']; simpl in *.
  - apply Hf. exact Hm.
  - exact Hm.
Qed.

Lemma keeps_try_catch (m : M A) (h : string -> M A) :
  keeps k v m -> (forall msg, keeps k v (h msg)) -> keeps k v (try_catch m h).
Proof.
  intros Hm Hh e H. unfold try_catch. specialize (Hm e H).
  destruct (m e) as [[a | msg] e']; simpl in *.
  - exact Hm.
  - apply Hh. exact Hm.
Qed.

End Keeps.

Lemma keeps_get (w : World) (k k' : string) (v : Stored) : keeps k v (storage.get w k').
Proof.
  intros e H. unfold storage.get. destruct (storage_get_error w k'); exact H.
Qed.

Lemma keeps_set (w : World) (k k' : string) (v v' : Stored) :
  k' <> k -> keeps k v (storage.set w k' v').
Proof.
  intros Hne e H. unfold storage.set. destruct (storage_set_error w k'); simpl.
  - exact H.
  - rewrite lookup_insert_ne by exact Hne. exact H.
Qed.

Lemma keeps_delete (w : World) (k k' : string) (v : Stored) :
  k' <> k -> keeps k v (storage.delete w k').
Proof.
  intros Hne e H. unfold storage.delete. destruct (storage_delete_error w k'); simpl.
  - exact H.
  - rewrite lookup_delete_ne by exact Hne. exact H.
Qed.

Create HintDb keeps.
#[local] Hint Resolve keeps_ret keeps_throw keeps_lift keeps_get : keeps.
#[local] Hint Extern 2 (keeps _ _ (bind _ _)) => apply keeps_bind; [|intros] : keeps.
#[local] Hint Extern 2 (keeps _ _ (try_catch _ _)) => apply keeps_try_catch; [|intros] : keeps.

(** The baseline step of [getBurndownData] keeps the stored baseline of a
    sprint when it can read the store, unless it is the baseline of the
    sprint at hand and is found corrupted. *)
Lemma obtainBaseline_keeps (w : World) (sprint : Sprint) (allIssues : list Issue)
    (sid : string) (b : Baseline.t) :
  storage_get_error w (baselineKey sid) = None ->
  (sprint_id sprint = sid -> isCorrupted b allIssues = false) ->
  keeps (baselineKey sid) (StoredBaseline b) (obtainBaseline w sprint allIssues).
Proof.
  intros Hget Hc. destruct (decide (sprint_id sprint = sid)) as [Heq | Hne].
  - intros e H. unfold obtainBaseline, repairOrCreate, bind. rewrite Heq.
    rewrite getSprintBaseline_read by exact Hget.
    rewrite H, (Hc Heq). exact H.
  - assert (Hk : baselineKey (sprint_id sprint) <> baselineKey sid).
    { intros E. apply Hne, baselineKey_inj, E. }
    unfold obtainBaseline, repairOrCreate, getSprintBaseline, deleteSprintBaseline,
      saveSprintBaseline.
    apply keeps_bind; [auto with keeps|]. intros stored.
    apply keeps_bind.
    + destruct stored as [[b' | c] |]; auto with keeps.
      destruct (isCorrupted b' allIssues); auto with keeps.
      apply keeps_bind; [|auto with keeps].
      apply keeps_try_catch; [|auto with keeps].
      apply keeps_bind; [|auto with keeps]. apply keeps_delete, Hk.
    + intros [b' |]; auto with keeps.
      apply keeps_bind; [|auto with keeps]. apply keeps_set, Hk.
Qed.

(** ** The endpoints *)

Section Endpoints.

Context {Report : Type}.
Variables atRiskItems scopeChanges highPriorityItems releaseData
  : World -> Payload.t -> Sprint -> list Issue -> Outcome Report.

Let serve := handler atRiskItems scopeChanges highPriorityItems releaseData.

(** *** What the endpoints leave in the store *)

Lemma keeps_guarded k v (body : M (Response Report)) :
  keeps k v body -> keeps k v (guarded body).
Proof. intros H. unfold guarded. auto with keeps. Qed.

(** The opening of the sprint endpoints, case by case. *)
Lemma withSprint_run w payload (kont : Payload.t -> Sprint -> M (Response Report)) e :
  withSprint w payload kont e
  = match payload with
    | None =>
        (Returned (Failure
           "Cannot destructure property 'boardId' of 'payload' as it is undefined."), e)
    | Some p =>
        if truthy (Payload.boardId p) then
          match getActiveSprint w (default "" (Payload.boardId p)) with
          | Thrown msg => (Returned (Failure msg), e)
          | Returned None => (Returned (Failure "No active sprint found"), e)
          | Returned (Some sprint) => guarded (kont p sprint) e
          end
        else (Returned (Failure "Board ID is required"), e)
    end.
Proof.
  unfold withSprint, guarded, try_catch, bind, destructure, lift, ret, throw.
  destruct payload as [p|]; [|reflexivity].
  destruct (truthy (Payload.boardId p)); [|reflexivity]. simpl.
  destruct (getActiveSprint w _) as [[sprint|]|msg]; reflexivity.
Qed.

Lemma withIssues_run w payload
    (kont : Payload.t -> Sprint -> list Issue -> M (Response Report)) e :
  withIssues w payload kont e
  = match payload with
    | None =>
        (Returned (Failure
           "Cannot destructure property 'boardId' of 'payload' as it is undefined."), e)
    | Some p =>
        if truthy (Payload.boardId p) then
          match getActiveSprint w (default "" (Payload.boardId p))
                return (Outcome (Response Report) * Env)%type with
          | Thrown msg => (Returned (Failure msg), e)
          | Returned None => (Returned (Failure "No active sprint found"), e)
          | Returned (Some sprint) =>
              match getSprintIssues w (sprint_id sprint)
                    return (Outcome (Response Report) * Env)%type with
              | Thrown msg => (Returned (Failure msg), e)
              | Returned issues => guarded (kont p sprint (issuesOf p issues)) e
              end
          end
        else (Returned (Failure "Board ID is required"), e)
    end.
Proof.
  unfold withIssues. rewrite withSprint_run.
  destruct payload as [p|]; [|reflexivity].
  destruct (truthy (Payload.boardId p)); [|reflexivity].
  destruct (getActiveSprint w _) as [[sprint|]|msg]; try reflexivity.
  unfold guarded, try_catch, bind, lift.
  destruct (getSprintIssues w (sprint_id sprint)); reflexivity.
Qed.

Lemma getBurndownData_run w payload e :
  resolve_getBurndownData w payload e
  = match payload with
    | None =>
        (Returned (Failure
           "Cannot destructure property 'boardId' of 'payload' as it is undefined."), e)
    | Some p =>
        if truthy (Payload.boardId p) then
          match getActiveSprint w (default "" (Payload.boardId p))
                return (Outcome (Response Report) * Env)%type with
          | Thrown msg => (Returned (Failure msg), e)
          | Returned None => (Returned (Failure "No active sprint found"), e)
          | Returned (Some sprint) =>
              match getSprintIssues w (sprint_id sprint)
                    return (Outcome (Response Report) * Env)%type with
              | Thrown msg => (Returned (Failure msg), e)
              | Returned allIssues =>
                  match obtainBaseline w sprint allIssues e
                        return (Outcome (Response Report) * Env)%type with
                  | (Returned baseline, e') =>
                      (Returned (Success (BurndownBody
                         (burndownData w p sprint allIssues baseline))), e')
                  | (Thrown msg, e') => (Returned (Failure msg), e')
                  end
              end
          end
        else (Returned (Failure "Board ID is required"), e)
    end.
Proof.
  unfold resolve_getBurndownData. rewrite withSprint_run.
  destruct payload as [p|]; [|reflexivity].
  destruct (truthy (Payload.boardId p)); [|reflexivity].
  destruct (getActiveSprint w _) as [[sprint|]|msg]; try reflexivity.
  unfold guarded, try_catch, bind, lift.
  destruct (getSprintIssues w (sprint_id sprint)) as [allIssues|msg]; [|reflexivity].
  destruct (obtainBaseline w sprint allIssues e) as [[baseline|msg] e']; reflexivity.
Qed.

(** The endpoints that only read the tracker leave the store alone. *)
Lemma resolve_report_pure
    (compute : World -> Payload.t -> Sprint -> list Issue -> Outcome Report)
    w payload e :
  snd (resolve_report compute w payload e) = e.
Proof.
  unfold resolve_report. rewrite withIssues_run.
  destruct payload as [p|]; [|reflexivity].
  destruct (truthy (Payload.boardId p)); [|reflexivity].
  destruct (getActiveSprint w _) as [[sprint|]|msg]; try reflexivity.
  destruct (getSprintIssues w (sprint_id sprint)) as [issues|msg]; [|reflexivity].
  unfold guarded, try_catch, bind, lift. destruct (compute w p sprint _); reflexivity.
Qed.

Lemma resolve_getSprintHealth_pure w payload e :
  snd (resolve_getSprintHealth Report w payload e) = e.
Proof.
  unfold resolve_getSprintHealth. rewrite withIssues_run.
  destruct payload as [p|]; [|reflexivity].
  destruct (truthy (Payload.boardId p)); [|reflexivity].
  destruct (getActiveSprint w _) as [[sprint|]|msg]; try reflexivity.
  destruct (getSprintIssues w (sprint_id sprint)) as [issues|msg]; reflexivity.
Qed.

(** A successful answer of [getBurndownData] is the burndown data computed
    from the active sprint, its issues and the baseline obtained. *)
Lemma burndown_answer w p e body e' :
  resolve_getBurndownData (Report := Report) w (Some p) e = (Returned (Success body), e') ->
  exists sprint allIssues baseline,
    getActiveSprint w (default "" (Payload.boardId p)) = Returned (Some sprint)
    /\ getSprintIssues w (sprint_id sprint) = Returned allIssues
    /\ obtainBaseline w sprint allIssues e = (Returned baseline, e')
    /\ body = BurndownBody (burndownData w p sprint allIssues baseline).
Proof.
  rewrite getBurndownData_run.
  destruct (truthy (Payload.boardId p)); [|discriminate].
  destruct (getActiveSprint w _) as [[sprint|]|msg] eqn:Es; try discriminate.
  destruct (getSprintIssues w (sprint_id sprint)) as [allIssues|msg] eqn:Ei;
    [|discriminate].
  destruct (obtainBaseline w sprint allIssues e) as [[baseline|msg] e''] eqn:Eb;
    [|discriminate].
  intros H. injection H as <- <-. exists sprint, allIssues, baseline.
  split; [reflexivity|]. split; [exact Ei|]. split; [exact Eb | reflexivity].
Qed.

(** C5, with the second way a baseline gets replaced.  A request other
    than the explicit reset leaves the stored baseline of a sprint exactly
    as it is, provided the store can be read under the baseline's key and
    the request is not a burndown request for that sprint that finds the
    baseline corrupted. *)
Theorem baseline_stable (w : World) (r : Request) (e : Env) (sid : string)
    (b : Baseline.t) :
  isReset r = false ->
  store e !! baselineKey sid = Some (StoredBaseline b) ->
  storage_get_error w (baselineKey sid) = None ->
  repairDue w r sid b = false ->
  store (snd (serve w r e)) !! baselineKey sid = Some (StoredBaseline b).
Proof.
  intros Hreset Hstored Hget Hrepair. unfold serve.
  destruct r as [ | g | c g | payload | payload | payload | payload | payload
                | payload | payload ]; cbn [handler]; try discriminate Hreset.
  - unfold resolve_getBoards, guarded, try_catch, bind, lift.
    destruct (getBoards w); exact Hstored.
  - revert e Hstored. change (keeps (baselineKey sid) (StoredBaseline b)
                                (resolve_getConfig (Report := Report) w g)).
    unfold resolve_getConfig. auto with keeps.
  - revert e Hstored. change (keeps (baselineKey sid) (StoredBaseline b)
                                (resolve_saveConfig Report w c g)).
    unfold resolve_saveConfig, guarded.
    apply keeps_try_catch; [|auto with keeps].
    apply keeps_bind; [|auto with keeps].
    apply keeps_set, configKey_not_baselineKey.
  - rewrite getBurndownData_run. cbn [repairDue] in Hrepair.
    destruct payload as [p|]; [|exact Hstored].
    destruct (truthy (Payload.boardId p)); [|exact Hstored].
    destruct (getActiveSprint w _) as [[sprint|]|msg]; try exact Hstored.
    destruct (getSprintIssues w (sprint_id sprint)) as [allIssues|msg];
      [|exact Hstored].
    simpl in Hrepair.
    assert (Hk : keeps (baselineKey sid) (StoredBaseline b)
                       (obtainBaseline w sprint allIssues)).
    { apply obtainBaseline_keeps; [exact Hget|]. intros Heq.
      rewrite bool_decide_eq_true_2 in Hrepair by exact Heq. exact Hrepair. }
    specialize (Hk e Hstored).
    destruct (obtainBaseline w sprint allIssues e) as [[baseline|msg] e']; exact Hk.
  - rewrite resolve_getSprintHealth_pure. exact Hstored.
  - rewrite resolve_report_pure. exact Hstored.
  - rewrite resolve_report_pure. exact Hstored.
  - rewrite resolve_report_pure. exact Hstored.
  - rewrite resolve_report_pure. exact Hstored.
Qed.

(** *** What the endpoints answer *)

Lemma deleteBaseline_run w payload e :
  fst (resolve_deleteBaseline Report w payload e)
  = match payload with
    | None =>
        Returned (Failure
          "Cannot destructure property 'boardId' of 'payload' as it is undefined.")
    | Some p =>
        if truthy (Payload.boardId p) then
          match getActiveSprint w (default "" (Payload.boardId p)) with
          | Thrown msg => Returned (Failure msg)
          | Returned None => Returned (Failure "No active sprint found")
          | Returned (Some sprint) =>
              Returned (Success (MessageBody
                ("Baseline for sprint " ++ sprint_name sprint ++ " deleted.")))
          end
        else Returned (Failure "Board ID is required")
    end.
Proof.
  unfold resolve_deleteBaseline. rewrite withSprint_run.
  destruct payload as [p|]; [|reflexivity].
  destruct (truthy (Payload.boardId p)); [|reflexivity].
  destruct (getActiveSprint w _) as [[sprint|]|msg]; try reflexivity.
  unfold guarded, try_catch, bind, deleteSprintBaseline, storage.delete.
  destruct (storage_delete_error w _); reflexivity.
Qed.

Lemma report_run
    (compute : World -> Payload.t -> Sprint -> list Issue -> Outcome Report)
    w payload e :
  fst (resolve_report compute w payload e)
  = match payload with
    | None =>
        Returned (Failure
          "Cannot destructure property 'boardId' of 'payload' as it is undefined.")
    | Some p =>
        if truthy (Payload.boardId p) then
          match getActiveSprint w (default "" (Payload.boardId p)) with
          | Thrown msg => Returned (Failure msg)
          | Returned None => Returned (Failure "No active sprint found")
          | Returned (Some sprint) =>
              match getSprintIssues w (sprint_id sprint) with
              | Thrown msg => Returned (Failure msg)
              | Returned issues =>
                  match compute w p sprint (issuesOf p issues) with
                  | Returned data => Returned (Success (ReportBody data))
                  | Thrown msg => Returned (Failure msg)
                  end
              end
          end
        else Returned (Failure "Board ID is required")
    end.
Proof.
  unfold resolve_report. rewrite withIssues_run.
  destruct payload as [p|]; [|reflexivity].
  destruct (truthy (Payload.boardId p)); [|reflexivity].
  destruct (getActiveSprint w _) as [[sprint|]|msg]; try reflexivity.
  destruct (getSprintIssues w (sprint_id sprint)) as [issues|msg]; [|reflexivity].
  unfold guarded, try_catch, bind, lift.
  destruct (compute w p sprint _); reflexivity.
Qed.

Lemma getSprintHealth_run w payload e :
  fst (resolve_getSprintHealth Report w payload e)
  = match payload with
    | None =>
        Returned (Failure
          "Cannot destructure property 'boardId' of 'payload' as it is undefined.")
    | Some p =>
        if truthy (Payload.boardId p) then
          match getActiveSprint w (default "" (Payload.boardId p)) with
          | Thrown msg => Returned (Failure msg)
          | Returned None => Returned (Failure "No active sprint found")
          | Returned (Some sprint) =>
              match getSprintIssues w (sprint_id sprint) with
              | Thrown msg => Returned (Failure msg)
              | Returned issues =>
                  Returned (Success (HealthBody (sprintHealth (issuesOf p issues))
                                                (sprint_name sprint)))
              end
          end
        else Returned (Failure "Board ID is required")
    end.
Proof.
  unfold resolve_getSprintHealth. rewrite withIssues_run.
  destruct payload as [p|]; [|reflexivity].
  destruct (truthy (Payload.boardId p)); [|reflexivity].
  destruct (getActiveSprint w _) as [[sprint|]|msg]; try reflexivity.
  destruct (getSprintIssues w (sprint_id sprint)) as [issues|msg]; reflexivity.
Qed.

Lemma getConfig_run w g e :
  fst (resolve_getConfig (Report := Report) w g e)
  = Returned (StoredObject
      (match storage_get_error w (configKey (orStr g "default")) with
       | Some _ => StoredConfig Config.default
       | None =>
           default (StoredConfig Config.default)
                   (store e !! configKey (orStr g "default"))
       end)).
Proof.
  unfold resolve_getConfig, try_catch, bind, storage.get.
  destruct (storage_get_error w _); reflexivity.
Qed.

Ltac split_cases :=
  repeat match goal with
         | |- context [match ?x with _ => _ end] => destruct x eqn:?
         end.

Lemma serve_returns (w : World) (r : Request) (e : Env) :
  exists resp,
    fst (serve w r e) = Returned resp
    /\ match r with
       | getConfigReq _ => exists v, resp = StoredObject v
       | _ => tagged resp = true
       end.
Proof.
  unfold serve.
  destruct r as [ | g | c g | payload | payload | payload | payload | payload
                | payload | payload ]; cbn [handler].
  - unfold resolve_getBoards, guarded, try_catch, bind, lift.
    destruct (getBoards w); eexists; split; reflexivity.
  - rewrite getConfig_run. eexists. split; [reflexivity|]. eexists. reflexivity.
  - unfold resolve_saveConfig, guarded, try_catch, bind, storage.set.
    destruct (storage_set_error w _); eexists; split; reflexivity.
  - rewrite getBurndownData_run. split_cases; eexists; split; reflexivity.
  - rewrite deleteBaseline_run. split_cases; eexists; split; reflexivity.
  - rewrite getSprintHealth_run. split_cases; eexists; split; reflexivity.
  - rewrite report_run. split_cases; eexists; split; reflexivity.
  - rewrite report_run. split_cases; eexists; split; reflexivity.
  - rewrite report_run. split_cases; eexists; split; reflexivity.
  - rewrite report_run. split_cases; eexists; split; reflexivity.
Qed.

(** C9, with [getConfig] set apart.  Every endpoint returns and none
    throws.  Every endpoint but [getConfig] returns a tagged answer;
    [getConfig] returns the bare configuration object, the default one
    when the store fails.  A sprint endpoint answers a missing board with
    the failure "Board ID is required", a board without an active sprint
    with "No active sprint found", and an error thrown while the sprint,
    its issues or the baseline are obtained, or while the report is
    computed, with a failure that carries the error's message. *)
Theorem endpoints_never_throw (w : World) (r : Request) (e : Env) :
  (exists resp,
      fst (serve w r e) = Returned resp
      /\ match r with
         | getConfigReq _ => exists v, resp = StoredObject v
         | _ => tagged resp = true
         end)
  /\ (sprintRequest r = Some None ->
      exists msg, fst (serve w r e) = Returned (Failure msg))
  /\ (forall p, sprintRequest r = Some (Some p) ->
      (truthy (Payload.boardId p) = false ->
       fst (serve w r e) = Returned (Failure "Board ID is required"))
      /\ (truthy (Payload.boardId p) = true ->
          let found := getActiveSprint w (default "" (Payload.boardId p)) in
          (found = Returned None ->
           fst (serve w r e) = Returned (Failure "No active sprint found"))
          /\ (forall msg, found = Thrown msg ->
                          fst (serve w r e) = Returned (Failure msg))
          /\ (forall sprint, found = Returned (Some sprint) ->
              (forall msg, fetchesIssues r = true ->
                           getSprintIssues w (sprint_id sprint) = Thrown msg ->
                           fst (serve w r e) = Returned (Failure msg))
              /\ (forall issues, getSprintIssues w (sprint_id sprint) = Returned issues ->
                  (forall compute msg,
                      reportComputation atRiskItems scopeChanges highPriorityItems
                                        releaseData r = Some compute ->
                      compute w p sprint (issuesOf p issues) = Thrown msg ->
                      fst (serve w r e) = Returned (Failure msg))
                  /\ (forall msg e',
                         r = getBurndownDataReq (Some p) ->
                         obtainBaseline w sprint issues e = (Thrown msg, e') ->
                         fst (serve w r e) = Returned (Failure msg)))))).
Proof.
  split; [apply serve_returns|]. unfold serve.
  destruct r as [ | g | c g | payload | payload | payload | payload | payload
                | payload | payload ];
    cbn [handler sprintRequest fetchesIssues reportComputation];
    (split; [intros H; try discriminate H; injection H as -> |
             intros p H; try discriminate H; injection H as ->]);
    rewrite ?getBurndownData_run, ?deleteBaseline_run, ?getSprintHealth_run,
      ?report_run;
    try (eexists; reflexivity);
    (split; [intros Hb; rewrite Hb; reflexivity | intros Hb; rewrite Hb; cbv zeta]);
    (split; [intros Hs; rewrite Hs; reflexivity |]);
    (split; [intros msg Hs; rewrite Hs; reflexivity |]);
    intros sprint Hs; rewrite Hs;
    (split; [intros msg Hf Hi; try discriminate Hf; rewrite Hi; reflexivity |]);
    intros issues Hi; rewrite ?Hi;
    (split; [intros compute msg Hc Ht; try discriminate Hc;
             injection Hc as <-; rewrite Ht; reflexivity |]);
    intros msg e' Hr Ho; try discriminate Hr.
  rewrite Ho. reflexivity.
Qed.

End Endpoints.

(** ** The corruption repair, at the request *)





(** C9 as stated fails on [getConfig]: its answer is the bare
    configuration object, without the success tag, and a failure of the
    store is answered with the default configuration, not with a failure
    result. *)
Lemma getConfig_answer_not_tagged :
  (exists resp,
      fst (SampleStore.serve SampleSprint.thursday (getConfigReq None) SampleStore.env)
      = Returned resp
      /\ tagged resp = false)
  /\ fst (SampleStore.serve SampleStore.unreadable (getConfigReq None) SampleStore.env)
     = Returned (StoredObject (StoredConfig Config.default)).
Proof.
  split; [eexists; split|]; vm_compute; reflexivity.
Qed.

(** C5 as stated fails when the store cannot be read: the stored baseline
    of sprint 7 is not corrupted (two entries against three current issues),
    yet a burndown request that fails to read it saves a fresh baseline over
    it. *)
Lemma unreadable_baseline_replaced :
  let request := getBurndownDataReq (Some (SampleSprint.payload None None)) in
  let after := snd (SampleStore.serve SampleStore.unreadable request SampleStore.env) in
  isReset request = false
  /\ store SampleStore.env !! baselineKey "7" = Some (StoredBaseline SampleSprint.baseline)
  /\ isCorrupted SampleSprint.baseline SampleSprint.issues = false
  /\ repairDue SampleStore.unreadable request "7" SampleSprint.baseline = false
  /\ store after !! baselineKey "7"
     = Some (StoredBaseline (makeBaseline SampleStore.unreadable "7" SampleSprint.issues))
  /\ store after !! baselineKey "7" <> Some (StoredBaseline SampleSprint.baseline).
Proof.
  repeat split; try (vm_compute; reflexivity).
  intros H.
  apply (f_equal (fun o => match o with
                           | Some (StoredBaseline b) => length (Baseline.issues b)
                           | _ => O
                           end)) in H.
  vm_compute in H. discriminate H.
Qed.

(** ** Scope totals *)

(** C7 fails on the code: PRJ-4 (4h) existed before the sprint and was
    moved into it on 5 January.  The changelogs are fetched only for the
    issues created on or after the start day of the sprint, so that of
    PRJ-4 is not consulted and the item is not reported as added: the
    current items total 14h while the baseline (8h) plus the scope added
    (2h) less the scope removed (0h) is 10h.  The detection itself, given
    the changelog of PRJ-4, dates its entry 5 January, after the start: with
    its 4h the totals would balance. *)
Lemma scope_totals_do_not_balance :
  let p := SampleSprint.payload None None in
  let allIssues := (SampleSprint.issues ++ [SampleScope.latecomer])%list in
  let data := burndownData SampleScope.monday p SampleSprint.sprint allIssues
                           SampleSprint.baseline in
  let day := setHours0 (startDate SampleSprint.sprint) in
  let fetched := issuesNeedingChangelogOf day (issuesOf p allIssues) in
  (map key fetched = ["PRJ-3"]
   /\ issueAddedDate (getAllChangelogs SampleScope.monday fetched)
                     SampleSprint.sprint day SampleScope.latecomer = None
   /\ issueAddedDate (getAllChangelogs SampleScope.monday (issuesOf p allIssues))
                     SampleSprint.sprint day SampleScope.latecomer
      = Some (setHours0 (SampleSprint.jan 5)))
  /\ (computeEffectiveOriginalEstimate (issuesOf p allIssues) == 14)%Q
  /\ (totalOriginalEstimateIn p allIssues SampleSprint.baseline == 8)%Q
  /\ (BurndownData.totalOriginalEstimate data == 8)%Q
  /\ (BurndownData.scopeAddedTotal data == 2)%Q
  /\ (BurndownData.scopeRemovedTotal data == 0)%Q
  /\ ~ (Qabs (computeEffectiveOriginalEstimate (issuesOf p allIssues)
              - (BurndownData.totalOriginalEstimate data
                 + BurndownData.scopeAddedTotal data
                 - BurndownData.scopeRemovedTotal data)) <= 1 # 10)%Q.
Proof.
  repeat split; try (vm_compute; reflexivity).
  vm_compute. intros H. apply H. reflexivity.
Qed.

Lemma reduce_sum_partition {A : Type} (f : A -> Q) (P : A -> bool) (l : list A) :
  (reduce_sum f l
   == reduce_sum f (List.filter P l) + reduce_sum f (List.filter (fun x => negb (P x)) l))%Q.
Proof.
  induction l as [|x l IH]; [unfold reduce_sum; simpl; lra|].
  simpl List.filter. destruct (P x); simpl; rewrite !reduce_sum_cons, IH; lra.
Qed.

Lemma NoDup_map_filter {A : Type} (k : A -> string) (P : A -> bool) (l : list A) :
  NoDup (map k l) -> NoDup (map k (List.filter P l)).
Proof.
  induction l as [|x l IH]; simpl; intros H; [constructor|].
  apply NoDup_cons in H as [Hx Hl].
  destruct (P x); simpl; [|auto].
  apply NoDup_cons. split; [|auto].
  intros Hin. apply Hx. apply list_elem_of_In in Hin. apply list_elem_of_In.
  apply in_map_iff in Hin as (y & Hy & Hf). apply filter_In in Hf as [Hf _].
  apply in_map_iff. eauto.
Qed.

(** ** The theorems at work on the sample sprint *)

Lemma remaining_line_on_wednesday :
  pointOfDay
    (BurndownData.dataPoints
       (burndownData SampleSprint.thursday SampleRun.teamPayload SampleSprint.sprint
                     SampleSprint.issues SampleSprint.baseline)) 2
  = Some SampleRun.wednesday
  /\ toISODate (startDate SampleSprint.sprint) + Z.of_nat 2
     <= toISODate (now SampleSprint.thursday)
  /\ DataPoint.date SampleRun.wednesday
     = DayLabel (toISODate (startDate SampleSprint.sprint) + Z.of_nat 2)
  /\ remainingValue SampleRun.wednesday
     = Some (round10
               (Rule.forwardAccumulation
                  (totalOriginalEstimateIn SampleRun.teamPayload SampleSprint.issues
                                           SampleSprint.baseline)
                  (loggedOn (loopConstsOf SampleSprint.thursday SampleRun.teamPayload
                                          SampleSprint.sprint SampleSprint.issues))
                  (addedOn (loopConstsOf SampleSprint.thursday SampleRun.teamPayload
                                         SampleSprint.sprint SampleSprint.issues))
                  (removedOn (loopConstsOf SampleSprint.thursday SampleRun.teamPayload
                                           SampleSprint.sprint SampleSprint.issues))
                  (toISODate (startDate SampleSprint.sprint)) 3)).
Proof.
  assert (H1 : pointOfDay
    (BurndownData.dataPoints
       (burndownData SampleSprint.thursday SampleRun.teamPayload SampleSprint.sprint
                     SampleSprint.issues SampleSprint.baseline)) 2
  = Some SampleRun.wednesday).
  { vm_compute. reflexivity. }
  assert (H2 : toISODate (startDate SampleSprint.sprint) + Z.of_nat 2
               <= toISODate (now SampleSprint.thursday)).
  { apply Z.leb_le. vm_compute. reflexivity. }
  split; [exact H1|]. split; [exact H2|].
  exact (proj1 (proj2 (proj2 (proj2
           (remaining_line_is_forward_accumulation
              SampleSprint.thursday SampleRun.teamPayload SampleSprint.sprint
              SampleSprint.issues SampleSprint.baseline))))
           2%nat SampleRun.wednesday H1 H2).
Defined.

Lemma ideal_line_on_friday :
  pointOfDay
    (BurndownData.dataPoints
       (burndownData SampleSprint.thursday SampleRun.teamPayload SampleSprint.sprint
                     SampleSprint.issues SampleSprint.baseline)) 4
  = Some SampleRun.friday
  /\ (DataPoint.ideal SampleRun.friday
      == Rule.idealForDay
           (maxCapacityOf SampleRun.teamPayload SampleSprint.sprint SampleSprint.issues)
           (workingDaysOf SampleSprint.sprint)
           (Rule.workingDaysElapsed (startDate SampleSprint.sprint) 4))%Q.
Proof.
  assert (H1 : pointOfDay
    (BurndownData.dataPoints
       (burndownData SampleSprint.thursday SampleRun.teamPayload SampleSprint.sprint
                     SampleSprint.issues SampleSprint.baseline)) 4
  = Some SampleRun.friday).
  { vm_compute. reflexivity. }
  split; [exact H1|].
  exact (proj1 (proj2 (proj2
           (ideal_line_formula
              SampleSprint.thursday SampleRun.teamPayload SampleSprint.sprint
              SampleSprint.issues SampleSprint.baseline)))
           4%nat SampleRun.friday H1).
Defined.

Lemma friday_is_null :
  In SampleRun.friday
     (BurndownData.dataPoints
        (burndownData SampleSprint.thursday SampleRun.teamPayload SampleSprint.sprint
                      SampleSprint.issues SampleSprint.baseline))
  /\ match DataPoint.date SampleRun.friday with
     | StartLabel =>
         is_Some (DataPoint.remaining SampleRun.friday)
         /\ is_Some (DataPoint.cumulativeLogged SampleRun.friday)
     | DayLabel day =>
         if day <=? toISODate (now SampleSprint.thursday)
         then is_Some (DataPoint.remaining SampleRun.friday)
              /\ is_Some (DataPoint.totalRemaining SampleRun.friday)
              /\ is_Some (DataPoint.cumulativeLogged SampleRun.friday)
              /\ is_Some (DataPoint.timeLogged SampleRun.friday)
         else DataPoint.remaining SampleRun.friday = None
              /\ DataPoint.totalRemaining SampleRun.friday = None
              /\ DataPoint.cumulativeLogged SampleRun.friday = None
              /\ DataPoint.timeLogged SampleRun.friday = None
     end.
Proof.
  assert (H : In SampleRun.friday
     (BurndownData.dataPoints
        (burndownData SampleSprint.thursday SampleRun.teamPayload SampleSprint.sprint
                      SampleSprint.issues SampleSprint.baseline))).
  { vm_compute. do 5 right. left. reflexivity. }
  split; [exact H|].
  exact (future_points_are_null
           SampleSprint.thursday SampleRun.teamPayload SampleSprint.sprint
           SampleSprint.issues SampleSprint.baseline SampleRun.friday H).
Defined.

Lemma alice_is_a_team_of_one :
  singleAssignee SampleRun.alicePayload = Some "alice"
  /\ (let data := burndownData SampleSprint.thursday SampleRun.alicePayload
                               SampleSprint.sprint SampleSprint.issues
                               SampleSprint.baseline in
      teamSizeOf SampleRun.alicePayload SampleSprint.issues = 1
      /\ BurndownData.teamSize data = 1
      /\ (BurndownData.maxCapacity data
          == inject_Z (BurndownData.workingDays data * 8))%Q).
Proof.
  assert (H : singleAssignee SampleRun.alicePayload = Some "alice") by reflexivity.
  split; [exact H|].
  exact (single_assignee_team_of_one
           SampleSprint.thursday SampleRun.alicePayload SampleSprint.sprint
           SampleSprint.issues SampleSprint.baseline "alice" H).
Defined.


Lemma burndown_request_keeps_baseline :
  let request := getBurndownDataReq (Some SampleRun.teamPayload) in
  isReset request = false
  /\ store SampleStore.env !! baselineKey "7" = Some (StoredBaseline SampleSprint.baseline)
  /\ storage_get_error SampleSprint.thursday (baselineKey "7") = None
  /\ repairDue SampleSprint.thursday request "7" SampleSprint.baseline = false
  /\ store (snd (SampleStore.serve SampleSprint.thursday request SampleStore.env))
       !! baselineKey "7"
     = Some (StoredBaseline SampleSprint.baseline).
Proof.
  intros request.
  assert (H1 : isReset request = false) by reflexivity.
  assert (H2 : store SampleStore.env !! baselineKey "7"
               = Some (StoredBaseline SampleSprint.baseline)).
  { vm_compute. reflexivity. }
  assert (H3 : storage_get_error SampleSprint.thursday (baselineKey "7") = None)
    by reflexivity.
  assert (H4 : repairDue SampleSprint.thursday request "7" SampleSprint.baseline = false).
  { vm_compute. reflexivity. }
  split; [exact H1|]. split; [exact H2|]. split; [exact H3|]. split; [exact H4|].
  exact (baseline_stable SampleStore.noReport SampleStore.noReport SampleStore.noReport
           SampleStore.noReport SampleSprint.thursday request SampleStore.env "7"
           SampleSprint.baseline H1 H2 H3 H4).
Defined.

Lemma boardless_request_fails :
  let request := getSprintHealthReq (Some SampleRun.boardless) in
  sprintRequest request = Some (Some SampleRun.boardless)
  /\ truthy (Payload.boardId SampleRun.boardless) = false
  /\ fst (SampleStore.serve SampleSprint.thursday request SampleStore.env)
     = Returned (Failure "Board ID is required").
Proof.
  intros request.
  assert (H1 : sprintRequest request = Some (Some SampleRun.boardless)) by reflexivity.
  assert (H2 : truthy (Payload.boardId SampleRun.boardless) = false) by reflexivity.
  split; [exact H1|]. split; [exact H2|].
  exact (proj1 (proj2 (proj2
           (endpoints_never_throw SampleStore.noReport SampleStore.noReport
              SampleStore.noReport SampleStore.noReport SampleSprint.thursday request
              SampleStore.env))
           SampleRun.boardless H1) H2).
Defined.


(** * Further properties of the resolver

    ** The sort of the runtime *)

Section Sorting.
Context {A : Type} (compare : A -> A -> Z).
Hypothesis compare_total : forall a b, compare a b < 0 <-> ~ compare b a <= 0.
Hypothesis compare_trans : forall a b c, compare a b <= 0 -> compare b c <= 0 -> compare a c <= 0.


Lemma insertSorted_perm (h : A) (l : list A) : Permutation (insertSorted compare h l) (h :: l).
Proof.
  induction l as [|x r IH]; simpl; [reflexivity|].
  destruct (compare h x <? 0); [reflexivity|].
  rewrite IH. apply perm_swap.
Qed.

Lemma Array_sort_fold (l acc : list A) :
  Permutation (fold_left (fun acc h => insertSorted compare h acc) l acc) (l ++ acc).
Proof.
  revert acc. induction l as [|x r IH]; intros acc; simpl; [reflexivity|].
  rewrite IH, insertSorted_perm. symmetry. apply Permutation_middle.
Qed.

Lemma Array_sort_perm (l : list A) : Permutation (Array_sort compare l) l.
Proof. unfold Array_sort. rewrite Array_sort_fold, app_nil_r. reflexivity. Qed.

Lemma insertSorted_sorted (h : A) (l : list A) :
  StronglySorted (inOrder compare) l -> StronglySorted (inOrder compare) (insertSorted compare h l).
Proof.
  induction 1 as [|x r Hs IH Hx]; simpl; [repeat constructor|].
  destruct (compare h x <? 0) eqn:E.
  - apply Z.ltb_lt in E. constructor; [constructor; assumption|].
    constructor.
    + unfold inOrder. lia.
    + eapply List.Forall_impl; [|exact Hx]. intros y Hy. unfold inOrder in *.
      apply (compare_trans h x y); [lia | exact Hy].
  - apply Z.ltb_ge in E. constructor; [exact IH|].
    assert (Hxh : inOrder compare x h).
    { unfold inOrder. destruct (Z_le_gt_dec (compare x h) 0) as [|G]; [assumption|].
      exfalso. assert (compare h x < 0); [|lia]. apply compare_total. lia. }
    rewrite List.Forall_forall. intros y Hy.
    apply (Permutation_in _ (insertSorted_perm h r)) in Hy. destruct Hy as [<- | Hy]; [exact Hxh|].
    rewrite List.Forall_forall in Hx. apply Hx, Hy.
Qed.

Lemma Array_sort_sorted (l : list A) : StronglySorted (inOrder compare) (Array_sort compare l).
Proof.
  unfold Array_sort.
  assert (H : forall acc, StronglySorted (inOrder compare) acc ->
            StronglySorted (inOrder compare) (fold_left (fun acc h => insertSorted compare h acc) l acc)).
  { induction l as [|x r IH]; intros acc Hacc; simpl; [exact Hacc|].
    apply IH, insertSorted_sorted, Hacc. }
  apply H. constructor.
Qed.


Lemma compare_refl (x : A) : compare x x <= 0.
Proof.
  destruct (Z_le_gt_dec (compare x x) 0) as [|G]; [assumption|].
  assert (compare x x < 0); [|lia]. apply compare_total. lia.
Qed.

Lemma filter_none (f : A -> bool) (l : list A) :
  (forall y, In y l -> f y = false) -> List.filter f l = [].
Proof.
  induction l as [|x r IH]; intros H; [reflexivity|]. simpl.
  rewrite (H x (or_introl eq_refl)). apply IH. intros y Hy. apply H. right. exact Hy.
Qed.

Lemma insertSorted_stable (c h : A) (l : list A) :
  StronglySorted (inOrder compare) l ->
  List.filter (sameRank compare c) (insertSorted compare h l)
  = (List.filter (sameRank compare c) l ++ List.filter (sameRank compare c) [h])%list.
Proof.
  assert (Hcons : forall y l', List.filter (sameRank compare c) (y :: l')
                               = if sameRank compare c y then y :: List.filter (sameRank compare c) l'
                                 else List.filter (sameRank compare c) l') by reflexivity.
  induction 1 as [|x r Hs IH Hx]; [reflexivity|].
  cbn [insertSorted]. destruct (compare h x <? 0) eqn:E.
  - apply Z.ltb_lt in E. rewrite (Hcons h (x :: r)), (Hcons h []).
    destruct (sameRank compare c h) eqn:Hh; [|rewrite app_nil_r; reflexivity].
    assert (Hnone : List.filter (sameRank compare c) (x :: r) = []).
    { apply filter_none. intros y Hy.
      destruct (sameRank compare c y) eqn:Hy'; [exfalso|reflexivity].
      unfold sameRank in Hh, Hy'.
      apply andb_true_iff in Hh as [H1 H2]. apply andb_true_iff in Hy' as [H3 H4].
      apply Z.leb_le in H1, H2, H3, H4.
      assert (Hxy : compare x y <= 0).
      { destruct Hy as [<- | Hy]; [apply compare_refl|].
        rewrite List.Forall_forall in Hx. apply Hx, Hy. }
      apply compare_total in E. apply E.
      apply (compare_trans x y h); [exact Hxy|].
      apply (compare_trans y c h); assumption. }
    rewrite Hnone. reflexivity.
  - rewrite (Hcons x (insertSorted compare h r)), (Hcons x r), IH.
    destruct (sameRank compare c x); reflexivity.
Qed.

Lemma Array_sort_stable (c : A) (l : list A) :
  List.filter (sameRank compare c) (Array_sort compare l) = List.filter (sameRank compare c) l.
Proof.
  unfold Array_sort.
  assert (H : forall acc, StronglySorted (inOrder compare) acc ->
            List.filter (sameRank compare c) (fold_left (fun acc h => insertSorted compare h acc) l acc)
            = (List.filter (sameRank compare c) acc ++ List.filter (sameRank compare c) l)%list).
  { induction l as [|x r IH]; intros acc Hacc; simpl fold_left.
    - rewrite app_nil_r. reflexivity.
    - rewrite IH by (apply insertSorted_sorted, Hacc).
      rewrite insertSorted_stable by exact Hacc.
      rewrite <- app_assoc. f_equal. cbn [List.filter].
      destruct (sameRank compare c x); reflexivity. }
  rewrite H by constructor. reflexivity.
Qed.

End Sorting.
(** A comparator that subtracts a whole-number key, as [sortByStatus] has
    it. *)
Section KeyedSort.
Context {A : Type} (rank : A -> Z).

Lemma byRank_total (a b : A) : byRank rank a b < 0 <-> ~ byRank rank b a <= 0.
Proof. unfold byRank. lia. Qed.

Lemma byRank_trans (a b c : A) :
  byRank rank a b <= 0 -> byRank rank b c <= 0 -> byRank rank a c <= 0.
Proof. unfold byRank. lia. Qed.

Lemma keyed_sort_sorted (l : list A) :
  StronglySorted (fun a b => rank a <= rank b) (Array_sort (byRank rank) l).
Proof.
  pose proof (Array_sort_sorted (byRank rank) byRank_total byRank_trans l) as H.
  induction H as [|x r Hs IH Hx]; constructor; [exact IH|].
  eapply List.Forall_impl; [|exact Hx]. intros y Hy. unfold inOrder, byRank in Hy. lia.
Qed.

Lemma keyed_sort_stable (n : Z) (l : list A) :
  List.filter (fun x => rank x =? n) (Array_sort (byRank rank) l)
  = List.filter (fun x => rank x =? n) l.
Proof.
  destruct (existsb (fun x => rank x =? n) l) eqn:E.
  - apply existsb_exists in E as (c & _ & Hc). apply Z.eqb_eq in Hc.
    pose proof (Array_sort_stable (byRank rank) byRank_total byRank_trans c l) as H.
    assert (Hext : forall x, sameRank (byRank rank) c x = (rank x =? n)).
    { intros x. unfold sameRank, byRank. rewrite Hc.
      destruct (rank x =? n) eqn:Ex.
      - apply Z.eqb_eq in Ex. apply andb_true_iff. split; apply Z.leb_le; lia.
      - apply Z.eqb_neq in Ex. apply andb_false_iff.
        destruct (Z_le_gt_dec (n - rank x) 0); [right | left]; apply Z.leb_gt; lia. }
    rewrite <- !(List.filter_ext _ _ Hext). exact H.
  - assert (Hnone : forall y, In y l -> (rank y =? n) = false).
    { intros y Hy. destruct (rank y =? n) eqn:Ey; [|reflexivity].
      rewrite <- E. symmetry. apply existsb_exists. exists y. split; assumption. }
    rewrite !filter_none; [reflexivity | exact Hnone |].
    intros y Hy. apply Hnone.
    apply (Permutation_in _ (Array_sort_perm (byRank rank) l)), Hy.
Qed.

End KeyedSort.

(** X1.  [sortByStatus] rearranges the items without losing or repeating
    any, puts them in the order in progress, to do, done (the numbers of
    [getStatusOrder] never decrease along the result), and keeps the items
    of one group in the order they had. *)
Theorem sortByStatus_is_stable_sort {A : Type} (statusOf : A -> option string)
    (items : list A) :
  let order x := getStatusOrder (statusOf x) in
  Permutation (sortByStatus statusOf items) items
  /\ StronglySorted (fun a b => order a <= order b) (sortByStatus statusOf items)
  /\ (forall n : Z,
         List.filter (fun x => order x =? n) (sortByStatus statusOf items)
         = List.filter (fun x => order x =? n) items).
Proof.
  intros order. split; [apply Array_sort_perm|]. split.
  - apply (keyed_sort_sorted order).
  - intros n. apply (keyed_sort_stable order).
Qed.
(** ** Status order *)

Lemma prefix_of_longer (a b hay : string) :
  String.prefix (a ++ b) hay = true -> String.prefix a hay = true.
Proof.
  revert hay. induction a as [|c a IH]; intros hay H; [destruct hay; reflexivity|].
  destruct hay as [|d hay]; [discriminate H|].
  simpl in *. destruct (Ascii.ascii_dec c d); [apply IH, H | discriminate H].
Qed.

Lemma includes_of_longer (a b hay : string) :
  includes hay (a ++ b) = true -> includes hay a = true.
Proof.
  induction hay as [|d hay IH]; intros H.
  - cbn [includes] in *. rewrite orb_false_r in *. apply (prefix_of_longer a b), H.
  - cbn [includes] in *. apply orb_true_iff in H as [H | H]; apply orb_true_iff.
    + left. apply (prefix_of_longer a b), H.
    + right. apply IH, H.
Qed.

(** The loop over the entries of [STATUS_ORDER], by groups. *)
Lemma getStatusOrder_groups (statusName : option string) :
  getStatusOrder statusName
  = let lower := toLowerCase (orStr statusName "") in
    if includes lower "in progress" then 1
    else if existsb (includes lower) ["to do"; "open"; "backlog"; "hold"] then 2
    else if existsb (includes lower) doneStatuses then 3
    else 2.
Proof.
  unfold getStatusOrder, STATUS_ORDER, doneStatuses.
  cbv zeta. cbn [List.find existsb fst snd].
  set (l := toLowerCase (orStr statusName "")).
  destruct (includes l "in progress") eqn:E1; [reflexivity|].
  assert (includes l "in progress - main task" = false) as ->.
  { destruct (includes l "in progress - main task") eqn:E; [|reflexivity].
    apply (includes_of_longer "in progress" " - main task") in E. congruence. }
  destruct (includes l "to do"); [reflexivity|].
  destruct (includes l "open"); [reflexivity|].
  destruct (includes l "backlog"); [reflexivity|].
  destruct (includes l "hold"); [reflexivity|].
  cbn [orb].
  destruct (includes l "done"); [reflexivity|].
  destruct (includes l "closed"); [reflexivity|].
  destruct (includes l "resolved"); [reflexivity|].
  destruct (includes l "complete"); reflexivity.
Qed.

(** X2.  [getStatusOrder] answers 1, 2 or 3.  It answers 1 exactly for a
    status that mentions "in progress" (in any letter case), whatever else
    the status mentions; 3 exactly for a status that mentions a done word
    and none of "in progress", "to do", "open", "backlog", "hold"; and 2
    otherwise, in particular for a missing or empty status.  An item of the
    third group is never an active one for the baseline and the at-risk
    list. *)
Theorem getStatusOrder_cases (statusName : option string) :
  let lower := toLowerCase (orStr statusName "") in
  let mentions := existsb (includes lower) in
  1 <= getStatusOrder statusName <= 3
  /\ (getStatusOrder statusName = 1 <-> includes lower "in progress" = true)
  /\ (getStatusOrder statusName = 3
      <-> includes lower "in progress" = false
          /\ mentions ["to do"; "open"; "backlog"; "hold"] = false
          /\ mentions doneStatuses = true)
  /\ getStatusOrder None = 2
  /\ getStatusOrder (Some "") = 2
  /\ (forall issue : Issue, (getStatusOrder (status issue) =? 3) && isActive issue = false).
Proof.
  intros lower mentions.
  pose proof (getStatusOrder_groups statusName) as H. cbv zeta in H.
  fold lower in H. fold mentions in H.
  split; [|split; [|split; [|split; [|split]]]].
  - rewrite H. destruct (includes lower "in progress"),
      (mentions ["to do"; "open"; "backlog"; "hold"]), (mentions doneStatuses); lia.
  - rewrite H. destruct (includes lower "in progress"),
      (mentions ["to do"; "open"; "backlog"; "hold"]), (mentions doneStatuses);
      split; intros; try reflexivity; try discriminate; lia.
  - rewrite H. destruct (includes lower "in progress"),
      (mentions ["to do"; "open"; "backlog"; "hold"]), (mentions doneStatuses);
      split; try (intros (? & ? & ?)); intros; repeat split; try reflexivity;
      try discriminate; try lia.
  - reflexivity.
  - reflexivity.
  - intros issue. rewrite getStatusOrder_groups. cbv zeta. unfold isActive.
    set (l := toLowerCase (orStr (status issue) "")).
    change (existsb (fun s => includes l s) doneStatuses)
      with (existsb (includes l) doneStatuses).
    destruct (includes l "in progress"); [reflexivity|].
    destruct (existsb (includes l) ["to do"; "open"; "backlog"; "hold"]); [reflexivity|].
    destruct (existsb (includes l) doneStatuses); reflexivity.
Qed.
(** ** Seconds to hours *)

Lemma Qfloor_ratio (n : Z) (d : positive) : Qfloor (inject_Z n / inject_Z (Zpos d))%Q = n / Zpos d.
Proof.
  rewrite (Qfloor_comp _ (n # d)); [reflexivity|].
  rewrite (Qmake_Qdiv n d). reflexivity.
Qed.

(** [secondsToHours] in whole-number arithmetic: the tenths of an hour
    nearest to the seconds, halves upwards. *)
Lemma secondsToHours_div (s : Z) :
  (secondsToHours (Some s) == inject_Z ((s + 180) / 360) / 10)%Q.
Proof.
  assert (H : (round10 (inject_Z s / 3600) == inject_Z ((s + 180) / 360) / 10)%Q).
  { unfold round10, Math_round.
    rewrite (Qfloor_comp _ (inject_Z (2 * s + 360) / inject_Z 720)%Q).
    - rewrite Qfloor_ratio.
      replace (2 * s + 360) with (2 * (s + 180)) by lia.
      change 720 with (2 * 360). rewrite Z.div_mul_cancel_l by lia. reflexivity.
    - rewrite inject_Z_plus, inject_Z_mult. change (inject_Z 2) with 2%Q.
      change (inject_Z 360) with 360%Q. change (inject_Z 720) with 720%Q. field. }
  unfold secondsToHours. destruct (s =? 0) eqn:E; [|exact H].
  apply Z.eqb_eq in E. subst s. reflexivity.
Qed.

(** X3.  [secondsToHours] gives the number of hours to the nearest tenth:
    it is off by at most 0.05h, exact on every multiple of six minutes,
    never decreasing in the seconds, and 0 for a missing value.  It answers
    0 exactly for durations under three minutes (from -180s up to 179s) and
    a positive number exactly from 180s on. *)
Theorem secondsToHours_rounding (s : Z) :
  (Qabs (secondsToHours (Some s) - inject_Z s / 3600) <= 1 # 20)%Q
  /\ (secondsToHours (Some (360 * s)%Z) == inject_Z s / 10)%Q
  /\ ((secondsToHours (Some s) == 0)%Q <-> -180 <= s < 180)
  /\ ((0 < secondsToHours (Some s))%Q <-> 180 <= s)
  /\ (forall t : Z, s <= t -> (secondsToHours (Some s) <= secondsToHours (Some t))%Q)
  /\ secondsToHours None = 0%Q.
Proof.
  pose proof (secondsToHours_div s) as H.
  pose proof (Z.div_mod (s + 180) 360 ltac:(lia)) as Hd.
  pose proof (Z.mod_pos_bound (s + 180) 360 ltac:(lia)) as Hm.
  set (q := (s + 180) / 360) in *.
  assert (Hq : forall z : Z, (inject_Z z / 10 == inject_Z z * (1 # 10))%Q)
    by (intros z; field).
  split; [|split; [|split; [|split; [|split]]]].
  - rewrite H. apply Qabs_Qle_condition.
    assert (H1 : (inject_Z (360 * q) <= inject_Z (s + 180))%Q) by (rewrite <- Zle_Qle; lia).
    assert (H2 : (inject_Z (s + 180) <= inject_Z (360 * q + 360))%Q)
      by (rewrite <- Zle_Qle; lia).
    rewrite inject_Z_mult, inject_Z_plus in H1. rewrite !inject_Z_plus, inject_Z_mult in H2.
    change (inject_Z 360) with 360%Q in *. change (inject_Z 180) with 180%Q in *.
    assert (Hs : (inject_Z s / 3600 == inject_Z s * (1 # 3600))%Q) by field.
    rewrite Hs, Hq. split; lra.
  - rewrite secondsToHours_div.
    replace ((360 * s + 180) / 360) with s; [reflexivity|].
    apply Z.div_unique with 180; lia.
  - rewrite H, Hq. split.
    + intros E. assert (E' : (inject_Z q == inject_Z 0)%Q) by (change (inject_Z 0) with 0%Q; lra).
      unfold Qeq in E'. simpl in E'. lia.
    + intros Hs. assert (q = 0) as -> by lia. reflexivity.
  - rewrite H, Hq. split.
    + intros E. assert (E' : (inject_Z 0 < inject_Z q)%Q) by (change (inject_Z 0) with 0%Q; lra).
      rewrite <- Zlt_Qlt in E'. lia.
    + intros Hs. assert (E' : (inject_Z 0 < inject_Z q)%Q) by (rewrite <- Zlt_Qlt; lia).
      change (inject_Z 0) with 0%Q in E'. lra.
  - intros t Ht. rewrite H, (secondsToHours_div t), !Hq.
    assert (E : (inject_Z q <= inject_Z ((t + 180) / 360))%Q).
    { rewrite <- Zle_Qle. apply Z.div_le_mono; lia. }
    lra.
  - reflexivity.
Qed.
(** ** Items at risk *)

(** A [forEach] that pushes what [f] selects. *)
Lemma fold_push_omap {A B : Type} (f : A -> option B) (l : list A) (acc : list B) :
  fold_left (fun acc x => match f x with Some y => (acc ++ [y])%list | None => acc end) l acc
  = (acc ++ omap f l)%list.
Proof.
  revert acc. induction l as [|x r IH]; intros acc; simpl.
  - rewrite app_nil_r. reflexivity.
  - rewrite IH. destruct (f x); [rewrite <- app_assoc|]; reflexivity.
Qed.

Lemma setHours0_le (a b : Date) : setHours0 a <= setHours0 b <-> toISODate a <= toISODate b.
Proof. unfold setHours0, DAY_MS. lia. Qed.

Lemma setHours0_lt (a b : Date) : setHours0 a < setHours0 b <-> toISODate a < toISODate b.
Proof. unfold setHours0, DAY_MS. lia. Qed.

(** X4.  The risk of an item, as [getAtRiskItems] decides it: the deadline
    is exceeded exactly when the item has a due date whose day is today or
    earlier; the time box is exceeded exactly when the remaining hours are
    0, the original estimate is positive and the deadline is not exceeded
    (the deadline takes precedence); there is no risk exactly when neither
    holds. *)
Theorem risk_reason_cases (w : World) (issue : Issue) :
  let reason := riskReasonOf (setHours0 (now w)) issue in
  let overdue :=
    exists due, duedate issue = Some due /\ toISODate due <= toISODate (now w) in
  let exhausted :=
    (secondsToHours (timeestimate issue) == 0
     /\ 0 < secondsToHours (timeoriginalestimate issue))%Q in
  (reason = Some DEADLINE_EXCEEDED <-> overdue)
  /\ (reason = Some TIME_BOX_EXCEEDED <-> exhausted /\ ~ overdue)
  /\ (reason = None <-> ~ exhausted /\ ~ overdue).
Proof.
  intros reason overdue exhausted.
  assert (Hover : overdue <-> exists due, duedate issue = Some due
                                          /\ (setHours0 due <=? setHours0 (now w)) = true).
  { unfold overdue. split; intros (due & H1 & H2); exists due; split; try exact H1.
    - apply Z.leb_le, setHours0_le, H2.
    - apply setHours0_le, Z.leb_le, H2. }
  assert (Hex : exhausted
                <-> Qeq_bool (secondsToHours (timeestimate issue)) 0
                    && Qltb 0 (secondsToHours (timeoriginalestimate issue)) = true).
  { unfold exhausted. rewrite andb_true_iff, Qeq_bool_iff, Qltb_lt. reflexivity. }
  rewrite Hover, Hex. unfold reason, riskReasonOf. cbv zeta.
  destruct (Qeq_bool _ 0 && Qltb 0 _); destruct (duedate issue) as [due|];
    [destruct (setHours0 due <=? setHours0 (now w)) eqn:E | |
     destruct (setHours0 due <=? setHours0 (now w)) eqn:E | ];
    repeat split; try discriminate; try reflexivity;
    try (intros (d & Hd & Hd'); congruence);
    try (intros [H1 H2]; try discriminate H1; exfalso; apply H2; eauto; fail);
    try (intros _; eauto; fail);
    try (intros _; split; [reflexivity|]; intros (d & Hd & Hd'); congruence);
    try (intros _; split; [discriminate|]; intros (d & Hd & Hd'); congruence);
    try (intros [H1 H2]; exfalso; apply H1; reflexivity).
Qed.
Lemma fold_left_same {A B : Type} (f g : A -> B -> A) (l : list B) (a : A) :
  (forall a x, f a x = g a x) -> fold_left f l a = fold_left g l a.
Proof.
  intros H. revert a. induction l as [|x r IH]; intros a; simpl; [reflexivity|].
  rewrite H. apply IH.
Qed.

Lemma collectAtRisk_omap (today : Date) (issues : list Issue) :
  collectAtRisk today issues
  = omap (fun issue =>
            if isActive issue then atRiskItemOf issue <$> riskReasonOf today issue else None)
         issues.
Proof.
  unfold collectAtRisk.
  rewrite <- (app_nil_l (omap _ issues)), <- fold_push_omap.
  apply fold_left_same. intros acc issue.
  destruct (isActive issue); [|reflexivity].
  destruct (riskReasonOf today issue); reflexivity.
Qed.

Lemma omap_length_filter {A B : Type} (f : A -> option B) (l : list A) :
  length (omap f l) = length (List.filter (fun x => bool_decide (is_Some (f x))) l).
Proof.
  induction l as [|x r IH]; [reflexivity|]. cbn [omap list_omap List.filter].
  destruct (f x) as [y|] eqn:E.
  - rewrite bool_decide_true by eauto. simpl. rewrite <- IH. reflexivity.
  - rewrite bool_decide_false by (intros [? ?]; discriminate). exact IH.
Qed.

(** X5.  The list of [getAtRiskItems] holds exactly the items that are not
    done and have a risk, each once per issue and with the reason found for
    it, sorted by status; [total] is their number.  An item whose status
    names a done state is never listed, whatever its deadline. *)
Theorem at_risk_list (w : World) (p : Payload.t) (sprint : Sprint) (issues : list Issue) :
  let today := setHours0 (now w) in
  exists report,
    atRiskItems w p sprint issues = Returned report
    /\ (forall item,
           In item (AtRiskReport.items report)
           <-> exists issue reason,
                 In issue issues /\ isActive issue = true
                 /\ riskReasonOf today issue = Some reason
                 /\ item = atRiskItemOf issue reason)
    /\ StronglySorted
         (fun a b => getStatusOrder (Some (AtRiskItem.status a))
                     <= getStatusOrder (Some (AtRiskItem.status b)))
         (AtRiskReport.items report)
    /\ AtRiskReport.total report = length (AtRiskReport.items report)
    /\ AtRiskReport.total report
       = length (List.filter
                   (fun issue => isActive issue
                                 && bool_decide (is_Some (riskReasonOf today issue)))
                   issues).
Proof.
  intros today. eexists. split; [reflexivity|]. cbn [AtRiskReport.items AtRiskReport.total].
  fold today.
  assert (Hperm : Permutation
                    (sortByStatus (fun item => Some (AtRiskItem.status item))
                                  (collectAtRisk today issues))
                    (collectAtRisk today issues)) by apply Array_sort_perm.
  split; [|split; [|split]].
  - intros item. split.
    + intros H. apply (Permutation_in _ Hperm) in H.
      rewrite collectAtRisk_omap in H. apply list_elem_of_In, list_elem_of_omap in H.
      destruct H as (issue & Hin & H). apply list_elem_of_In in Hin.
      destruct (isActive issue) eqn:Ha; [|discriminate H].
      destruct (riskReasonOf today issue) as [reason|] eqn:Hr; [|discriminate H].
      injection H as <-. exists issue, reason. auto.
    + intros (issue & reason & Hin & Ha & Hr & ->).
      apply (Permutation_in _ (Permutation_sym Hperm)).
      rewrite collectAtRisk_omap. apply list_elem_of_In, list_elem_of_omap.
      exists issue. split; [apply list_elem_of_In, Hin|]. rewrite Ha, Hr. reflexivity.
  - apply (keyed_sort_sorted (fun x => getStatusOrder (Some (AtRiskItem.status x)))).
  - reflexivity.
  - rewrite (Permutation_length Hperm), collectAtRisk_omap.
    rewrite omap_length_filter. f_equal. apply List.filter_ext. intros issue.
    destruct (isActive issue); [|reflexivity].
    destruct (riskReasonOf today issue); reflexivity.
Qed.
(** ** Scope changes *)

Lemma getAllChangelogs_lookup (w : World) (issues : list Issue) (k : string) :
  getAllChangelogs w issues !! k
  = if bool_decide (k ∈ map key issues) then Some (getIssueChangelog w k) else None.
Proof.
  unfold getAllChangelogs.
  assert (H : forall l (m : gmap string (list History)),
    fold_left (fun results issue => <[key issue := getIssueChangelog w (key issue)]> results)
              l m !! k
    = if bool_decide (k ∈ map key l) then Some (getIssueChangelog w k) else m !! k).
  { induction l as [|i l IH]; intros m; [reflexivity|].
    cbn [fold_left map]. rewrite IH.
    destruct (bool_decide (k ∈ map key l)) eqn:E.
    - apply bool_decide_eq_true in E.
      rewrite bool_decide_true by (apply elem_of_cons; right; exact E). reflexivity.
    - apply bool_decide_eq_false in E. destruct (decide (key i = k)) as [<- | Hne].
      + rewrite lookup_insert_eq, bool_decide_true by (apply elem_of_cons; left; reflexivity).
        reflexivity.
      + rewrite lookup_insert_ne by exact Hne.
        rewrite bool_decide_false; [reflexivity|].
        intros [? | ?]%elem_of_cons; [apply Hne; congruence | apply E; assumption]. }
  rewrite H. destruct (bool_decide _); [reflexivity | apply lookup_empty].
Qed.

(** The added issues of [getBurndownData], as a list. *)
Lemma detectAdded_list (w : World) (sprint : Sprint) (issues : list Issue) :
  let sprintStartDate := setHours0 (startDate sprint) in
  let allChangelogs := getAllChangelogs w (issuesNeedingChangelogOf sprintStartDate issues) in
  fst (detectAdded w sprint issues)
  = omap (fun issue =>
            (fun d => {| AddedIssue.key := key issue;
                         AddedIssue.summary := summary issue;
                         AddedIssue.addedDate := toISODate d;
                         AddedIssue.originalEstimate :=
                           secondsToHours (timeoriginalestimate issue) |})
            <$> issueAddedDate allChangelogs sprint sprintStartDate issue)
         issues.
Proof.
  intros day cl. unfold detectAdded. fold day. fold cl.
  set (step := fun (acc : list AddedIssue.t * gmap Z ScopeChange.t) issue => _).
  set (g := fun issue : Issue => _ <$> issueAddedDate cl sprint day issue).
  assert (H : forall l acc, fst (fold_left step l acc) = (fst acc ++ omap g l)%list).
  { induction l as [|i l IH]; intros acc; cbn [fold_left omap list_omap].
    - rewrite app_nil_r. reflexivity.
    - rewrite IH. subst step g. cbv beta.
      destruct (issueAddedDate cl sprint day i); cbn [fst fmap option_fmap option_map].
      + rewrite <- app_assoc. reflexivity.
      + reflexivity. }
  rewrite H. reflexivity.
Qed.

Lemma scopeAdded_list (w : World) (sprint : Sprint) (allIssues : list Issue) :
  let sprintStartDate := setHours0 (startDate sprint) in
  let allChangelogs :=
    getAllChangelogs w (issuesNeedingChangelogOf sprintStartDate allIssues) in
  scopeAdded w sprint allIssues
  = omap (fun issue =>
            addedScopeItem issue <$> scopeAddedDate allChangelogs sprint sprintStartDate issue)
         allIssues.
Proof.
  intros day cl. unfold scopeAdded. fold day. fold cl.
  rewrite <- (app_nil_l (omap _ allIssues)), <- fold_push_omap.
  apply fold_left_same. intros acc issue.
  destruct (scopeAddedDate cl sprint day issue); reflexivity.
Qed.

Lemma scopeAddedDate_issueAddedDate cl sprint day issue :
  fst <$> scopeAddedDate cl sprint day issue = issueAddedDate cl sprint day issue.
Proof.
  unfold scopeAddedDate, issueAddedDate. cbv zeta.
  destruct (fst (analyzeSprintChangelog _ _ _)) as [d|].
  - destruct (day <? setHours0 d); reflexivity.
  - destruct (day <? setHours0 (created issue)); reflexivity.
Qed.

Lemma toISODate_setHours0 (d : Date) : toISODate (setHours0 d) = toISODate d.
Proof. unfold setHours0, toISODate, DAY_MS. rewrite Z.div_mul by lia. reflexivity. Qed.

Lemma added_lists_agree cl sprint day (l : list Issue) :
  map (fun item => (ScopeItem.key item, toISODate (ScopeItem.changeDate item),
                    ScopeItem.originalEstimate item))
      (omap (fun issue => addedScopeItem issue <$> scopeAddedDate cl sprint day issue) l)
  = map (fun a => (AddedIssue.key a, AddedIssue.addedDate a, AddedIssue.originalEstimate a))
        (omap (fun issue =>
                 (fun d => {| AddedIssue.key := key issue;
                              AddedIssue.summary := summary issue;
                              AddedIssue.addedDate := toISODate d;
                              AddedIssue.originalEstimate :=
                                secondsToHours (timeoriginalestimate issue) |})
                 <$> issueAddedDate cl sprint day issue)
              l).
Proof.
  induction l as [|i l IH]; [reflexivity|]. cbn [omap list_omap].
  rewrite <- (scopeAddedDate_issueAddedDate cl sprint day i).
  destruct (scopeAddedDate cl sprint day i) as [[d src]|];
    cbn [fmap option_fmap option_map fst map]; [|exact IH].
  rewrite IH. reflexivity.
Qed.

(** X6.  The scope-changes list and the burndown chart agree.  For one
    request (the same tracker, sprint and filtered issues) [getScopeChanges]
    reports as added the same items, with the same day of entry and the
    same original estimate, as [getBurndownData] lists in [addedIssues], and
    as removed the same items, in the same order and with the same
    estimates, as the chart counts; the counters agree as well. *)
Theorem scope_changes_agree_with_burndown (w : World) (p : Payload.t) (sprint : Sprint)
    (allIssues : list Issue) (baseline : Baseline.t) :
  let issues := issuesOf p allIssues in
  let chart := burndownData w p sprint allIssues baseline in
  exists report,
    scopeChanges w p sprint issues = Returned report
    /\ Permutation
         (map (fun item => (ScopeItem.key item, toISODate (ScopeItem.changeDate item),
                            ScopeItem.originalEstimate item))
              (ScopeReport.added report))
         (map (fun a => (AddedIssue.key a, AddedIssue.addedDate a,
                         AddedIssue.originalEstimate a))
              (BurndownData.addedIssues chart))
    /\ map (fun item => (ScopeItem.key item, ScopeItem.originalEstimate item))
           (ScopeReport.removed report)
       = map (fun r => (RemovedIssue.key r, RemovedIssue.originalEstimate r))
             (fst (detectRemoved w sprint (snd (detectAdded w sprint issues))))
    /\ ScopeReport.totalAdded report = BurndownData.addedIssuesCount chart
    /\ ScopeReport.totalRemoved report = BurndownData.removedIssuesCount chart.
Proof.
  intros issues chart. eexists. split; [reflexivity|].
  cbn [ScopeReport.added ScopeReport.removed ScopeReport.totalAdded ScopeReport.totalRemoved].
  unfold chart, burndownData. cbv zeta.
  cbn [BurndownData.addedIssues BurndownData.addedIssuesCount
       BurndownData.removedIssuesCount].
  fold issues.
  assert (Hperm : Permutation (sortByStatus ScopeItem.status (scopeAdded w sprint issues))
                              (scopeAdded w sprint issues)) by apply Array_sort_perm.
  assert (Hadd : map (fun item => (ScopeItem.key item, toISODate (ScopeItem.changeDate item),
                                   ScopeItem.originalEstimate item))
                     (scopeAdded w sprint issues)
                 = map (fun a => (AddedIssue.key a, AddedIssue.addedDate a,
                                  AddedIssue.originalEstimate a))
                       (fst (detectAdded w sprint issues))).
  { rewrite scopeAdded_list, detectAdded_list. apply added_lists_agree. }
  assert (Hrem : forall m,
    map (fun item => (ScopeItem.key item, ScopeItem.originalEstimate item))
        (scopeRemoved w sprint)
    = map (fun r => (RemovedIssue.key r, RemovedIssue.originalEstimate r))
          (fst (detectRemoved w sprint m))).
  { intros m. unfold scopeRemoved, detectRemoved. cbv zeta.
    set (removedFrom := getRemovedFromSprintIssues w _ _).
    set (cl := getAllChangelogs w removedFrom).
    set (step := fun (acc : list RemovedIssue.t * gmap Z ScopeChange.t) removedIssue => _).
    assert (H : forall l acc,
      map (fun r => (RemovedIssue.key r, RemovedIssue.originalEstimate r))
          (fst (fold_left step l acc))
      = (map (fun r => (RemovedIssue.key r, RemovedIssue.originalEstimate r)) (fst acc)
         ++ map (fun item => (ScopeItem.key item, ScopeItem.originalEstimate item))
                (map (removedScopeItem w sprint cl) l))%list).
    { induction l as [|i l IH]; intros acc; cbn [fold_left map].
      - rewrite app_nil_r. reflexivity.
      - rewrite IH. subst step. cbv beta. cbn [fst]. rewrite map_app, <- app_assoc.
        reflexivity. }
    rewrite H. reflexivity. }
  split; [|split; [|split]].
  - rewrite <- Hadd. apply Permutation_map, Hperm.
  - apply Hrem.
  - rewrite (Permutation_length Hperm).
    rewrite <- (length_map (fun item => (ScopeItem.key item,
                                         toISODate (ScopeItem.changeDate item),
                                         ScopeItem.originalEstimate item))), Hadd.
    apply length_map.
  - rewrite <- (length_map (fun item => (ScopeItem.key item,
                                         ScopeItem.originalEstimate item))),
      (Hrem (snd (detectAdded w sprint issues))).
    apply length_map.
Qed.
Lemma issueAddedDate_after (w : World) (sprint : Sprint) (issues : list Issue)
    (i : Issue) (d : Date) :
  let day := setHours0 (startDate sprint) in
  issueAddedDate (getAllChangelogs w (issuesNeedingChangelogOf day issues)) sprint day i
  = Some d ->
  toISODate (startDate sprint) < toISODate d
  /\ (toISODate (created i) < toISODate (startDate sprint) ->
      exists j, In j issues /\ key j = key i
                /\ toISODate (startDate sprint) <= toISODate (created j)).
Proof.
  intros day. unfold issueAddedDate. cbv zeta. rewrite getAllChangelogs_lookup.
  destruct (bool_decide (key i ∈ map key (issuesNeedingChangelogOf day issues))) eqn:E.
  - apply bool_decide_eq_true, list_elem_of_In, in_map_iff in E as (j & Hk & Hj).
    apply filter_In in Hj as [Hj Hc]. apply Z.leb_le, setHours0_le in Hc.
    intros H. split; [|intros _; exists j; auto].
    destruct (fst (analyzeSprintChangelog _ _ _)) as [a|].
    + destruct (day <? setHours0 a) eqn:L; [|discriminate H]. injection H as <-.
      apply Z.ltb_lt in L. unfold day in L. apply setHours0_lt in L.
      rewrite toISODate_setHours0. exact L.
    + destruct (day <? setHours0 (created i)) eqn:L; [|discriminate H]. injection H as <-.
      apply Z.ltb_lt in L. unfold day in L. apply setHours0_lt in L.
      rewrite toISODate_setHours0. exact L.
  - cbn [default]. change (fst (analyzeSprintChangelog [] _ _)) with (@None Date).
    destruct (day <? setHours0 (created i)) eqn:L; [|discriminate]. intros H. injection H as <-.
    apply Z.ltb_lt in L. unfold day in L. apply setHours0_lt in L.
    rewrite toISODate_setHours0. split; [exact L | lia].
Qed.

Lemma NoDup_key_unique (issues : list Issue) (i j : Issue) :
  NoDup (map key issues) -> In i issues -> In j issues -> key j = key i -> j = i.
Proof.
  induction issues as [|x l IH]; intros Hnd Hi Hj Hk; [destruct Hi|].
  cbn [map] in Hnd. apply NoDup_cons in Hnd as [Hx Hnd].
  destruct Hi as [-> | Hi], Hj as [-> | Hj]; auto.
  - exfalso. apply Hx. rewrite <- Hk. apply list_elem_of_In, in_map, Hj.
  - exfalso. apply Hx. rewrite Hk. apply list_elem_of_In, in_map, Hi.
Qed.

(** X7.  Added means entered after the first day.  Every item that
    [getScopeChanges] or [getBurndownData] reports as added entered the
    sprint on a day after the day the sprint started; and when the keys of
    the issues are distinct, an item created before the start day is never
    reported as added, whatever its changelog says (its changelog is not
    fetched). *)
Theorem added_only_after_start_day (w : World) (p : Payload.t) (sprint : Sprint)
    (issues : list Issue) :
  NoDup (map key issues) ->
  exists report,
    scopeChanges w p sprint issues = Returned report
    /\ (forall item, In item (ScopeReport.added report) ->
                     toISODate (startDate sprint) < toISODate (ScopeItem.changeDate item))
    /\ (forall a, In a (fst (detectAdded w sprint issues)) ->
                  toISODate (startDate sprint) < AddedIssue.addedDate a)
    /\ (forall i, In i issues ->
                  toISODate (created i) < toISODate (startDate sprint) ->
                  ~ In (key i) (map ScopeItem.key (ScopeReport.added report))
                  /\ ~ In (key i) (map AddedIssue.key (fst (detectAdded w sprint issues)))).
Proof.
  intros Hnd. eexists. split; [reflexivity|]. cbn [ScopeReport.added].
  set (day := setHours0 (startDate sprint)).
  set (cl := getAllChangelogs w (issuesNeedingChangelogOf day issues)).
  assert (Hscope : forall item,
    In item (sortByStatus ScopeItem.status (scopeAdded w sprint issues)) ->
    exists i d src, In i issues /\ scopeAddedDate cl sprint day i = Some (d, src)
                    /\ item = addedScopeItem i (d, src)).
  { intros item H.
    apply (Permutation_in _ (Array_sort_perm _ (scopeAdded w sprint issues))) in H.
    rewrite scopeAdded_list in H. apply list_elem_of_In, list_elem_of_omap in H.
    destruct H as (i & Hi & H). apply list_elem_of_In in Hi.
    fold day in H. fold cl in H.
    destruct (scopeAddedDate cl sprint day i) as [[d src]|] eqn:E; [|discriminate H].
    injection H as <-. exists i, d, src. auto. }
  assert (Hchart : forall a,
    In a (fst (detectAdded w sprint issues)) ->
    exists i d, In i issues /\ issueAddedDate cl sprint day i = Some d
                /\ AddedIssue.key a = key i /\ AddedIssue.addedDate a = toISODate d).
  { intros a H. rewrite detectAdded_list in H. apply list_elem_of_In, list_elem_of_omap in H.
    destruct H as (i & Hi & H). apply list_elem_of_In in Hi.
    fold day in H. fold cl in H.
    destruct (issueAddedDate cl sprint day i) as [d|] eqn:E; [|discriminate H].
    injection H as <-. exists i, d. auto. }
  assert (Hdate : forall i d src, scopeAddedDate cl sprint day i = Some (d, src) ->
                                  issueAddedDate cl sprint day i = Some d).
  { intros i d src H. rewrite <- scopeAddedDate_issueAddedDate, H. reflexivity. }
  split; [|split].
  - intros item H. apply Hscope in H as (i & d & src & Hi & Hd & ->).
    apply Hdate, issueAddedDate_after in Hd as [Hd _]. exact Hd.
  - intros a H. apply Hchart in H as (i & d & Hi & Hd & _ & ->).
    apply issueAddedDate_after in Hd as [Hd _]. exact Hd.
  - intros i Hi Hbefore.
    assert (Hnever : issueAddedDate cl sprint day i = None).
    { destruct (issueAddedDate cl sprint day i) as [d|] eqn:E; [exfalso|reflexivity].
      apply issueAddedDate_after in E as [_ E]. destruct (E Hbefore) as (j & Hj & Hk & Hc).
      apply (NoDup_key_unique issues i j Hnd Hi Hj) in Hk. subst j. lia. }
    split.
    + intros H. apply in_map_iff in H as (item & Hk & H).
      apply Hscope in H as (j & d & src & Hj & Hd & ->). cbn [addedScopeItem ScopeItem.key] in Hk.
      apply (NoDup_key_unique issues i j Hnd Hi Hj) in Hk. subst j.
      apply Hdate in Hd. congruence.
    + intros H. apply in_map_iff in H as (a & Hk & H).
      apply Hchart in H as (j & d & Hj & Hd & Ha & _). rewrite Ha in Hk.
      apply (NoDup_key_unique issues i j Hnd Hi Hj) in Hk. subst j. congruence.
Qed.
(** ** High-priority items *)

Lemma priorityRank_range (name : string) : 1 <= priorityRank name <= 5.
Proof.
  unfold priorityRank, priorityOrder. cbn [List.find fst snd].
  destruct (String.eqb "Highest" name); [cbn [snd]; lia|].
  destruct (String.eqb "High" name); [cbn [snd]; lia|].
  destruct (String.eqb "Medium" name); [cbn [snd]; lia|].
  destruct (String.eqb "Low" name); [cbn [snd]; lia|].
  destruct (String.eqb "Lowest" name); cbn [snd]; lia.
Qed.

Lemma comparePriorityItems_cases (a b : PriorityItem.t) :
  comparePriorityItems a b <= 0
  <-> getStatusOrder (PriorityItem.status a) < getStatusOrder (PriorityItem.status b)
      \/ (getStatusOrder (PriorityItem.status a) = getStatusOrder (PriorityItem.status b)
          /\ priorityRank (PriorityItem.priority a) <= priorityRank (PriorityItem.priority b)).
Proof.
  unfold comparePriorityItems. cbv zeta.
  destruct (Z.eqb_spec (getStatusOrder (PriorityItem.status a))
                       (getStatusOrder (PriorityItem.status b))); cbn [negb]; lia.
Qed.

Lemma comparePriorityItems_total (a b : PriorityItem.t) :
  comparePriorityItems a b < 0 <-> ~ comparePriorityItems b a <= 0.
Proof.
  unfold comparePriorityItems. cbv zeta.
  destruct (Z.eqb_spec (getStatusOrder (PriorityItem.status a))
                       (getStatusOrder (PriorityItem.status b)));
    destruct (Z.eqb_spec (getStatusOrder (PriorityItem.status b))
                         (getStatusOrder (PriorityItem.status a))); cbn [negb]; lia.
Qed.

Lemma comparePriorityItems_trans (a b c : PriorityItem.t) :
  comparePriorityItems a b <= 0 -> comparePriorityItems b c <= 0 ->
  comparePriorityItems a c <= 0.
Proof. rewrite !comparePriorityItems_cases. lia. Qed.

Lemma countPriority_perm (name : string) (l l' : list PriorityItem.t) :
  Permutation l l' -> countPriority name l = countPriority name l'.
Proof.
  intros H. unfold countPriority.
  induction H as [|x l l' H IH|x y l|l l' l'' H IH H' IH']; cbn [List.filter].
  - reflexivity.
  - destruct (String.eqb _ name); simpl; congruence.
  - destruct (String.eqb (PriorityItem.priority y) name),
             (String.eqb (PriorityItem.priority x) name); reflexivity.
  - congruence.
Qed.

Lemma countPriority_issues (name : string) (issues : list Issue) :
  countPriority name (map priorityItemOf issues)
  = length (List.filter (fun i => String.eqb (orStr (priority i) "Medium") name) issues).
Proof.
  unfold countPriority. induction issues as [|i l IH]; [reflexivity|].
  cbn [map List.filter priorityItemOf PriorityItem.priority].
  destruct (String.eqb _ name); simpl; congruence.
Qed.

(** X8.  The counters of [getHighPriorityItems] are taken over all the
    issues of the request, displayed or not: [total] is their number, and
    each priority counter is the number of issues of that priority, an
    issue without a priority counting as Medium.  An issue whose priority
    has another name is in no counter, so the five counters and those
    issues together make up [total]. *)
Theorem high_priority_counts (w : World) (p : Payload.t) (sprint : Sprint)
    (issues : list Issue) :
  let named (name : string) :=
    length (List.filter (fun i => String.eqb (orStr (priority i) "Medium") name) issues) in
  let unnamed :=
    length (List.filter
              (fun i => negb (existsb (String.eqb (orStr (priority i) "Medium"))
                                      (map fst priorityOrder)))
              issues) in
  exists report,
    highPriorityItems w p sprint issues = Returned report
    /\ PriorityReport.total report = length issues
    /\ PriorityReport.highestCount report = named "Highest"
    /\ PriorityReport.highCount report = named "High"
    /\ PriorityReport.mediumCount report = named "Medium"
    /\ PriorityReport.lowCount report = named "Low"
    /\ PriorityReport.lowestCount report = named "Lowest"
    /\ (PriorityReport.highestCount report + PriorityReport.highCount report
        + PriorityReport.mediumCount report + PriorityReport.lowCount report
        + PriorityReport.lowestCount report + unnamed = PriorityReport.total report)%nat.
Proof.
  intros named unnamed. eexists. split; [reflexivity|].
  cbn [PriorityReport.total PriorityReport.highestCount PriorityReport.highCount
       PriorityReport.mediumCount PriorityReport.lowCount PriorityReport.lowestCount].
  pose proof (Array_sort_perm comparePriorityItems (map priorityItemOf issues)) as Hperm.
  rewrite !(countPriority_perm _ _ _ Hperm), !countPriority_issues,
    (Permutation_length Hperm), length_map.
  repeat (split; [reflexivity|]).
  unfold named, unnamed, priorityOrder. cbn [map fst existsb].
  clear. induction issues as [|i l IH]; [reflexivity|]. cbn [List.filter length].
  set (name := orStr (priority i) "Medium").
  destruct (String.eqb_spec name "Highest") as [-> | ?]; [simpl; lia|].
  destruct (String.eqb_spec name "High") as [-> | ?]; [simpl; lia|].
  destruct (String.eqb_spec name "Medium") as [-> | ?]; [simpl; lia|].
  destruct (String.eqb_spec name "Low") as [-> | ?]; [simpl; lia|].
  destruct (String.eqb_spec name "Lowest") as [-> | ?]; simpl; lia.
Qed.
(** X9.  What [getHighPriorityItems] displays.  The issues are put in the
    order of their status group (in progress, to do, done) and, within a
    group, of their priority from Highest to Lowest (a priority of another
    name ranking with Medium); issues that rank the same keep the order the
    tracker gave them.  The answer shows the first five of this order, or
    all of them when [expand] is set: together with the items [rest] it
    leaves out, the displayed items are the issues of the request, in
    order. *)
Theorem high_priority_display (w : World) (p : Payload.t) (sprint : Sprint)
    (issues : list Issue) :
  exists report rest,
    highPriorityItems w p sprint issues = Returned report
    /\ Permutation (PriorityReport.items report ++ rest) (map priorityItemOf issues)
    /\ StronglySorted (inOrder comparePriorityItems) (PriorityReport.items report ++ rest)
    /\ (forall c,
           List.filter (sameRank comparePriorityItems c) (PriorityReport.items report ++ rest)
           = List.filter (sameRank comparePriorityItems c) (map priorityItemOf issues))
    /\ length (PriorityReport.items report)
       = (if Payload.expand p then length issues else Nat.min 5 (length issues))
    /\ (forall a b,
           inOrder comparePriorityItems a b
           <-> getStatusOrder (PriorityItem.status a) < getStatusOrder (PriorityItem.status b)
               \/ (getStatusOrder (PriorityItem.status a)
                   = getStatusOrder (PriorityItem.status b)
                   /\ priorityRank (PriorityItem.priority a)
                      <= priorityRank (PriorityItem.priority b))).
Proof.
  set (allItems := Array_sort comparePriorityItems (map priorityItemOf issues)).
  exists {| PriorityReport.items := if Payload.expand p then allItems else firstn 5 allItems;
            PriorityReport.total := length allItems;
            PriorityReport.highestCount := countPriority "Highest" allItems;
            PriorityReport.highCount := countPriority "High" allItems;
            PriorityReport.mediumCount := countPriority "Medium" allItems;
            PriorityReport.lowCount := countPriority "Low" allItems;
            PriorityReport.lowestCount := countPriority "Lowest" allItems;
            PriorityReport.sprintName := sprint_name sprint;
            PriorityReport.isExpanded := Payload.expand p |}.
  exists (if Payload.expand p then [] else skipn 5 allItems).
  cbn [PriorityReport.items].
  assert (Happ : ((if Payload.expand p then allItems else firstn 5 allItems)
                  ++ (if Payload.expand p then [] else skipn 5 allItems))%list = allItems).
  { destruct (Payload.expand p); [apply app_nil_r | apply firstn_skipn]. }
  rewrite Happ.
  assert (Hlen : length allItems = length issues).
  { unfold allItems. rewrite (Permutation_length (Array_sort_perm _ _)). apply length_map. }
  split; [reflexivity|]. split; [apply Array_sort_perm|]. split.
  { apply Array_sort_sorted;
      [apply comparePriorityItems_total | apply comparePriorityItems_trans]. }
  split.
  { intros c. apply Array_sort_stable;
      [apply comparePriorityItems_total | apply comparePriorityItems_trans]. }
  split.
  { destruct (Payload.expand p); [exact Hlen|]. rewrite length_firstn, Hlen. reflexivity. }
  intros a b. apply comparePriorityItems_cases.
Qed.
(** ** Releases *)

Lemma fold_left_flat_map {A B C : Type} (f : A -> C -> A) (g : B -> list C)
    (l : list B) (a : A) :
  fold_left f (flat_map g l) a = fold_left (fun a x => fold_left f (g x) a) l a.
Proof.
  revert a. induction l as [|x r IH]; intros a; [reflexivity|].
  cbn [flat_map fold_left]. rewrite fold_left_app. apply IH.
Qed.

Lemma fold_left_map {A B C : Type} (f : A -> C -> A) (h : B -> C) (l : list B) (a : A) :
  fold_left f (map h l) a = fold_left (fun a x => f a (h x)) l a.
Proof. revert a. induction l as [|x r IH]; intros a; [reflexivity|]. apply IH. Qed.

(** The release map is built pair by pair. *)
Lemma buildReleaseMap_pairs (issues : list VersionedIssue) :
  buildReleaseMap issues
  = fold_left (fun m pair => recordVersion (fst pair) (snd pair) m) (versionPairs issues) [].
Proof.
  unfold buildReleaseMap, versionPairs. rewrite fold_left_flat_map.
  apply fold_left_same. intros m issue. rewrite fold_left_map. reflexivity.
Qed.

Lemma recordVersion_get (issue : Issue) (version : Version)
    (m : list (string * ReleaseEntry.t)) (k : string) :
  releaseMap_get k (recordVersion issue version m)
  = if String.eqb (version_id version) k
    then Some (countIssue issue (default (newRelease version) (releaseMap_get k m)))
    else releaseMap_get k m.
Proof.
  induction m as [|[k' r] m IH]; cbn [recordVersion releaseMap_get].
  - destruct (String.eqb (version_id version) k); reflexivity.
  - destruct (String.eqb_spec k' (version_id version)) as [-> | Hne]; cbn [releaseMap_get].
    + destruct (String.eqb (version_id version) k); reflexivity.
    + destruct (String.eqb_spec k' k) as [-> | Hk].
      * destruct (String.eqb_spec (version_id version) k); [congruence | reflexivity].
      * exact IH.
Qed.

Lemma recordVersion_keys (issue : Issue) (version : Version)
    (m : list (string * ReleaseEntry.t)) :
  map fst (recordVersion issue version m)
  = if bool_decide (version_id version ∈ map fst m) then map fst m
    else (map fst m ++ [version_id version])%list.
Proof.
  induction m as [|[k' r] m IH]; [reflexivity|]. cbn [recordVersion map fst].
  destruct (String.eqb_spec k' (version_id version)) as [-> | Hne].
  - rewrite bool_decide_true by (apply elem_of_cons; left; reflexivity). reflexivity.
  - cbn [map fst]. rewrite IH.
    destruct (bool_decide (version_id version ∈ map fst m)) eqn:E.
    + apply bool_decide_eq_true in E.
      rewrite bool_decide_true by (apply elem_of_cons; right; exact E). reflexivity.
    + apply bool_decide_eq_false in E. rewrite bool_decide_false; [reflexivity|].
      intros [? | ?]%elem_of_cons; [congruence | auto].
Qed.

Lemma recordVersion_ids (issue : Issue) (version : Version)
    (m : list (string * ReleaseEntry.t)) :
  (forall k r, In (k, r) m -> ReleaseEntry.id r = k) ->
  forall k r, In (k, r) (recordVersion issue version m) -> ReleaseEntry.id r = k.
Proof.
  induction m as [|[k' r'] m IH]; intros H k r; cbn [recordVersion].
  - intros [E | []]. injection E as <- <-. reflexivity.
  - destruct (String.eqb_spec k' (version_id version)) as [-> | Hne].
    + intros [E | Hin]; [|apply H; right; exact Hin].
      injection E as <- <-. cbn [countIssue ReleaseEntry.id]. apply H. left. reflexivity.
    + intros [E | Hin]; [apply H; left; exact E|].
      apply IH; [|exact Hin]. intros k0 r0 H0. apply H. right. exact H0.
Qed.

Lemma releaseMap_get_In (m : list (string * ReleaseEntry.t)) (k : string)
    (r : ReleaseEntry.t) :
  NoDup (map fst m) -> (In (k, r) m <-> releaseMap_get k m = Some r).
Proof.
  induction m as [|[k' r'] m IH]; intros Hnd; cbn [releaseMap_get].
  - split; [intros [] | discriminate].
  - cbn [map fst] in Hnd. apply NoDup_cons in Hnd as [Hk Hnd].
    destruct (String.eqb_spec k' k) as [-> | Hne].
    + split.
      * intros [E | Hin]; [congruence|]. exfalso. apply Hk.
        apply list_elem_of_In, in_map_iff. exists (k, r). auto.
      * intros E. left. congruence.
    + rewrite <- (IH Hnd). split.
      * intros [E | Hin]; [congruence | exact Hin].
      * intros Hin. right. exact Hin.
Qed.

Lemma countIssue_fold (l : list Issue) (r0 : ReleaseEntry.t) :
  let r := fold_left (fun r i => countIssue i r) l r0 in
  ReleaseEntry.totalIssues r = (ReleaseEntry.totalIssues r0 + length l)%nat
  /\ ReleaseEntry.doneIssues r
     = (ReleaseEntry.doneIssues r0 + length (List.filter isDoneStatus l))%nat
  /\ ReleaseEntry.issues r = (ReleaseEntry.issues r0 ++ map releaseItemOf l)%list
  /\ (ReleaseEntry.totalEstimate r
      == ReleaseEntry.totalEstimate r0 + reduce_sum estimateOf l)%Q
  /\ (ReleaseEntry.doneEstimate r
      == ReleaseEntry.doneEstimate r0 + reduce_sum estimateOf (List.filter isDoneStatus l))%Q
  /\ ReleaseEntry.releaseDate r = ReleaseEntry.releaseDate r0
  /\ ReleaseEntry.released r = ReleaseEntry.released r0.
Proof.
  revert r0. induction l as [|i l IH]; intros r0; cbn [fold_left].
  - cbn [length List.filter map]. rewrite !Nat.add_0_r, app_nil_r.
    change (reduce_sum estimateOf []) with 0%Q. repeat split; try reflexivity; lra.
  - destruct (IH (countIssue i r0)) as (H1 & H2 & H3 & H4 & H5 & H6 & H7).
    cbv zeta. rewrite H1, H2, H3, H4, H5, H6, H7.
    cbn [countIssue ReleaseEntry.totalIssues ReleaseEntry.doneIssues ReleaseEntry.issues
         ReleaseEntry.totalEstimate ReleaseEntry.doneEstimate ReleaseEntry.releaseDate
         ReleaseEntry.released length List.filter map].
    rewrite reduce_sum_cons, <- app_assoc. fold (estimateOf i).
    destruct (isDoneStatus i); cbn [length]; rewrite ?reduce_sum_cons;
      repeat split; try reflexivity; try lia; lra.
Qed.

(** What the release map holds after the pairs are recorded. *)
Lemma releaseMap_built (pairs : list (Issue * Version)) :
  let m := fold_left (fun m pair => recordVersion (fst pair) (snd pair) m) pairs [] in
  NoDup (map fst m)
  /\ (forall k r, In (k, r) m -> ReleaseEntry.id r = k)
  /\ (forall k, k ∈ map fst m <-> k ∈ map (fun pair => version_id (snd pair)) pairs)
  /\ (forall k,
         releaseMap_get k m
         = match List.filter (fun pair => String.eqb (version_id (snd pair)) k) pairs with
           | [] => None
           | first :: rest =>
               Some (fold_left (fun r i => countIssue i r) (map fst (first :: rest))
                               (newRelease (snd first)))
           end).
Proof.
  induction pairs as [|[i v] pairs IH] using rev_ind.
  - cbn. split; [constructor|]. split; [intros k r []|]. split; [reflexivity|]. reflexivity.
  - rewrite fold_left_app. cbn [fold_left fst snd].
    set (m := fold_left _ pairs []) in *. cbv zeta in IH.
    destruct IH as (Hnd & Hid & Hkeys & Hget).
    split; [|split; [|split]].
    + rewrite recordVersion_keys.
      destruct (bool_decide (version_id v ∈ map fst m)) eqn:E; [exact Hnd|].
      apply bool_decide_eq_false in E. apply NoDup_app. split; [exact Hnd|].
      split; [|apply NoDup_singleton].
      intros x Hx Hx'. apply list_elem_of_singleton in Hx'. subst x. auto.
    + apply recordVersion_ids, Hid.
    + intros k. rewrite recordVersion_keys, map_app. cbn [map snd].
      rewrite elem_of_app, list_elem_of_singleton, <- Hkeys.
      destruct (bool_decide (version_id v ∈ map fst m)) eqn:E.
      * apply bool_decide_eq_true in E. split; [auto|]. intros [H | ->]; assumption.
      * rewrite elem_of_app, list_elem_of_singleton. reflexivity.
    + intros k. rewrite recordVersion_get, Hget, List.filter_app. cbn [List.filter snd].
      destruct (String.eqb (version_id v) k).
      * destruct (List.filter _ pairs) as [|first rest].
        -- reflexivity.
        -- cbn [default from_option id app].
           rewrite app_comm_cons, map_app, fold_left_app. reflexivity.
      * rewrite app_nil_r. reflexivity.
Qed.

(** Up to a hundred issues, computed case by case. *)
Lemma progress_table :
  forallb (fun total => forallb (fun finished => progressAsExact finished total)
                                (seq 0 (S total)))
          (seq 1 100) = true.
Proof. vm_compute. reflexivity. Qed.

Lemma progress_near_exact (finished total : nat) :
  (1 <= total <= 100)%nat -> (finished <= total)%nat ->
  progressOf finished total = Double.ofZ (exactProgress finished total)
  \/ (halfWay finished total = true
      /\ progressOf finished total = Double.ofZ (exactProgress finished total - 1)).
Proof.
  intros Ht Hf. pose proof progress_table as H.
  rewrite forallb_forall in H. specialize (H total).
  rewrite forallb_forall in H.
  assert (Hin : In total (seq 1 100)) by (apply in_seq; lia).
  specialize (H Hin finished ltac:(apply in_seq; lia)).
  unfold progressAsExact in H. apply orb_true_iff in H as [H | H].
  - left. apply same_eq, H.
  - right. apply andb_true_iff in H as [H1 H2]. split; [exact H1 | apply same_eq, H2].
Qed.

Lemma exactProgress_range (finished total : nat) :
  (1 <= total)%nat -> (finished <= total)%nat -> 0 <= exactProgress finished total <= 100.
Proof.
  intros Ht Hf. unfold exactProgress.
  set (t := Z.of_nat total). set (d := Z.of_nat finished).
  assert (0 < t /\ 0 <= d <= t) by lia.
  split; [apply Z.div_pos; lia|].
  assert ((200 * d + t) / (2 * t) < 101) by (apply Z.div_lt_upper_bound; lia).
  lia.
Qed.

Lemma release_entry (sprint : Sprint) (issues : list VersionedIssue) (r : Release.t) :
  In r (ReleaseReport.releases (releaseData sprint issues)) ->
  exists (e : ReleaseEntry.t) (first : Issue * Version) (rest : list (Issue * Version)),
    r = finishRelease e
    /\ In (ReleaseEntry.id e, e) (buildReleaseMap issues)
    /\ List.filter (fun pair => String.eqb (version_id (snd pair)) (Release.id r))
                   (versionPairs issues) = first :: rest
    /\ e = fold_left (fun r i => countIssue i r) (issuesOfVersion (Release.id r) issues)
                     (newRelease (snd first)).
Proof.
  unfold releaseData. cbn [ReleaseReport.releases]. intros H.
  apply (Permutation_in _ (Array_sort_perm _ _)) in H.
  apply in_map_iff in H as ([k e] & <- & Hin).
  rewrite buildReleaseMap_pairs in *.
  destruct (releaseMap_built (versionPairs issues)) as (Hnd & Hid & _ & Hget).
  cbv zeta in Hnd, Hid, Hget.
  pose proof (Hid k e Hin) as Hk. subst k.
  pose proof (proj1 (releaseMap_get_In _ _ _ Hnd) Hin) as Hg.
  rewrite Hget in Hg. unfold issuesOfVersion. cbn [finishRelease Release.id].
  destruct (List.filter _ (versionPairs issues)) as [|first rest]; [discriminate Hg|].
  injection Hg as Hg. exists e, first, rest. auto.
Qed.

(** X10.  The figures of a release.  For every release of the answer of
    [getReleaseData], with the issues filed under its version id: its items
    are these issues, sorted by status; [totalIssues] is their number and is
    at least 1; [doneIssues] is the number of them whose status names a done
    state; the two estimates are the sums of their original estimates (all
    of them, and the done ones), rounded to a tenth.  [progress] is always
    [Math.round((doneIssues / totalIssues) * 100)] as the engine computes it
    on doubles (a release is never without issues).  For a release of up to
    100 issues it is the percentage done rounded half up, between 0 and
    100, except that a percentage half way between two whole numbers may
    show the lower one: 23 issues done of 40 show 57, the quotient times 100
    falling just below 57.5. *)
Theorem release_figures (sprint : Sprint) (issues : list VersionedIssue) (r : Release.t) :
  In r (ReleaseReport.releases (releaseData sprint issues)) ->
  let filed := issuesOfVersion (Release.id r) issues in
  let done := List.filter isDoneStatus filed in
  Permutation (Release.issues r) (map releaseItemOf filed)
  /\ StronglySorted
       (fun a b => getStatusOrder (ReleaseItem.status a)
                   <= getStatusOrder (ReleaseItem.status b))
       (Release.issues r)
  /\ (1 <= Release.totalIssues r)%nat
  /\ Release.totalIssues r = length filed
  /\ Release.doneIssues r = length done
  /\ (Release.totalEstimate r == round10 (reduce_sum estimateOf filed))%Q
  /\ (Release.doneEstimate r == round10 (reduce_sum estimateOf done))%Q
  /\ (Release.doneIssues r <= Release.totalIssues r)%nat
  /\ Release.progress r = progressOf (Release.doneIssues r) (Release.totalIssues r)
  /\ ((Release.totalIssues r <= 100)%nat ->
      let exact := exactProgress (Release.doneIssues r) (Release.totalIssues r) in
      0 <= exact <= 100
      /\ (Release.progress r = Double.ofZ exact
          \/ (halfWay (Release.doneIssues r) (Release.totalIssues r) = true
              /\ Release.progress r = Double.ofZ (exact - 1))))
  /\ (halfWay 23 40 = true /\ exactProgress 23 40 = 58)
  /\ progressOf 23 40 = Double.ofZ 57
  /\ (Double.valueOf (Double.mul (Double.div (Double.ofZ 23) (Double.ofZ 40))
                                 (Double.ofZ 100)) < 575 # 10)%Q.
Proof.
  intros Hr filed done.
  destruct (release_entry sprint issues r Hr) as (e & first & rest & -> & _ & Hf & He).
  fold filed in He.
  assert (Hne : (1 <= length filed)%nat).
  { unfold filed, issuesOfVersion. rewrite Hf. cbn [map length]. lia. }
  destruct (countIssue_fold filed (newRelease (snd first))) as (H1 & H2 & H3 & H4 & H5 & _).
  cbv zeta in H1, H2, H3, H4, H5. rewrite <- He in H1, H2, H3, H4, H5.
  cbn [newRelease ReleaseEntry.totalIssues ReleaseEntry.doneIssues ReleaseEntry.issues
       ReleaseEntry.totalEstimate ReleaseEntry.doneEstimate] in H1, H2, H3, H4, H5.
  cbn [app Nat.add] in H1, H2, H3. fold done in H2, H5.
  assert (Hdone : (length done <= length filed)%nat) by apply List.filter_length_le.
  assert (Hprogress : Release.progress (finishRelease e)
                      = progressOf (Release.doneIssues (finishRelease e))
                                   (Release.totalIssues (finishRelease e))).
  { cbn [finishRelease Release.progress Release.totalIssues Release.doneIssues].
    destruct (0 <? ReleaseEntry.totalIssues e)%nat eqn:E; [reflexivity|].
    apply Nat.ltb_ge in E. lia. }
  assert (Hcount : (1 <= Release.totalIssues (finishRelease e))%nat
                   /\ (Release.doneIssues (finishRelease e)
                       <= Release.totalIssues (finishRelease e))%nat).
  { cbn [finishRelease Release.totalIssues Release.doneIssues]. lia. }
  split; [|split; [|split; [|split; [|split; [|split; [|split; [|split; [|split;
    [|split; [|split; [|split]]]]]]]]]]].
  - cbn [finishRelease Release.issues]. rewrite H3. apply Array_sort_perm.
  - cbn [finishRelease Release.issues].
    apply (keyed_sort_sorted (fun x => getStatusOrder (ReleaseItem.status x))).
  - cbn [finishRelease Release.totalIssues]. lia.
  - cbn [finishRelease Release.totalIssues]. exact H1.
  - cbn [finishRelease Release.doneIssues]. exact H2.
  - cbn [finishRelease Release.totalEstimate]. apply round10_proper. rewrite H4. lra.
  - cbn [finishRelease Release.doneEstimate]. apply round10_proper. rewrite H5. lra.
  - apply Hcount.
  - exact Hprogress.
  - intros Hsmall. cbv zeta. destruct Hcount as [Hc1 Hc2].
    split; [apply exactProgress_range; assumption|].
    rewrite Hprogress. apply progress_near_exact; [lia | exact Hc2].
  - split; reflexivity.
  - vm_compute. reflexivity.
  - vm_compute. reflexivity.
Qed.
Lemma list_sum_perm (l l' : list nat) : Permutation l l' -> list_sum l = list_sum l'.
Proof.
  induction 1 as [|x l l' H IH|x y l|l l' l'' H IH H' IH']; simpl; lia.
Qed.

Lemma recordVersion_total (issue : Issue) (version : Version)
    (m : list (string * ReleaseEntry.t)) :
  list_sum (map (fun '(_, r) => ReleaseEntry.totalIssues r) (recordVersion issue version m))
  = S (list_sum (map (fun '(_, r) => ReleaseEntry.totalIssues r) m)).
Proof.
  induction m as [|[k r] m IH]; [reflexivity|]. cbn [recordVersion].
  destruct (String.eqb k (version_id version)).
  - simpl. lia.
  - cbn [map]. simpl list_sum. rewrite IH. simpl. lia.
Qed.

(** X11.  The releases account for the versions of the issues.  The answer
    of [getReleaseData] has one release per version id that occurs on an
    issue, and no id twice; [totalReleases] is their number; the
    [totalIssues] of the releases add up to the number of (issue, version)
    pairs, an issue counting once for each of its versions; and
    [unversionedCount] is the number of the issues that have no version, the
    other issues making up the rest. *)
Theorem release_accounting (sprint : Sprint) (issues : list VersionedIssue) :
  let report := releaseData sprint issues in
  let releases := ReleaseReport.releases report in
  NoDup (map Release.id releases)
  /\ (forall k, In k (map Release.id releases)
                <-> In k (map (fun pair => version_id (snd pair)) (versionPairs issues)))
  /\ ReleaseReport.totalReleases report = length releases
  /\ list_sum (map Release.totalIssues releases) = length (versionPairs issues)
  /\ (ReleaseReport.unversionedCount report
      + length (List.filter (fun issue => negb (isUnversioned issue)) issues)
      = length issues)%nat.
Proof.
  intros report releases.
  set (m := buildReleaseMap issues).
  assert (Hperm : Permutation releases (map (fun '(_, r) => finishRelease r) m))
    by apply Array_sort_perm.
  destruct (releaseMap_built (versionPairs issues)) as (Hnd & Hid & Hkeys & _).
  cbv zeta in Hnd, Hid, Hkeys. rewrite <- buildReleaseMap_pairs in Hnd, Hid, Hkeys.
  fold m in Hnd, Hid, Hkeys.
  assert (Hids : map Release.id (map (fun '(_, r) => finishRelease r) m) = map fst m).
  { rewrite map_map. apply map_ext_in. intros [k r] Hin. cbn [finishRelease Release.id fst].
    apply Hid, Hin. }
  split; [|split; [|split; [|split]]].
  - rewrite (Permutation_map Release.id Hperm), Hids. exact Hnd.
  - intros k. rewrite <- !list_elem_of_In, (Permutation_map Release.id Hperm), Hids.
    apply Hkeys.
  - reflexivity.
  - rewrite (list_sum_perm _ _ (Permutation_map Release.totalIssues Hperm)), map_map.
    rewrite (map_ext _ (fun '(_, r) => ReleaseEntry.totalIssues r))
      by (intros [k r]; reflexivity).
    unfold m. rewrite buildReleaseMap_pairs.
    generalize (versionPairs issues). clear. intros pairs.
    induction pairs as [|pair pairs IH] using rev_ind; [reflexivity|].
    rewrite fold_left_app. cbn [fold_left]. rewrite recordVersion_total, IH, length_app.
    cbn [length]. lia.
  - cbn [report releaseData ReleaseReport.unversionedCount].
    clear. induction issues as [|i l IH]; [reflexivity|]. cbn [List.filter].
    destruct (isUnversioned i); cbn [negb length]; lia.
Qed.

Lemma compareReleases_cases (a b : Release.t) :
  compareReleases a b <= 0
  <-> (Release.released a = false /\ Release.released b = true)
      \/ (Release.released a = Release.released b
          /\ releaseDateOrNone a <= releaseDateOrNone b).
Proof.
  unfold compareReleases, releaseDateOrNone.
  destruct (Release.released a), (Release.released b); cbn [Bool.eqb negb];
    split; intros H; try lia; try (right; split; [reflexivity | lia]);
    try (left; split; reflexivity);
    destruct H as [[? ?] | [? ?]]; try discriminate; lia.
Qed.

Lemma compareReleases_total (a b : Release.t) :
  compareReleases a b < 0 <-> ~ compareReleases b a <= 0.
Proof.
  unfold compareReleases.
  destruct (Release.released a), (Release.released b); cbn [Bool.eqb negb]; lia.
Qed.

Lemma compareReleases_trans (a b c : Release.t) :
  compareReleases a b <= 0 -> compareReleases b c <= 0 -> compareReleases a c <= 0.
Proof.
  rewrite !compareReleases_cases.
  destruct (Release.released a), (Release.released b), (Release.released c);
    intros [[? ?] | [? ?]] [[? ?] | [? ?]]; try discriminate;
    try (left; split; reflexivity); right; split; (reflexivity || lia).
Qed.

(** X12.  The order of the releases.  [getReleaseData] lists the releases
    that are not released before the released ones and, within each of the
    two, by release date, a release without a date coming last (it ranks
    as 9999-12-31); releases that rank the same stay in the order in which
    their versions first occur on the issues. *)
Theorem releases_order (sprint : Sprint) (issues : list VersionedIssue) :
  let releases := ReleaseReport.releases (releaseData sprint issues) in
  let entries := map (fun '(_, r) => finishRelease r) (buildReleaseMap issues) in
  Permutation releases entries
  /\ StronglySorted (inOrder compareReleases) releases
  /\ (forall c, List.filter (sameRank compareReleases c) releases
                = List.filter (sameRank compareReleases c) entries)
  /\ (forall a b,
         inOrder compareReleases a b
         <-> (Release.released a = false /\ Release.released b = true)
             \/ (Release.released a = Release.released b
                 /\ releaseDateOrNone a <= releaseDateOrNone b))
  /\ map fst (buildReleaseMap issues)
     = uniqueValues (map (fun pair => version_id (snd pair)) (versionPairs issues)).
Proof.
  intros releases entries.
  split; [apply Array_sort_perm|]. split.
  { apply Array_sort_sorted; [apply compareReleases_total | apply compareReleases_trans]. }
  split.
  { intros c. apply Array_sort_stable;
      [apply compareReleases_total | apply compareReleases_trans]. }
  split; [intros a b; apply compareReleases_cases|].
  rewrite buildReleaseMap_pairs. unfold uniqueValues.
  induction (versionPairs issues) as [|pair pairs IH] using rev_ind; [reflexivity|].
  rewrite map_app, !fold_left_app. cbn [fold_left map].
  rewrite recordVersion_keys, IH. reflexivity.
Qed.
(** ** Working days *)

Lemma countWorkingDays_loop_run (endD : Date) (fuel : nat) (current : Date) (count : Z) :
  current + (Z.of_nat fuel - 1) * DAY_MS <= endD ->
  countWorkingDays_loop endD fuel current count = count + workingDaysFrom current fuel.
Proof.
  revert current count. induction fuel as [|fuel IH]; intros current count H.
  - cbn. lia.
  - cbn [countWorkingDays_loop workingDaysFrom].
    assert (current <= endD) by (unfold DAY_MS in H; lia).
    rewrite (proj2 (Z.leb_le _ _)) by assumption.
    rewrite IH by (unfold nextDay; lia).
    destruct (isWorkingDay current); lia.
Qed.

Lemma loopBound_reaches (start endD : Date) :
  start + (Z.of_nat (loopBound start endD) - 1) * DAY_MS <= endD \/ loopBound start endD = O.
Proof.
  unfold loopBound. destruct (Z_lt_le_dec endD start) as [H | H].
  - right. assert ((endD - start) / DAY_MS < 0) by (apply Z.div_lt_upper_bound; unfold DAY_MS; lia).
    lia.
  - left. assert (0 <= (endD - start) / DAY_MS) by (apply Z.div_pos; unfold DAY_MS; lia).
    rewrite Z2Nat.id by lia.
    pose proof (Z.mul_div_le (endD - start) DAY_MS ltac:(unfold DAY_MS; lia)). lia.
Qed.

(** The count of [countWorkingDays] before its default. *)
Lemma countWorkingDays_count (start endD : Date) :
  countWorkingDays start endD
  = let count := workingDaysFrom start (loopBound start endD) in
    if count =? 0 then WORKING_DAYS_DEFAULT else count.
Proof.
  unfold countWorkingDays. cbv zeta.
  destruct (loopBound_reaches start endD) as [H | H].
  - rewrite countWorkingDays_loop_run by exact H. reflexivity.
  - rewrite H. reflexivity.
Qed.

Lemma getDay_nextDay (d : Date) : getDay (nextDay d) = (getDay d + 1) mod 7.
Proof.
  unfold getDay, nextDay, toISODate, DAY_MS.
  replace (d + 86400000) with (d + 1 * 86400000) by lia.
  rewrite Z.div_add by lia. rewrite <- Z.add_assoc, (Z.add_comm 1 4), Z.add_assoc.
  rewrite Zplus_mod_idemp_l. reflexivity.
Qed.

Lemma workingDaysFrom_week (d : Date) : workingDaysFrom d 7 = 5.
Proof.
  cbn [workingDaysFrom]. unfold isWorkingDay.
  rewrite !getDay_nextDay.
  pose proof (Z.mod_pos_bound (toISODate d + 4) 7 ltac:(lia)) as H.
  fold (getDay d) in H. set (g := getDay d) in *. clearbody g.
  assert (g = 0 \/ g = 1 \/ g = 2 \/ g = 3 \/ g = 4 \/ g = 5 \/ g = 6) as Hg by lia.
  destruct Hg as [-> | [-> | [-> | [-> | [-> | [-> | ->]]]]]]; reflexivity.
Qed.

Lemma workingDaysFrom_app (d : Date) (a b : nat) :
  workingDaysFrom d (a + b)
  = workingDaysFrom d a + workingDaysFrom (d + Z.of_nat a * DAY_MS) b.
Proof.
  revert d. induction a as [|a IH]; intros d.
  - cbn [Nat.add workingDaysFrom]. replace (d + Z.of_nat 0 * DAY_MS) with d by lia. lia.
  - cbn [Nat.add workingDaysFrom]. rewrite IH. unfold nextDay.
    replace (d + DAY_MS + Z.of_nat a * DAY_MS) with (d + Z.of_nat (S a) * DAY_MS) by lia. lia.
Qed.

Lemma workingDaysFrom_weeks (d : Date) (k : nat) : workingDaysFrom d (7 * k) = 5 * Z.of_nat k.
Proof.
  revert d. induction k as [|k IH]; intros d; [reflexivity|].
  replace (7 * S k)%nat with (7 + 7 * k)%nat by lia.
  rewrite workingDaysFrom_app, workingDaysFrom_week, IH. lia.
Qed.

(** X13.  [countWorkingDays] over whole weeks and over no working day.  A
    span of [7k] calendar days (k at least 1), whatever the weekday it
    begins on, has [5k] working days.  A span that is empty (the end before
    the start) or that covers a weekend only (from a Saturday, one or two
    days) has none, and [countWorkingDays] answers its default of 10 for
    it. *)
Theorem countWorkingDays_weeks (start endD : Date) :
  (forall k : Z, 0 < k -> start <= endD -> (endD - start) / DAY_MS + 1 = 7 * k ->
                 countWorkingDays start endD = 5 * k)
  /\ (endD < start -> countWorkingDays start endD = WORKING_DAYS_DEFAULT)
  /\ (getDay start = 6 -> start <= endD < start + 2 * DAY_MS ->
      countWorkingDays start endD = WORKING_DAYS_DEFAULT).
Proof.
  rewrite countWorkingDays_count. cbv zeta. split; [|split].
  - intros k Hk Hle Hdays. unfold loopBound. rewrite Hdays.
    replace (Z.to_nat (7 * k)) with (7 * Z.to_nat k)%nat by lia.
    rewrite workingDaysFrom_weeks, Z2Nat.id by lia.
    destruct (5 * k =? 0) eqn:E; [apply Z.eqb_eq in E; lia | reflexivity].
  - intros H. destruct (loopBound_reaches start endD) as [H' | ->]; [|reflexivity].
    unfold loopBound in *.
    assert ((endD - start) / DAY_MS < 0) by (apply Z.div_lt_upper_bound; unfold DAY_MS; lia).
    replace (Z.to_nat _) with O by lia. reflexivity.
  - intros Hsat [Hle Hlt]. unfold loopBound.
    assert (Hdiv : (endD - start) / DAY_MS = 0 \/ (endD - start) / DAY_MS = 1).
    { assert (0 <= (endD - start) / DAY_MS) by (apply Z.div_pos; unfold DAY_MS; lia).
      assert ((endD - start) / DAY_MS < 2)
        by (apply Z.div_lt_upper_bound; unfold DAY_MS in *; lia).
      lia. }
    destruct Hdiv as [-> | ->].
    + change (Z.to_nat (0 + 1)) with 1%nat. cbn [workingDaysFrom].
      unfold isWorkingDay. rewrite Hsat. reflexivity.
    + change (Z.to_nat (1 + 1)) with 2%nat. cbn [workingDaysFrom].
      unfold isWorkingDay. rewrite getDay_nextDay, Hsat. reflexivity.
Qed.
(** ** The changelog of an issue *)

Lemma sortByCreated_Array_sort (l : list History) :
  sortByCreated l = Array_sort (byRank history_created) l.
Proof.
  unfold sortByCreated, Array_sort. apply fold_left_same. intros acc h.
  induction acc as [|x r IH]; [reflexivity|]. cbn [insertByCreated insertSorted].
  unfold byRank at 1.
  replace (history_created h - history_created x <? 0)
    with (history_created h <? history_created x)
    by (destruct (Z.ltb_spec (history_created h) (history_created x)),
                 (Z.ltb_spec (history_created h - history_created x) 0); lia || reflexivity).
  rewrite IH. reflexivity.
Qed.

Lemma analyzeItem_move (sprintName sprintId : string) (t : Date)
    (acc : option Date * option Date) (item : HistoryItem) :
  analyzeItem sprintName sprintId t acc item
  = match moveOf sprintName sprintId item with
    | Entered => (Some t, snd acc)
    | Departed => (None, Some t)
    | Unmoved => acc
    end.
Proof.
  unfold analyzeItem, moveOf. cbv zeta.
  destruct (String.eqb (field item) "Sprint"); [|reflexivity].
  destruct (includes (default "" (fromString item)) sprintName
            || includes (default "" (from item)) sprintId),
           (includes (default "" (toString item)) sprintName
            || includes (default "" (to item)) sprintId); reflexivity.
Qed.

(** [analyzeSprintChangelog] as one pass over the moves. *)
Lemma analyzeSprintChangelog_moves (histories : list History) (sprintName sprintId : string) :
  analyzeSprintChangelog histories sprintName sprintId
  = fold_left (fun acc e => match snd e with
                            | Entered => (Some (fst e), snd acc)
                            | Departed => (None, Some (fst e))
                            | Unmoved => acc
                            end)
              (sprintMoves histories sprintName sprintId) (None, None).
Proof.
  unfold analyzeSprintChangelog, sprintMoves. rewrite fold_left_flat_map.
  apply fold_left_same. intros acc h. rewrite fold_left_map.
  apply fold_left_same. intros acc' item. cbn [fst snd]. apply analyzeItem_move.
Qed.

Lemma StronglySorted_snoc {A : Type} (R : A -> A -> Prop) (l : list A) (e : A) :
  StronglySorted R (l ++ [e]) -> StronglySorted R l /\ Forall (fun x => R x e) l.
Proof.
  induction l as [|x r IH]; intros H; [split; constructor|].
  cbn [app] in H. apply StronglySorted_inv in H as [Hs Hx].
  destruct (IH Hs) as [Hr He]. split.
  - constructor; [exact Hr|]. rewrite List.Forall_forall in *.
    intros y Hy. apply Hx, in_or_app. left. exact Hy.
  - constructor; [|exact He]. rewrite List.Forall_forall in Hx.
    apply Hx, in_or_app. right. left. reflexivity.
Qed.

Lemma sprintMoves_sorted (histories : list History) (sprintName sprintId : string) :
  StronglySorted (fun a b => fst a <= fst b) (sprintMoves histories sprintName sprintId).
Proof.
  unfold sprintMoves. rewrite sortByCreated_Array_sort.
  pose proof (keyed_sort_sorted history_created histories) as H.
  induction H as [|h r Hs IH Hh]; [constructor|]. cbn [flat_map].
  set (rest := flat_map _ r) in *.
  assert (Hrest : forall e, In e rest -> history_created h <= fst e).
  { intros e He. apply in_flat_map in He as (h' & Hh' & He).
    apply in_map_iff in He as (item & <- & _). cbn [fst].
    rewrite List.Forall_forall in Hh. apply Hh, Hh'. }
  induction (items h) as [|item l IHl]; [exact IH|].
  cbn [map app]. constructor; [exact IHl|].
  rewrite List.Forall_forall. intros e He. apply in_app_or in He as [He | He].
  - apply in_map_iff in He as (item' & <- & _). cbn [fst]. lia.
  - cbn [fst]. apply Hrest, He.
Qed.

(** X14.  The latest move decides.  Reading the changelog from its oldest
    to its newest entry, whatever the order the tracker returned the
    entries in: [addedDate] is the time of the latest move into or out of
    the sprint if that move is an entry, and is not set when it is a
    departure or when there is no move; [removedDate] is the time of the
    latest departure.  When both are set, the issue came back after its
    latest departure: [removedDate] is not later than [addedDate]. *)
Theorem latest_move_decides (histories : list History) (sprintName sprintId : string) :
  let moves := sprintMoves histories sprintName sprintId in
  let result := analyzeSprintChangelog histories sprintName sprintId in
  fst result = match List.find isMove (rev moves) with
               | Some (t, Entered) => Some t
               | _ => None
               end
  /\ snd result = fst <$> List.find isDeparture (rev moves)
  /\ match result with
     | (Some addedDate, Some removedDate) => removedDate <= addedDate
     | _ => True
     end.
Proof.
  intros moves result. unfold result. rewrite analyzeSprintChangelog_moves. fold moves.
  pose proof (sprintMoves_sorted histories sprintName sprintId) as Hsorted. fold moves in Hsorted.
  set (step := fun (acc : option Date * option Date) (e : Date * SprintMove) => _).
  assert (H : fst (fold_left step moves (None, None))
              = match List.find isMove (rev moves) with
                | Some (t, Entered) => Some t
                | _ => None
                end
              /\ snd (fold_left step moves (None, None))
                 = fst <$> List.find isDeparture (rev moves)
              /\ (forall t, fst (fold_left step moves (None, None)) = Some t
                            \/ snd (fold_left step moves (None, None)) = Some t ->
                            exists e, In e moves /\ fst e = t)
              /\ match fold_left step moves (None, None) with
                 | (Some addedDate, Some removedDate) => removedDate <= addedDate
                 | _ => True
                 end).
  { clearbody moves. induction moves as [|[t mv] l IH] using rev_ind.
    - cbn. repeat split; try exact I. intros t [H | H]; discriminate H.
    - apply StronglySorted_snoc in Hsorted as [Hl Hle].
      destruct (IH Hl) as (H1 & H2 & H3 & H4).
      rewrite fold_left_app, rev_app_distr. cbn [fold_left rev app List.find].
      destruct (fold_left step l (None, None)) as [a r] eqn:E.
      cbn [fst snd] in *. subst step. cbn [fst snd isMove isDeparture].
      assert (Hin : forall t', (a = Some t' \/ r = Some t') -> t' <= t).
      { intros t' Ht'. destruct (H3 t' Ht') as (e & He & <-).
        rewrite List.Forall_forall in Hle. apply (Hle e He). }
      destruct mv; cbn [fst snd].
      + split; [reflexivity|]. split; [exact H2|]. split.
        * intros t' [Ht' | Ht'].
          -- injection Ht' as <-. exists (t, Entered). split; [|reflexivity].
             apply in_or_app. right. left. reflexivity.
          -- destruct (H3 t' (or_intror Ht')) as (e & He & <-). exists e.
             split; [apply in_or_app; left; exact He | reflexivity].
        * destruct r as [r|]; [|exact I]. apply Hin. right. reflexivity.
      + split; [reflexivity|]. split; [reflexivity|]. split; [|exact I].
        intros t' [Ht' | Ht']; [discriminate Ht'|].
        injection Ht' as <-. exists (t, Departed). split; [|reflexivity].
        apply in_or_app. right. left. reflexivity.
      + split; [exact H1|]. split; [exact H2|]. split; [|exact H4].
        intros t' Ht'. destruct (H3 t' Ht') as (e & He & <-). exists e.
        split; [apply in_or_app; left; exact He | reflexivity]. }
  destruct H as (H1 & H2 & _ & H4). auto.
Qed.
Lemma sorted_perm_eq {A : Type} (rank : A -> Z) (l l' : list A) :
  StronglySorted (fun a b => rank a <= rank b) l ->
  StronglySorted (fun a b => rank a <= rank b) l' ->
  Permutation l l' -> NoDup (map rank l) -> l = l'.
Proof.
  revert l'. induction l as [|x r IH]; intros l' Hs Hs' Hp Hnd.
  - apply Permutation_nil in Hp. congruence.
  - destruct l' as [|y r']; [apply Permutation_sym, Permutation_nil in Hp; discriminate|].
    apply StronglySorted_inv in Hs as [Hr Hx]. apply StronglySorted_inv in Hs' as [Hr' Hy].
    cbn [map] in Hnd. apply NoDup_cons in Hnd as [Hnx Hnd].
    rewrite List.Forall_forall in Hx, Hy.
    assert (Hyx : In y (x :: r)).
    { apply (Permutation_in _ (Permutation_sym Hp)). left. reflexivity. }
    assert (Hxy : In x (y :: r')) by (apply (Permutation_in _ Hp); left; reflexivity).
    assert (y = x) as ->.
    { destruct Hyx as [-> | Hyr]; [reflexivity|]. exfalso.
      destruct Hxy as [-> | Hxr]; [apply Hnx, list_elem_of_In, in_map, Hyr|].
      pose proof (Hx y Hyr). pose proof (Hy x Hxr).
      apply Hnx. replace (rank x) with (rank y) by lia.
      apply list_elem_of_In, in_map, Hyr. }
    f_equal. apply IH; try assumption. apply (Permutation_cons_inv Hp).
Qed.

(** X15.  The order in which the tracker returns the entries of a
    changelog does not matter, as long as no two entries carry the same
    time: [analyzeSprintChangelog] finds the same dates for any
    rearrangement of the entries. *)
Theorem changelog_order_irrelevant (histories histories' : list History)
    (sprintName sprintId : string) :
  Permutation histories histories' ->
  NoDup (map history_created histories) ->
  analyzeSprintChangelog histories sprintName sprintId
  = analyzeSprintChangelog histories' sprintName sprintId.
Proof.
  intros Hp Hnd. unfold analyzeSprintChangelog.
  replace (sortByCreated histories') with (sortByCreated histories); [reflexivity|].
  rewrite !sortByCreated_Array_sort.
  apply (sorted_perm_eq history_created); try apply keyed_sort_sorted.
  - rewrite !Array_sort_perm. exact Hp.
  - rewrite (Permutation_map history_created (Array_sort_perm _ histories)). exact Hnd.
Qed.
(** ** Assignees and team size *)

Lemma uniqueValues_spec (l : list string) :
  NoDup (uniqueValues l) /\ (forall x, x ∈ uniqueValues l <-> x ∈ l).
Proof.
  unfold uniqueValues. induction l as [|x l IH] using rev_ind.
  - split; [constructor | reflexivity].
  - rewrite fold_left_app. cbn [fold_left]. destruct IH as [Hnd Hin].
    set (u := fold_left _ l []) in *.
    destruct (bool_decide (x ∈ u)) eqn:E.
    + apply bool_decide_eq_true in E. split; [exact Hnd|].
      intros y. rewrite elem_of_app, list_elem_of_singleton, Hin.
      split; [auto|]. intros [H | ->]; [exact H | apply Hin, E].
    + apply bool_decide_eq_false in E. split.
      * apply NoDup_app. split; [exact Hnd|]. split; [|apply NoDup_singleton].
        intros y Hy Hy'. apply list_elem_of_singleton in Hy'. subst y. auto.
      * intros y. rewrite !elem_of_app, Hin. reflexivity.
Qed.

(** X16.  The assignees of a sprint.  [assignees] lists every assignee name
    of the issues once, leaving out issues without an assignee (or with an
    empty name).  For a request without an assignee filter and without a
    configured team size (none, or 0), the team size is the number of these
    names, and 1 when there is none. *)
Theorem assignees_distinct (allIssues : list Issue) :
  NoDup (allAssigneesOf allIssues)
  /\ (forall a, In a (allAssigneesOf allIssues)
                <-> a <> "" /\ exists i, In i allIssues /\ assignee i = Some a)
  /\ (forall p, singleAssignee p = None ->
                Payload.teamSize p = None \/ Payload.teamSize p = Some 0%N ->
                teamSizeOf p allIssues
                = Z.max 1 (Z.of_nat (length (allAssigneesOf allIssues)))).
Proof.
  unfold allAssigneesOf.
  set (names := omap (fun i => if truthy (assignee i) then assignee i else None) allIssues).
  destruct (uniqueValues_spec names) as [Hnd Hin].
  split; [exact Hnd|]. split.
  - intros a. rewrite <- list_elem_of_In, Hin. unfold names. rewrite list_elem_of_omap.
    split.
    + intros (i & Hi & H). apply list_elem_of_In in Hi.
      destruct (assignee i) as [b|] eqn:E; cbn [truthy] in H; [|discriminate H].
      destruct (String.eqb_spec b ""); cbn [negb] in H; [discriminate H|].
      injection H as <-. split; [assumption|]. exists i. auto.
    + intros (Ha & i & Hi & E). exists i. split; [apply list_elem_of_In, Hi|].
      rewrite E. cbn [truthy]. destruct (String.eqb_spec a ""); [contradiction | reflexivity].
  - intros p Hs Ht. unfold teamSizeOf. rewrite Hs. fold names.
    set (n := Z.of_nat (length (uniqueValues names))).
    assert (Hn : (if n =? 0 then 1 else n) = Z.max 1 n).
    { destruct (Z.eqb_spec n 0); unfold n in *; lia. }
    destruct Ht as [-> | ->]; exact Hn.
Qed.
(** ** The baseline *)

Lemma makeBaseline_not_corrupted (w : World) (sprintId : string) (issues : list Issue) :
  isCorrupted (makeBaseline w sprintId issues) issues = false.
Proof.
  destruct (isCorrupted _ issues) eqn:E; [exfalso|reflexivity].
  apply isCorrupted_spec in E. unfold makeBaseline in E. cbn [Baseline.issues] in E.
  rewrite length_map in E. unfold currentActiveCountOf in E. lia.
Qed.

(** X17.  A baseline just taken.  [saveSprintBaseline] records the issues
    that are not done, and only these, in their order: the keys of the
    baseline are the keys of the active issues, [issueCount] is their
    number, and the estimates sum to those of the active issues.  Such a
    baseline is never found corrupted against the issues it was taken from,
    so a repair is not followed by another one. *)
Theorem fresh_baseline (w : World) (sprintId : string) (issues : list Issue) :
  let baseline := makeBaseline w sprintId issues in
  map BaselineIssue.key (Baseline.issues baseline) = map key (List.filter isActive issues)
  /\ Baseline.issueCount baseline = length (Baseline.issues baseline)
  /\ length (Baseline.issues baseline) = currentActiveCountOf issues
  /\ (baselineEstimate baseline == reduce_sum estimateOf (List.filter isActive issues))%Q
  /\ isCorrupted baseline issues = false
  /\ Baseline.sprintId baseline = sprintId
  /\ Baseline.createdAt baseline = now w.
Proof.
  intros baseline. unfold baseline, makeBaseline. cbv zeta.
  cbn [Baseline.issues Baseline.issueCount Baseline.sprintId Baseline.createdAt].
  split; [rewrite map_map; reflexivity|].
  split; [rewrite length_map; reflexivity|].
  split; [apply length_map|].
  split.
  - unfold baselineEstimate. cbn [Baseline.issues].
    induction (List.filter isActive issues) as [|i l IH]; [reflexivity|].
    cbn [map]. rewrite !reduce_sum_cons, IH.
    cbn [baselineEntry BaselineIssue.originalEstimate]. rewrite orQ_zero.
    unfold estimateOf. reflexivity.
  - split; [|split; reflexivity].
    apply makeBaseline_not_corrupted.
Qed.
(** X18.  Saving, reading and deleting a baseline.  Over a store that
    accepts the operations on the key of the sprint: [saveSprintBaseline]
    returns the baseline it stored, [getSprintBaseline] then reads that
    same baseline back, and the baselines of other sprints are as they
    were; after [deleteSprintBaseline], which answers [true],
    [getSprintBaseline] reads nothing. *)
Theorem baseline_round_trip (w : World) (sprintId : string) (issues : list Issue) (e : Env) :
  storage_set_error w (baselineKey sprintId) = None ->
  storage_get_error w (baselineKey sprintId) = None ->
  storage_delete_error w (baselineKey sprintId) = None ->
  let baseline := makeBaseline w sprintId issues in
  let saved := saveSprintBaseline w sprintId issues e in
  let deleted := deleteSprintBaseline w sprintId (snd saved) in
  fst saved = Returned baseline
  /\ fst (getSprintBaseline w sprintId (snd saved)) = Returned (Some (StoredBaseline baseline))
  /\ (forall other, other <> sprintId ->
                    store (snd saved) !! baselineKey other = store e !! baselineKey other)
  /\ fst deleted = Returned true
  /\ fst (getSprintBaseline w sprintId (snd deleted)) = Returned None.
Proof.
  intros Hset Hget Hdel baseline saved deleted.
  assert (Hsaved : saved = (Returned baseline,
                            {| store := <[baselineKey sprintId := StoredBaseline baseline]>
                                          (store e);
                               trace := (trace e ++ [OpSet (baselineKey sprintId)
                                                           (StoredBaseline baseline)])%list |})).
  { unfold saved, saveSprintBaseline, bind, storage.set, ret. cbv zeta. rewrite Hset.
    reflexivity. }
  assert (Hdeleted : deleted = (Returned true,
                                {| store := base.delete (baselineKey sprintId)
                                              (store (snd saved));
                                   trace := (trace (snd saved)
                                             ++ [OpDelete (baselineKey sprintId)])%list |})).
  { unfold deleted, deleteSprintBaseline, try_catch, bind, storage.delete, ret.
    rewrite Hdel. reflexivity. }
  rewrite Hdeleted, !getSprintBaseline_read by exact Hget. rewrite Hsaved.
  cbn [fst snd store]. split; [reflexivity|]. split.
  - rewrite lookup_insert_eq. reflexivity.
  - split; [|split; [reflexivity|]].
    + intros other Hother. apply lookup_insert_ne. intros H. apply baselineKey_inj in H.
      congruence.
    + rewrite lookup_delete_eq. reflexivity.
Qed.
(** ** The configuration of a gadget *)

Lemma configKey_inj (a b : string) : configKey a = configKey b -> a = b.
Proof. unfold configKey. intros H. injection H as H. exact H. Qed.

(** X19.  Saving and reading a configuration.  Over a store that accepts
    the operations on the key of the gadget: what [saveConfig] stored is
    what [getConfig] then returns for the same gadget, and the answer of
    [getConfig] for a gadget with another id is as it was before.  A gadget
    for which nothing is stored gets the default configuration (no board, a
    team of 10, 10 working days), and so does every gadget while the store
    cannot be read. *)
Theorem config_round_trip (Report : Type) (w : World) (config : Config.t)
    (gadgetId other : option string) (e : Env) :
  storage_set_error w (configKey (orStr gadgetId "default")) = None ->
  storage_get_error w (configKey (orStr gadgetId "default")) = None ->
  let saved := resolve_saveConfig Report w config gadgetId e in
  fst saved = Returned (Success NoBody)
  /\ fst (resolve_getConfig (Report := Report) w gadgetId (snd saved))
     = Returned (StoredObject (StoredConfig config))
  /\ (orStr other "default" <> orStr gadgetId "default" ->
      fst (resolve_getConfig (Report := Report) w other (snd saved))
      = fst (resolve_getConfig (Report := Report) w other e))
  /\ (store e !! configKey (orStr gadgetId "default") = None ->
      fst (resolve_getConfig (Report := Report) w gadgetId e)
      = Returned (StoredObject (StoredConfig Config.default)))
  /\ (forall w' g, storage_get_error w' (configKey (orStr g "default")) <> None ->
                   resolve_getConfig (Report := Report) w' g e
                   = (Returned (StoredObject (StoredConfig Config.default)), e)).
Proof.
  intros Hset Hget saved.
  assert (Hsaved : saved = (Returned (Success NoBody),
                            {| store := <[configKey (orStr gadgetId "default")
                                          := StoredConfig config]> (store e);
                               trace := (trace e ++ [OpSet (configKey (orStr gadgetId "default"))
                                                           (StoredConfig config)])%list |})).
  { unfold saved, resolve_saveConfig, guarded, try_catch, bind, storage.set, ret.
    rewrite Hset. reflexivity. }
  rewrite Hsaved. cbn [fst snd].
  assert (Hread : forall g e0,
    fst (resolve_getConfig (Report := Report) w g e0)
    = match storage_get_error w (configKey (orStr g "default")) with
      | Some _ => Returned (StoredObject (StoredConfig Config.default))
      | None => Returned (StoredObject
                            (default (StoredConfig Config.default)
                                     (store e0 !! configKey (orStr g "default"))))
      end).
  { intros g e0. unfold resolve_getConfig, try_catch, bind, storage.get, ret.
    destruct (storage_get_error w (configKey (orStr g "default"))); reflexivity. }
  split; [reflexivity|]. split; [|split; [|split]].
  - rewrite Hread, Hget. cbn [store]. rewrite lookup_insert_eq. reflexivity.
  - intros Hother. rewrite !Hread. cbn [store].
    rewrite lookup_insert_ne; [reflexivity|]. intros H. apply configKey_inj in H. congruence.
  - intros Hnone. rewrite Hread, Hget, Hnone. reflexivity.
  - intros w' g Herr. unfold resolve_getConfig, try_catch, bind, storage.get, ret.
    destruct (storage_get_error w' (configKey (orStr g "default")));
      [reflexivity | contradiction].
Qed.
(** X20.  The baseline settles.  Over a store that accepts reads and
    writes on the key of the sprint, [getBurndownData]'s "get or create"
    always ends with a baseline that is stored under that key and that is
    not corrupted against the current issues; and a further request over
    the same issues gets this same baseline back with a single read and
    no write. *)
Theorem obtainBaseline_settles (w : World) (sprint : Sprint) (allIssues : list Issue)
    (e : Env) :
  let k := baselineKey (sprint_id sprint) in
  storage_get_error w k = None ->
  storage_set_error w k = None ->
  (forall c, store e !! k <> Some (StoredConfig c)) ->
  exists b e1,
    obtainBaseline w sprint allIssues e = (Returned b, e1)
    /\ store e1 !! k = Some (StoredBaseline b)
    /\ isCorrupted b allIssues = false
    /\ (forall e2, store e2 !! k = Some (StoredBaseline b) ->
                   obtainBaseline w sprint allIssues e2
                   = (Returned b,
                      {| store := store e2; trace := (trace e2 ++ [OpGet k])%list |})).
Proof.
  intros k Hget Hset Hconfig.
  assert (Hagain : forall b e2,
    isCorrupted b allIssues = false -> store e2 !! k = Some (StoredBaseline b) ->
    obtainBaseline w sprint allIssues e2
    = (Returned b, {| store := store e2; trace := (trace e2 ++ [OpGet k])%list |})).
  { intros b e2 Hb H2. unfold obtainBaseline, bind at 1.
    rewrite getSprintBaseline_read by exact Hget. fold k. rewrite H2.
    unfold repairOrCreate, bind, ret. rewrite Hb. reflexivity. }
  assert (Hsave : forall e0,
    saveSprintBaseline w (sprint_id sprint) allIssues e0
    = (Returned (makeBaseline w (sprint_id sprint) allIssues),
       {| store := <[k := StoredBaseline (makeBaseline w (sprint_id sprint) allIssues)]>
                     (store e0);
          trace := (trace e0 ++ [OpSet k (StoredBaseline
                                            (makeBaseline w (sprint_id sprint) allIssues))])%list
       |})).
  { intros e0. unfold saveSprintBaseline, bind, storage.set, ret. cbv zeta. fold k.
    rewrite Hset. reflexivity. }
  destruct (store e !! k) as [[b0 | c] |] eqn:Hstored; [| exfalso; apply (Hconfig c eq_refl) |].
  - destruct (isCorrupted b0 allIssues) eqn:Hc.
    + unfold obtainBaseline, bind at 1. rewrite getSprintBaseline_read by exact Hget.
      fold k. rewrite Hstored. unfold repairOrCreate, bind at 1. rewrite Hc.
      unfold bind at 1.
      destruct (deleteSprintBaseline w (sprint_id sprint) _) as [[d | msg] e'] eqn:Hd.
      * unfold ret. rewrite Hsave. eexists _, _. split; [reflexivity|]. cbn [store].
        split; [apply lookup_insert_eq|]. split; [apply makeBaseline_not_corrupted|].
        intros e2. apply Hagain, makeBaseline_not_corrupted.
      * exfalso. revert Hd. unfold deleteSprintBaseline, try_catch, bind, storage.delete, ret.
        destruct (storage_delete_error w _); discriminate.
    + eexists _, _. split; [apply Hagain; [exact Hc | exact Hstored]|]. cbn [store].
      split; [exact Hstored|]. split; [exact Hc|]. intros e2. apply Hagain, Hc.
  - unfold obtainBaseline, bind at 1. rewrite getSprintBaseline_read by exact Hget.
    fold k. rewrite Hstored. unfold repairOrCreate, bind, ret. rewrite Hsave.
    eexists _, _. split; [reflexivity|]. cbn [store].
    split; [apply lookup_insert_eq|]. split; [apply makeBaseline_not_corrupted|].
    intros e2. apply Hagain, makeBaseline_not_corrupted.
Qed.
(** ** Resetting the baseline *)

Lemma deleteBaseline_state (Report : Type) (w : World) (p : Payload.t) (sprint : Sprint)
    (e : Env) :
  truthy (Payload.boardId p) = true ->
  getActiveSprint w (default "" (Payload.boardId p)) = Returned (Some sprint) ->
  resolve_deleteBaseline Report w (Some p) e
  = (Returned (Success (MessageBody
                          ("Baseline for sprint " ++ sprint_name sprint ++ " deleted."))),
     match storage_delete_error w (baselineKey (sprint_id sprint)) with
     | Some _ => e
     | None => {| store := base.delete (baselineKey (sprint_id sprint)) (store e);
                  trace := (trace e ++ [OpDelete (baselineKey (sprint_id sprint))])%list |}
     end).
Proof.
  intros Hboard Hsprint. unfold resolve_deleteBaseline.
  rewrite withSprint_run, Hboard, Hsprint.
  unfold guarded, try_catch, bind, deleteSprintBaseline, storage.delete, ret.
  destruct (storage_delete_error w (baselineKey (sprint_id sprint))); reflexivity.
Qed.

Lemma obtainBaseline_creates (w : World) (sprint : Sprint) (allIssues : list Issue)
    (e : Env) :
  let k := baselineKey (sprint_id sprint) in
  let fresh := makeBaseline w (sprint_id sprint) allIssues in
  storage_get_error w k = None ->
  storage_set_error w k = None ->
  store e !! k = None ->
  obtainBaseline w sprint allIssues e
  = (Returned fresh,
     {| store := <[k := StoredBaseline fresh]> (store e);
        trace := ((trace e ++ [OpGet k]) ++ [OpSet k (StoredBaseline fresh)])%list |}).
Proof.
  intros k fresh Hget Hset Hnone. unfold obtainBaseline, bind at 1.
  rewrite getSprintBaseline_read by exact Hget. fold k. rewrite Hnone.
  unfold repairOrCreate, bind, ret, saveSprintBaseline, bind, storage.set, ret.
  cbv zeta. fold k. rewrite Hset. reflexivity.
Qed.

(** X21.  Resetting the baseline.  For a board with an active sprint,
    [deleteBaseline] always answers that the baseline was deleted.  When the
    store carries the deletion out, the stored baseline of the sprint is
    gone, and the next [getBurndownData] for the board takes a new baseline
    from the issues the sprint has at that moment, stores it and draws the
    chart from it.  When the store refuses the deletion, the answer is the
    same success, while the store, and with it the stored baseline, is
    exactly as before. *)
Theorem reset_baseline (Report : Type) (w : World) (p : Payload.t) (sprint : Sprint)
    (allIssues : list Issue) (e : Env) :
  let k := baselineKey (sprint_id sprint) in
  truthy (Payload.boardId p) = true ->
  getActiveSprint w (default "" (Payload.boardId p)) = Returned (Some sprint) ->
  getSprintIssues w (sprint_id sprint) = Returned allIssues ->
  storage_get_error w k = None ->
  storage_set_error w k = None ->
  let reset := resolve_deleteBaseline Report w (Some p) e in
  let fetched := resolve_getBurndownData (Report := Report) w (Some p) (snd reset) in
  let fresh := makeBaseline w (sprint_id sprint) allIssues in
  fst reset
  = Returned (Success (MessageBody
                         ("Baseline for sprint " ++ sprint_name sprint ++ " deleted.")))
  /\ match storage_delete_error w k with
     | None =>
         store (snd reset) !! k = None
         /\ fst fetched
            = Returned (Success (BurndownBody (burndownData w p sprint allIssues fresh)))
         /\ store (snd fetched) !! k = Some (StoredBaseline fresh)
     | Some _ => snd reset = e
     end.
Proof.
  intros k Hboard Hsprint Hissues Hget Hset reset fetched fresh.
  unfold fetched, reset. rewrite (deleteBaseline_state Report w p sprint e Hboard Hsprint).
  fold k. cbn [fst snd]. split; [reflexivity|].
  destruct (storage_delete_error w k); [reflexivity|]. cbn [store].
  split; [apply lookup_delete_eq|].
  rewrite getBurndownData_run, Hboard, Hsprint, Hissues.
  rewrite obtainBaseline_creates; try assumption; [|apply lookup_delete_eq].
  cbn [fst snd store]. split; [reflexivity | apply lookup_insert_eq].
Qed.
(** ** The shape of the series *)

(** X22.  One point per step of a day.  The series of [getBurndownData]
    is the start point followed by one point for the start instant of the
    sprint and for every further step of 24 hours that is not after the end
    instant, in order and dated with consecutive days from the start day
    on; a sprint whose end lies before its start has the start point only.
    The instants are compared, not the days: the day of the end has a
    point exactly when the time of day of the end is not earlier than that
    of the start, and otherwise the last point is dated the day before. *)
Theorem series_shape (w : World) (p : Payload.t) (sprint : Sprint)
    (allIssues : list Issue) (baseline : Baseline.t) :
  let points := BurndownData.dataPoints (burndownData w p sprint allIssues baseline) in
  let days := loopBound (startDate sprint) (endDate sprint) in
  length points = S days
  /\ (forall k, (k < days)%nat <-> exists pt, pointOfDay points k = Some pt)
  /\ (forall k pt, pointOfDay points k = Some pt ->
                   DataPoint.date pt = DayLabel (toISODate (startDate sprint) + Z.of_nat k))
  /\ (startDate sprint <= endDate sprint ->
      Z.of_nat days = (endDate sprint - startDate sprint) / DAY_MS + 1)
  /\ (endDate sprint < startDate sprint -> days = O)
  /\ (startDate sprint <= endDate sprint ->
      let lastDay := toISODate (startDate sprint) + Z.of_nat days - 1 in
      (startDate sprint mod DAY_MS <= endDate sprint mod DAY_MS ->
       lastDay = toISODate (endDate sprint))
      /\ (endDate sprint mod DAY_MS < startDate sprint mod DAY_MS ->
          lastDay = toISODate (endDate sprint) - 1)).
Proof.
  intros points days. unfold points. rewrite burndownData_dataPoints.
  set (c := loopConstsOf w p sprint allIssues).
  set (total := totalOriginalEstimateIn p allIssues baseline).
  change (startDate sprint) with (lc_startDate c) in *.
  change (endDate sprint) with (lc_endDate c) in *.
  split; [|split; [|split; [|split; [|split]]]].
  - rewrite generateDataPoints_unrolled. cbn [length]. rewrite length_map, length_seq.
    reflexivity.
  - intros k. split.
    + intros Hk. eexists. apply pointOfDay_emitted. split; [exact Hk | reflexivity].
    + intros (pt & H). apply pointOfDay_emitted in H as [H _]. exact H.
  - intros k pt H. apply pointOfDay_emitted in H as [_ ->]. apply emitted_date.
  - intros Hle. unfold days, loopBound.
    assert (0 <= (lc_endDate c - lc_startDate c) / DAY_MS)
      by (apply Z.div_pos; unfold DAY_MS; lia).
    lia.
  - intros Hlt. unfold days, loopBound.
    assert ((lc_endDate c - lc_startDate c) / DAY_MS < 0)
      by (apply Z.div_lt_upper_bound; unfold DAY_MS; lia).
    lia.
  - intros Hle. cbv zeta. unfold days, loopBound, toISODate.
    generalize (lc_startDate c) (lc_endDate c) Hle. clear. intros s e Hle.
    assert (HD : 0 < DAY_MS) by (unfold DAY_MS; lia).
    pose proof (Z.div_mod s DAY_MS ltac:(lia)) as Hs.
    pose proof (Z.mod_pos_bound s DAY_MS HD) as Hsr.
    pose proof (Z.div_mod e DAY_MS ltac:(lia)) as He.
    pose proof (Z.mod_pos_bound e DAY_MS HD) as Her.
    assert (0 <= (e - s) / DAY_MS) by (apply Z.div_pos; lia).
    rewrite Z2Nat.id by lia.
    split; intros Hmod.
    + assert ((e - s) / DAY_MS = e / DAY_MS - s / DAY_MS); [|lia].
      symmetry. apply (Z.div_unique _ _ _ (e mod DAY_MS - s mod DAY_MS)); lia.
    + assert ((e - s) / DAY_MS = e / DAY_MS - s / DAY_MS - 1); [|lia].
      symmetry.
      apply (Z.div_unique _ _ _ (e mod DAY_MS - s mod DAY_MS + DAY_MS)); lia.
Qed.

Lemma cumulativeLogged_accumulates (c : LoopConsts) (total : Q) (k : nat) :
  isPastOrToday c (dayOfSprint c k) = true ->
  cumulativeLogged (stateAfter c total (S k))
  = loggedThrough (loggedOn c) (toISODate (lc_startDate c)) (S k).
Proof.
  induction k as [|k IH]; intros Hpast.
  - rewrite stateAfter_S. unfold loopBody at 1. cbn [cumulativeLogged].
    rewrite stateAfter_current. fold (isPastOrToday c (dayOfSprint c 0)).
    rewrite Hpast, toISODate_dayOfSprint. reflexivity.
  - rewrite stateAfter_S. unfold loopBody at 1. cbn [cumulativeLogged].
    rewrite stateAfter_current. fold (isPastOrToday c (dayOfSprint c (S k))).
    rewrite Hpast, toISODate_dayOfSprint, IH.
    + reflexivity.
    + apply (isPastOrToday_earlier c k (S k)); [lia | exact Hpast].
Qed.

Lemma emitted_logged (c : LoopConsts) (total : Q) (k : nat) :
  isPastOrToday c (dayOfSprint c k) = true ->
  let pt := emittedPoint c (stateAfter c total k) in
  DataPoint.dayLogged pt = Some (round10 (loggedOn c (toISODate (lc_startDate c) + Z.of_nat k)))
  /\ DataPoint.cumulativeLogged pt
     = Some (round10 (loggedThrough (loggedOn c) (toISODate (lc_startDate c)) (S k)))
  /\ DataPoint.timeLogged pt = DataPoint.cumulativeLogged pt.
Proof.
  intros Hpast pt. unfold pt, emittedPoint.
  cbn [DataPoint.dayLogged DataPoint.cumulativeLogged DataPoint.timeLogged].
  rewrite stateAfter_current, Hpast, toISODate_dayOfSprint, <- stateAfter_S.
  rewrite cumulativeLogged_accumulates by exact Hpast. auto.
Qed.

Lemma worklogsOn_flat_map {A : Type} (day : Z) (g : A -> list Worklog) (l : list A) :
  worklogsOn day (flat_map g l) = flat_map (fun x => worklogsOn day (g x)) l.
Proof.
  unfold worklogsOn. induction l as [|x l IH]; [reflexivity|].
  cbn [flat_map]. rewrite List.filter_app, IH. reflexivity.
Qed.

Lemma reduce_sum_flat_map {A B : Type} (f : B -> Q) (g : A -> list B) (l : list A) :
  (reduce_sum f (flat_map g l) == reduce_sum (fun x => reduce_sum f (g x)) l)%Q.
Proof.
  induction l as [|x l IH]; [reflexivity|].
  cbn [flat_map]. rewrite reduce_sum_app, reduce_sum_cons, IH. lra.
Qed.

(** X23.  The logged hours of the chart.  The hours logged on a day are
    the sum, over the issues of the request, of the hours of the worklogs
    that the tracker returns for the issue ([getIssueWorklogs]) and that
    started on that day.  On every day of the series up to today,
    [dayLogged] is this figure, and [cumulativeLogged], which [timeLogged]
    repeats, is the sum of these day figures from the first day of the
    sprint on, each rounded to a tenth for display.  Worklogs dated before
    the sprint started are in neither. *)
Theorem logged_hours_accumulate (w : World) (p : Payload.t) (sprint : Sprint)
    (allIssues : list Issue) (baseline : Baseline.t) :
  let c := loopConstsOf w p sprint allIssues in
  let points := BurndownData.dataPoints (burndownData w p sprint allIssues baseline) in
  let startDay := toISODate (startDate sprint) in
  let loggedOnIssue (day : Z) (issue : Issue) :=
    reduce_sum worklogHours (worklogsOn day (getIssueWorklogs w (key issue))) in
  (forall day, (loggedOn c day == reduce_sum (loggedOnIssue day) (issuesOf p allIssues))%Q)
  /\ (forall k pt,
         pointOfDay points k = Some pt ->
         startDay + Z.of_nat k <= toISODate (now w) ->
         DataPoint.dayLogged pt = Some (round10 (loggedOn c (startDay + Z.of_nat k)))
         /\ DataPoint.cumulativeLogged pt
            = Some (round10 (loggedThrough (loggedOn c) startDay (S k)))
         /\ DataPoint.timeLogged pt = DataPoint.cumulativeLogged pt)
  /\ loggedThrough (loggedOn c) startDay 0 = 0%Q
  /\ (forall k, loggedThrough (loggedOn c) startDay (S k)
                = (loggedThrough (loggedOn c) startDay k
                   + loggedOn c (startDay + Z.of_nat k))%Q).
Proof.
  intros c points startDay loggedOnIssue.
  split.
  { intros day. unfold c. rewrite loggedOn_sum. unfold getAllWorklogs.
    rewrite worklogsOn_flat_map. apply reduce_sum_flat_map. }
  split; [|split; [reflexivity | intros k; reflexivity]].
  intros k pt Hpt Hday. unfold points in Hpt. rewrite burndownData_dataPoints in Hpt.
  apply pointOfDay_emitted in Hpt as [_ ->].
  apply (isPastOrToday_day w p sprint allIssues k) in Hday.
  apply (emitted_logged _ _ k Hday).
Qed.
Lemma round10_nonneg (x : Q) : (0 <= x)%Q -> (0 <= round10 x)%Q.
Proof.
  intros Hx. unfold round10, Math_round.
  assert (H : 0 <= Qfloor (x * 10 + (1 # 2))).
  { change 0 with (Qfloor 0). apply Qfloor_resp_le. lra. }
  rewrite Zle_Qle in H. change (inject_Z 0) with 0%Q in H. tenth_form. lra.
Qed.

Lemma emitted_bars (c : LoopConsts) (total : Q) (k : nat) :
  let pt := emittedPoint c (stateAfter c total k) in
  let day := toISODate (lc_startDate c) + Z.of_nat k in
  (DataPoint.added pt == round10 (Qmax 0 (addedOn c day)))%Q
  /\ (DataPoint.removed pt == - round10 (Qmax 0 (removedOn c day)))%Q.
Proof.
  intros pt day. unfold pt, emittedPoint. cbn [DataPoint.added DataPoint.removed].
  rewrite stateAfter_current, toISODate_dayOfSprint. fold day.
  assert (Hzero : (round10 0 == 0)%Q) by reflexivity.
  split.
  - destruct (Qltb 0 (addedOn c day)) eqn:E.
    + apply Qltb_lt in E. apply round10_proper. symmetry. apply Q.max_r. lra.
    + apply Qltb_ge in E. rewrite (round10_proper (Qmax 0 (addedOn c day)) 0).
      * symmetry. exact Hzero.
      * apply Q.max_l. exact E.
  - destruct (Qltb 0 (removedOn c day)) eqn:E.
    + apply Qltb_lt in E. apply Qopp_comp, round10_proper. symmetry. apply Q.max_r. lra.
    + apply Qltb_ge in E. rewrite (round10_proper (Qmax 0 (removedOn c day)) 0).
      * rewrite Hzero. reflexivity.
      * apply Q.max_l. exact E.
Qed.

(** X24.  The bars of the chart.  On every day of the series, [added] is
    the sum of the original estimates of the items reported as added on
    that day and [removed] is minus the sum over the items reported as
    removed on that day, each rounded to a tenth; a day without such items
    (or whose sum is not positive) shows 0.  [added] is never negative and
    [removed] never positive. *)
Theorem scope_bars (w : World) (p : Payload.t) (sprint : Sprint)
    (allIssues : list Issue) (baseline : Baseline.t) (k : nat) (pt : DataPoint.t) :
  let points := BurndownData.dataPoints (burndownData w p sprint allIssues baseline) in
  let issues := issuesOf p allIssues in
  let day := toISODate (startDate sprint) + Z.of_nat k in
  let addedThatDay :=
    reduce_sum estimateOf
      (List.filter (fun i => bool_decide (addedDayOf w sprint issues i = Some day)) issues) in
  let removedThatDay :=
    reduce_sum estimateOf
      (List.filter (fun r => removedDayOf w sprint r =? day)
         (getRemovedFromSprintIssues w (sprint_id sprint) (sprint_name sprint))) in
  pointOfDay points k = Some pt ->
  (DataPoint.added pt == round10 (Qmax 0 addedThatDay))%Q
  /\ (DataPoint.removed pt == - round10 (Qmax 0 removedThatDay))%Q
  /\ (0 <= DataPoint.added pt)%Q
  /\ (DataPoint.removed pt <= 0)%Q.
Proof.
  intros points issues day addedThatDay removedThatDay Hpt.
  unfold points in Hpt. rewrite burndownData_dataPoints in Hpt.
  apply pointOfDay_emitted in Hpt as [_ ->].
  destruct (emitted_bars (loopConstsOf w p sprint allIssues)
                         (totalOriginalEstimateIn p allIssues baseline) k) as [Ha Hr].
  cbv zeta in Ha, Hr. change (lc_startDate (loopConstsOf w p sprint allIssues))
    with (startDate sprint) in Ha, Hr. fold day in Ha, Hr.
  assert (Ha' : (round10 (Qmax 0 (addedOn (loopConstsOf w p sprint allIssues) day))
                 == round10 (Qmax 0 addedThatDay))%Q).
  { apply round10_proper. rewrite (addedOn_sum w p sprint allIssues day). reflexivity. }
  assert (Hr' : (round10 (Qmax 0 (removedOn (loopConstsOf w p sprint allIssues) day))
                 == round10 (Qmax 0 removedThatDay))%Q).
  { apply round10_proper. rewrite (removedOn_sum w p sprint allIssues day). reflexivity. }
  rewrite Ha, Hr, Ha', Hr'.
  assert (H1 : (0 <= round10 (Qmax 0 addedThatDay))%Q) by (apply round10_nonneg, Q.le_max_l).
  assert (H2 : (0 <= round10 (Qmax 0 removedThatDay))%Q)
    by (apply round10_nonneg, Q.le_max_l).
  repeat split; try reflexivity; lra.
Qed.
(** ** Effective totals *)

Lemma reduce_sum_zero {A : Type} (f : A -> Q) (l : list A) :
  (forall x, In x l -> (f x == 0)%Q) -> (reduce_sum f l == 0)%Q.
Proof.
  induction l as [|x l IH]; intros H; [reflexivity|].
  rewrite reduce_sum_cons, (H x (or_introl eq_refl)), IH; [lra|].
  intros y Hy. apply H. right. exact Hy.
Qed.

(** X25.  Subtasks alone count for nothing.  When every issue of the
    working set is a subtask (it is typed as one and names its parent), as
    for an assignee who owns subtasks but none of their parents, every
    effective total is 0: the chart of [getBurndownData] shows no remaining
    and no spent hours, whatever the subtasks carry. *)
Theorem subtasks_alone_count_nothing (w : World) (p : Payload.t) (sprint : Sprint)
    (allIssues : list Issue) (baseline : Baseline.t) :
  (forall i, In i (issuesOf p allIssues) ->
             isSubtaskIssue i = true /\ truthy (parent i) = true) ->
  let chart := burndownData w p sprint allIssues baseline in
  (forall field, (computeEffective field (issuesOf p allIssues) == 0)%Q)
  /\ (BurndownData.currentRemaining chart == 0)%Q
  /\ (BurndownData.totalSpent chart == 0)%Q.
Proof.
  intros Hsub chart.
  assert (H : forall field, (computeEffective field (issuesOf p allIssues) == 0)%Q).
  { intros field. rewrite computeEffective_contributions. apply reduce_sum_zero.
    intros i Hi. rewrite contribution_subtask; [reflexivity|].
    unfold Rule.countedAsSubtask. apply existsb_exists. exists i. split; [exact Hi|].
    destruct (Hsub i Hi) as [H1 H2]. unfold Rule.isSubtask. rewrite H1, H2.
    apply bool_decide_eq_true. reflexivity. }
  split; [exact H|]. unfold chart, burndownData. cbv zeta.
  cbn [BurndownData.currentRemaining BurndownData.totalSpent].
  unfold computeEffectiveRemaining, computeEffectiveSpent.
  split; (rewrite (round10_proper _ 0) by apply H; reflexivity).
Qed.
Lemma reduce_sum_plus {A : Type} (f g : A -> Q) (l : list A) :
  (reduce_sum (fun x => f x + g x) l == reduce_sum f l + reduce_sum g l)%Q.
Proof.
  induction l as [|x l IH]; [reflexivity|]. rewrite !reduce_sum_cons, IH. lra.
Qed.

(** Among items with distinct keys exactly one carries the key of [pa]. *)
Lemma single_match (parents : list Issue) (pa : Issue) (x : Q) :
  NoDup (map key parents) -> In pa parents ->
  (reduce_sum (fun p => if bool_decide (key p = key pa) then x else 0) parents == x)%Q.
Proof.
  induction parents as [|p l IH]; intros Hnd Hin; [destruct Hin|].
  cbn [map] in Hnd. apply NoDup_cons in Hnd as [Hp Hnd]. rewrite reduce_sum_cons.
  destruct Hin as [-> | Hin].
  - rewrite bool_decide_true by reflexivity. rewrite reduce_sum_zero; [lra|].
    intros q Hq. rewrite bool_decide_false; [reflexivity|].
    intros E. apply Hp. rewrite <- E. apply list_elem_of_In, in_map, Hq.
  - rewrite bool_decide_false.
    + rewrite IH by assumption. lra.
    + intros E. apply Hp. rewrite E. apply list_elem_of_In, in_map, Hin.
Qed.

(** Summing the subtasks parent by parent reaches each subtask once. *)
Lemma sum_by_parent (h : Issue -> Q) (parents subs : list Issue) :
  NoDup (map key parents) ->
  (forall s, In s subs -> exists pa, In pa parents /\ parent s = Some (key pa)) ->
  (reduce_sum (fun p => reduce_sum h (List.filter
                                        (fun s => bool_decide (parent s = Some (key p))) subs))
              parents
   == reduce_sum h subs)%Q.
Proof.
  intros Hnd. induction subs as [|s l IH]; intros Hsubs.
  - cbn [List.filter]. apply reduce_sum_zero. reflexivity.
  - destruct (Hsubs s (or_introl eq_refl)) as (pa & Hpa & Hs).
    rewrite reduce_sum_cons, <- IH by (intros s' Hs'; apply Hsubs; right; exact Hs').
    rewrite <- (single_match parents pa (h s) Hnd Hpa), <- reduce_sum_plus.
    apply reduce_sum_ext. intros p Hp. cbn [List.filter]. rewrite Hs.
    destruct (decide (key p = key pa)) as [E | E].
    + rewrite !bool_decide_true by congruence. rewrite reduce_sum_cons. lra.
    + rewrite !bool_decide_false by congruence. lra.
Qed.

Lemma filter_filter {A : Type} (f g : A -> bool) (l : list A) :
  List.filter f (List.filter g l) = List.filter (fun x => g x && f x) l.
Proof.
  induction l as [|x l IH]; [reflexivity|]. cbn [List.filter].
  destruct (g x); cbn [List.filter andb]; [destruct (f x)|]; rewrite ?IH; reflexivity.
Qed.

Lemma reduce_sum_filter_if {A : Type} (h : A -> Q) (P : A -> bool) (l : list A) :
  (reduce_sum h (List.filter P l) == reduce_sum (fun x => if P x then h x else 0) l)%Q.
Proof.
  induction l as [|x l IH]; [reflexivity|]. cbn [List.filter].
  destruct (P x) eqn:E; rewrite !reduce_sum_cons, ?E, IH; lra.
Qed.

(** X26.  A complete working set is counted once.  When the keys are
    distinct and every subtask of the working set has its parent in it (a
    parent that is not a subtask itself), the effective total of a field is
    the sum of that field over the subtasks and over the items that are not
    parents: no hour is counted twice and none is lost, and the aggregate a
    parent carries itself is never read. *)
Theorem complete_set_counts_leaves (field : Issue -> option Z) (issues : list Issue) :
  NoDup (map key issues) ->
  (forall s, In s issues -> Rule.isSubtask s = true ->
             exists pa, In pa issues /\ parent s = Some (key pa)
                        /\ Rule.isSubtask pa = false) ->
  (computeEffective field issues
   == reduce_sum (fun i => secondsToHours (field i)) (List.filter (isLeaf issues) issues))%Q.
Proof.
  intros Hnd Hparents.
  set (h := fun i : Issue => secondsToHours (field i)).
  set (sub := Rule.isSubtask).
  set (par := fun i => negb (sub i) && Rule.countedAsParent issues i).
  rewrite computeEffective_contributions.
  assert (Hc : forall i, In i issues ->
    (Rule.contribution field issues i
     == (if par i
         then reduce_sum h (List.filter (fun s => bool_decide (parent s = Some (key i)))
                                        (List.filter sub issues))
         else 0)
        + (if negb (sub i) && negb (Rule.countedAsParent issues i) then h i else 0))%Q).
  { intros i Hi. unfold Rule.contribution, par.
    rewrite (countedAsSubtask_self issues i Hi Hnd). fold sub.
    destruct (sub i); cbn [negb andb]; [lra|].
    destruct (Rule.countedAsParent issues i); cbn [negb]; [|unfold h; lra].
    unfold Rule.presentSubtasks. rewrite filter_filter. unfold h, sub.
    lra. }
  rewrite (reduce_sum_ext _ _ _ Hc), reduce_sum_plus.
  assert (Hgroups :
    (reduce_sum (fun i => if par i
                          then reduce_sum h (List.filter
                                               (fun s => bool_decide (parent s = Some (key i)))
                                               (List.filter sub issues))
                          else 0) issues
     == reduce_sum h (List.filter sub issues))%Q).
  { rewrite (reduce_sum_partition _ par issues).
    rewrite (reduce_sum_zero _ (List.filter (fun x => negb (par x)) issues)).
    - rewrite (reduce_sum_ext _ (fun p => reduce_sum h
                 (List.filter (fun s => bool_decide (parent s = Some (key p)))
                              (List.filter sub issues)))).
      + rewrite sum_by_parent; [lra | apply NoDup_map_filter, Hnd |].
        intros s Hs. apply filter_In in Hs as [Hs Hsub].
        destruct (Hparents s Hs Hsub) as (pa & Hpa & Hkey & Hnot).
        exists pa. split; [|exact Hkey]. apply filter_In. split; [exact Hpa|].
        unfold par. fold sub in Hnot. rewrite Hnot. cbn [negb andb].
        unfold Rule.countedAsParent. apply orb_true_iff. left.
        apply existsb_exists. exists s. split; [exact Hs|]. fold sub. rewrite Hsub.
        apply bool_decide_eq_true. exact Hkey.
      + intros p Hp. apply filter_In in Hp as [_ Hp]. rewrite Hp. reflexivity.
    - intros x Hx. apply filter_In in Hx as [_ Hx].
      destruct (par x); [discriminate Hx | reflexivity]. }
  rewrite Hgroups.
  rewrite (reduce_sum_partition h sub (List.filter (isLeaf issues) issues)), !filter_filter.
  assert (H1 : (reduce_sum h (List.filter (fun x => isLeaf issues x && sub x) issues)
                == reduce_sum h (List.filter sub issues))%Q).
  { rewrite (List.filter_ext (fun x => isLeaf issues x && sub x) sub); [reflexivity|].
    intros x. unfold isLeaf. fold sub. destruct (sub x); [reflexivity|].
    apply andb_false_r. }
  assert (H2 : (reduce_sum h (List.filter (fun x => isLeaf issues x && negb (sub x)) issues)
                == reduce_sum (fun i => if negb (sub i) && negb (Rule.countedAsParent issues i)
                                        then h i else 0) issues)%Q).
  { rewrite reduce_sum_filter_if. apply reduce_sum_ext. intros x _.
    unfold isLeaf. fold sub. destruct (sub x), (Rule.countedAsParent issues x); reflexivity. }
  rewrite H1, H2. lra.
Qed.
(** ** The issue details *)

(** A parent key is recorded for every subtask present. *)
Lemma presentSubtasks_parent (issues : list Issue) (i : Issue) :
  Rule.presentSubtasks issues (key i) <> [] -> Rule.countedAsParent issues i = true.
Proof.
  intros H. unfold Rule.countedAsParent. apply orb_true_iff. left.
  apply existsb_exists.
  destruct (Rule.presentSubtasks issues (key i)) as [|s l] eqn:E; [congruence|].
  exists s.
  apply (proj1 (filter_In
                  (fun s => Rule.isSubtask s && bool_decide (parent s = Some (key i)))
                  s issues)).
  fold (Rule.presentSubtasks issues (key i)). rewrite E. left. reflexivity.
Qed.

(** X27.  The rows of the issue details.  [issueDetails] holds one row for
    each issue of the working set, in the order of the status groups.  The
    row of an item with subtasks present in the working set shows, for each
    figure, the sum over these subtasks, added in the order of the list as
    doubles and not rounded (0.1h and 0.2h show 0.30000000000000004); every
    other row shows the item's own figures.  A row is flagged as having
    subtasks when its key is a parent's, as skipped when it is such a
    parent with no subtask present, and as a subtask when the item is typed
    as one or its key is a present subtask's.  When every item typed as a
    subtask names its parent, the rows that are neither subtasks nor
    skipped are exactly those of the items whose figures the effective
    totals take: the plain items and the parents with a subtask present. *)
Theorem issue_details_rows (issues : list Issue) :
  let m := buildSubtaskMap issues in
  let rows := issueDetailsOf issues in
  let order (row : IssueDetail.t) := getStatusOrder (Some (IssueDetail.status row)) in
  Permutation rows (map (issueDetailOf m) issues)
  /\ Permutation (map IssueDetail.key rows) (map key issues)
  /\ StronglySorted (fun a b => order a <= order b) rows
  /\ (forall n, List.filter (fun row => order row =? n) rows
                = List.filter (fun row => order row =? n) (map (issueDetailOf m) issues))
  /\ (forall i, In i issues ->
        let row := issueDetailOf m i in
        let present := Rule.presentSubtasks issues (key i) in
        let shown (field : Issue -> option Z) :=
          match present with
          | [] => secondsToHours64 (field i)
          | _ :: _ => Double.reduce_sum (fun sub => secondsToHours64 (field sub)) present
          end in
        IssueDetail.hasSubtasks row = Rule.countedAsParent issues i
        /\ IssueDetail.isSubtask row = isSubtaskIssue i || Rule.countedAsSubtask issues i
        /\ IssueDetail.skippedInTotal row
           = Rule.countedAsParent issues i && bool_decide (present = [])
        /\ IssueDetail.originalEstimate row = shown timeoriginalestimate
        /\ IssueDetail.remainingEstimate row = shown timeestimate
        /\ IssueDetail.timeSpent row = shown timespent
        /\ ((isSubtaskIssue i = true -> truthy (parent i) = true) ->
            countedInTotal row
            = negb (Rule.countedAsSubtask issues i)
              && negb (Rule.countedAsParent issues i && bool_decide (present = []))))
  /\ Double.valueOf
       (Double.reduce_sum secondsToHours64 [Some 360; Some 720])
     = 5404319552844596 # 18014398509481984.
Proof.
  intros m rows order.
  split; [apply Array_sort_perm|]. split; [|split; [|split; [|split]]].
  - unfold rows, issueDetailsOf, sortByStatus.
    etransitivity; [apply Permutation_map, Array_sort_perm|].
    rewrite map_map. reflexivity.
  - apply (keyed_sort_sorted order).
  - intros n. apply (keyed_sort_stable order).
  - intros i Hi row present shown. unfold row, issueDetailOf, countedInTotal.
    cbv zeta. cbn [IssueDetail.hasSubtasks IssueDetail.isSubtask
                   IssueDetail.skippedInTotal IssueDetail.originalEstimate
                   IssueDetail.remainingEstimate IssueDetail.timeSpent].
    unfold m.
    rewrite buildSubtaskMap_subtaskKeys, buildSubtaskMap_parentKeys,
      buildSubtaskMap_subtasks.
    fold present. unfold shown.
    pose proof (presentSubtasks_parent issues i) as Hp. fold present in Hp.
    destruct present as [|s l].
    + destruct (Rule.countedAsParent issues i); cbn [andb];
        repeat (split; [reflexivity|]); intros Hparent.
      * rewrite andb_false_r. destruct (Rule.countedAsSubtask issues i);
          rewrite ?orb_true_r; reflexivity.
      * assert (Hself : isSubtaskIssue i = true -> Rule.countedAsSubtask issues i = true).
        { intros Hs. unfold Rule.countedAsSubtask. apply existsb_exists. exists i.
          split; [exact Hi|]. unfold Rule.isSubtask. rewrite Hs, (Hparent Hs).
          apply bool_decide_eq_true. reflexivity. }
        destruct (Rule.countedAsSubtask issues i); rewrite ?orb_true_r; [reflexivity|].
        destruct (isSubtaskIssue i); [discriminate (Hself eq_refl) | reflexivity].
    + rewrite Hp by discriminate. cbn [andb].
      repeat (split; [reflexivity|]). intros Hparent.
      assert (Hself : isSubtaskIssue i = true -> Rule.countedAsSubtask issues i = true).
      { intros Hs. unfold Rule.countedAsSubtask. apply existsb_exists. exists i.
        split; [exact Hi|]. unfold Rule.isSubtask. rewrite Hs, (Hparent Hs).
        apply bool_decide_eq_true. reflexivity. }
      destruct (Rule.countedAsSubtask issues i); rewrite ?orb_true_r; [reflexivity|].
      destruct (isSubtaskIssue i); [discriminate (Hself eq_refl) | reflexivity].
  - vm_compute. reflexivity.
Qed.

(** ** The stacked bars *)

Lemma reduce_sum_nonneg {A : Type} (f : A -> Q) (l : list A) :
  (forall x, In x l -> (0 <= f x)%Q) -> (0 <= reduce_sum f l)%Q.
Proof.
  induction l as [|x l IH]; intros H; [unfold reduce_sum; simpl; lra|].
  rewrite reduce_sum_cons.
  pose proof (H x (or_introl eq_refl)). pose proof (IH (fun y Hy => H y (or_intror Hy))). lra.
Qed.

Lemma emitted_stack (c : LoopConsts) (total : Q) (k : nat) :
  isPastOrToday c (dayOfSprint c k) = true ->
  let pt := emittedPoint c (stateAfter c total k) in
  let day := toISODate (lc_startDate c) + Z.of_nat k in
  let running := Rule.forwardAccumulation total (loggedOn c) (addedOn c) (removedOn c)
                   (toISODate (lc_startDate c)) (S k) in
  DataPoint.remaining pt = Some (round10 (running - addedOn c day))
  /\ DataPoint.totalRemaining pt = Some (round10 running)
  /\ DataPoint.added pt
     = (if Qltb 0 (addedOn c day) then round10 (addedOn c day) else 0%Q).
Proof.
  intros Hpast pt day running. unfold pt, emittedPoint.
  cbn [DataPoint.remaining DataPoint.totalRemaining DataPoint.added].
  rewrite stateAfter_current, Hpast, toISODate_dayOfSprint, <- stateAfter_S.
  rewrite runningRemaining_accumulates by exact Hpast. auto.
Qed.

(** X28.  The stacked bars add up.  With a baseline in tenths of an hour
    (as the resolver saves it) and estimates that are not negative, on
    every day of the series up to today the [remaining] bar and the [added]
    bar on top of it make up [totalRemaining], the value of the remaining
    line, exactly. *)
Theorem stacked_bars_add_up (w : World) (p : Payload.t) (sprint : Sprint)
    (allIssues : list Issue) (baseline : Baseline.t) (k : nat) (pt : DataPoint.t) :
  let points := BurndownData.dataPoints (burndownData w p sprint allIssues baseline) in
  baselineInTenths baseline ->
  (forall i, In i (issuesOf p allIssues) -> (0 <= estimateOf i)%Q) ->
  pointOfDay points k = Some pt ->
  toISODate (startDate sprint) + Z.of_nat k <= toISODate (now w) ->
  exists remaining totalRemaining,
    DataPoint.remaining pt = Some remaining
    /\ DataPoint.totalRemaining pt = Some totalRemaining
    /\ (remaining + DataPoint.added pt == totalRemaining)%Q.
Proof.
  intros points Hbase Hpos Hpt Hday.
  unfold points in Hpt. rewrite burndownData_dataPoints in Hpt.
  apply pointOfDay_emitted in Hpt as [_ ->].
  apply (isPastOrToday_day w p sprint allIssues k) in Hday.
  destruct (emitted_stack _ (totalOriginalEstimateIn p allIssues baseline) k Hday)
    as (Hrem & Htot & Hadd).
  cbv zeta in Hrem, Htot, Hadd.
  set (c := loopConstsOf w p sprint allIssues) in *.
  set (day := toISODate (lc_startDate c) + Z.of_nat k) in *.
  set (running := Rule.forwardAccumulation _ _ _ _ _ _) in *.
  eexists _, _. split; [exact Hrem|]. split; [exact Htot|]. rewrite Hadd.
  assert (Htables : forall d, tenths (loggedOn c d) /\ tenths (addedOn c d)
                              /\ tenths (removedOn c d))
    by (intros d; apply tables_in_tenths).
  assert (Hrun : tenths running).
  { apply forwardAccumulation_tenths; [apply totalOriginalEstimate_tenths, Hbase|].
    exact Htables. }
  destruct (Htables day) as (_ & Hta & _).
  assert (Hnonneg : (0 <= addedOn c day)%Q).
  { unfold c. rewrite (addedOn_sum w p sprint allIssues day). apply reduce_sum_nonneg.
    intros i Hi. apply filter_In in Hi as [Hi _]. apply Hpos, Hi. }
  rewrite (round10_tenths running Hrun),
    (round10_tenths (running - addedOn c day)) by (apply tenths_minus; assumption).
  destruct (Qltb 0 (addedOn c day)) eqn:E.
  - rewrite (round10_tenths _ Hta). lra.
  - apply Qltb_ge in E. lra.
Qed.
(** ** Issues removed from the sprint *)

Lemma removal_is_a_move (histories : list History) (sprintName sprintId : string) (t : Date) :
  snd (analyzeSprintChangelog histories sprintName sprintId) = Some t ->
  In (t, Departed) (sprintMoves histories sprintName sprintId).
Proof.
  rewrite analyzeSprintChangelog_moves.
  set (step := fun (acc : option Date * option Date) (e : Date * SprintMove) => _).
  assert (H : forall moves acc,
    snd (fold_left step moves acc) = Some t -> snd acc = Some t \/ In (t, Departed) moves).
  { induction moves as [|[t' mv] l IH]; intros acc H; [left; exact H|].
    cbn [fold_left] in H. apply IH in H as [H | H]; [|right; right; exact H].
    subst step. cbn [fst snd] in H. destruct mv; cbn [snd] in H.
    - left. exact H.
    - right. left. congruence.
    - left. exact H. }
  intros Hs. apply H in Hs as [Hs | Hs]; [discriminate Hs | exact Hs].
Qed.

(** Whenever the analysis of a changelog finds a removal date, the scan of
    method 4 sees the departure. *)
Lemma removal_is_seen (histories : list History) (sprintName sprintId : string) :
  snd (analyzeSprintChangelog histories sprintName sprintId) <> None ->
  leftSprint sprintName sprintId histories = true.
Proof.
  destruct (snd (analyzeSprintChangelog histories sprintName sprintId)) as [t|] eqn:E;
    [intros _ | intros H; contradiction].
  apply removal_is_a_move in E. unfold sprintMoves in E.
  apply in_flat_map in E as (h & Hh & E). apply in_map_iff in E as (item & E & Hitem).
  injection E as _ E.
  rewrite sortByCreated_Array_sort in Hh.
  apply (Permutation_in _ (Array_sort_perm _ histories)) in Hh.
  unfold leftSprint. apply existsb_exists. exists h. split; [exact Hh|].
  apply existsb_exists. exists item. split; [exact Hitem|].
  revert E. unfold moveOf. cbv zeta.
  destruct (String.eqb (field item) "Sprint"); [|discriminate].
  destruct (includes (default "" (fromString item)) sprintName
            || includes (default "" (from item)) sprintId);
    destruct (includes (default "" (toString item)) sprintName);
    destruct (includes (default "" (to item)) sprintId); cbn; congruence.
Qed.

(** X29.  Finding the removed issues.  [getRemovedFromSprintIssues] never
    fails: a search that throws, or that is answered with an error, counts
    as finding nothing.  Every issue it returns was returned by one of its
    searches, the candidates of the last one after the scan of their
    changelogs.  With an empty sprint name only the two searches by sprint
    id are used.  When the three searches for removed issues find nothing
    (and the sprint has a name), it returns the issues among the first 100
    recently updated candidates whose changelog shows a departure from the
    sprint, and so every such candidate for which the changelog analysis
    finds a removal date. *)
Theorem removed_issues_found (s : Searches) (w : World) (sprintId sprintName : string) :
  let result := removedFromSprint s w sprintId sprintName in
  let byId := issuesFound (searchGet s (jqlById sprintId)) in
  let byName := issuesFound (searchJqlPost s (jqlByName sprintName)) in
  let byIdNot := issuesFound (searchPost s (jqlByIdNot sprintId)) in
  let candidates :=
    firstn 100 (issuesFound (searchPost s (jqlRecent sprintId sprintName))) in
  let departed (i : Issue) :=
    leftSprint sprintName sprintId (getIssueChangelog w (key i)) in
  (forall i, In i result ->
             In i byId \/ In i byName \/ In i byIdNot
             \/ (In i candidates /\ departed i = true))
  /\ (sprintName = "" -> result = match byId with [] => byIdNot | _ => byId end)
  /\ (byId = [] -> byName = [] -> byIdNot = [] -> sprintName <> "" ->
      result = List.filter departed candidates
      /\ forall i, In i candidates ->
                   snd (analyzeSprintChangelog (getIssueChangelog w (key i))
                                               sprintName sprintId) <> None ->
                   In i result)
  /\ (forall message, issuesFound (Thrown message) = [])
  /\ (forall issues, issuesFound (Returned {| ok := false; data_issues := issues |}) = []).
Proof.
  intros result byId byName byIdNot candidates departed.
  unfold result, removedFromSprint. fold byId byName byIdNot. cbv zeta. fold candidates.
  assert (Hname : truthy (Some sprintName) = negb (String.eqb sprintName "")) by reflexivity.
  rewrite Hname.
  split; [|split; [|split; [|split]]].
  - intros i. destruct byId as [|x l]; [|intros H; left; exact H].
    destruct (String.eqb sprintName ""); cbn [negb].
    + destruct byIdNot as [|y l']; [intros [] | intros H; right; right; left; exact H].
    + destruct byName as [|y l']; [|intros H; right; left; exact H].
      destruct byIdNot as [|z l'']; [|intros H; right; right; left; exact H].
      intros H. apply filter_In in H. right. right. right. exact H.
  - intros ->. cbn [String.eqb negb]. destruct byId as [|x l]; [|reflexivity].
    destruct byIdNot; reflexivity.
  - intros -> -> -> Hne. destruct (String.eqb_spec sprintName ""); [contradiction|].
    cbn [negb]. split; [reflexivity|].
    intros i Hi Hdate. apply filter_In. split; [exact Hi|]. apply removal_is_seen, Hdate.
  - reflexivity.
  - reflexivity.
Qed.
(** ** Sprint health *)

(** X30.  The health counters partition the issues.  In the answer of
    [getSprintHealth], with the figures and the comparisons as the engine
    computes them on doubles, [under] is the number of issues whose
    original estimate is below the time spent plus the remaining estimate,
    [good] the number of those above it, [normal] the number of the others;
    no issue is both below and above, so every issue is in exactly one of
    the three and they add up to [total], the number of issues of the
    request.  Of the three items 0.3h against 0.1h + 0.2h, 0.8h against
    0.1h + 0.7h and 2h against 0.5h + 1.5h, one is counted in each. *)
Theorem health_counts_add_up (issues : list Issue) :
  let counts := sprintHealth issues in
  let below i := Double.ltb (originalOf i) (actualTotalOf i) in
  let above i := Double.ltb (actualTotalOf i) (originalOf i) in
  HealthCounts.under counts = length (List.filter below issues)
  /\ HealthCounts.good counts = length (List.filter above issues)
  /\ HealthCounts.normal counts
     = length (List.filter (fun i => negb (below i) && negb (above i)) issues)
  /\ (HealthCounts.under counts + HealthCounts.normal counts + HealthCounts.good counts
      = HealthCounts.total counts)%nat
  /\ HealthCounts.total counts = length issues
  /\ (forall i, below i && above i = false)
  /\ sprintHealth [SampleHealth.sumAbove; SampleHealth.sumBelow; SampleHealth.onEstimate]
     = {| HealthCounts.under := 1; HealthCounts.normal := 1; HealthCounts.good := 1;
          HealthCounts.total := 3 |}.
Proof.
  intros counts below above.
  destruct (sprintHealth_counts issues) as (Hu & Hn & Hg & Ht). cbv zeta in Hu, Hn, Hg.
  fold counts in Hu, Hn, Hg, Ht.
  assert (Hbucket : forall i,
    healthBucket i = if below i then UNDERESTIMATED else if above i then GOOD else NORMAL)
    by reflexivity.
  assert (Hfilter : forall (c : Classification) (f : Issue -> bool),
    (forall i, bool_decide (healthBucket i = c) = f i) ->
    length (List.filter (fun i => bool_decide (healthBucket i = c)) issues)
    = length (List.filter f issues)).
  { intros c f H. rewrite (List.filter_ext _ f H). reflexivity. }
  assert (Hnever : forall i, below i && above i = false).
  { intros i. unfold below, above.
    destruct (Double.ltb (originalOf i) (actualTotalOf i)) eqn:E1; [|reflexivity].
    rewrite (ltb_asym _ _ E1). reflexivity. }
  assert (Hu' : HealthCounts.under counts = length (List.filter below issues)).
  { rewrite Hu. apply Hfilter. intros i. rewrite Hbucket.
    destruct (below i); [reflexivity|]. destruct (above i); reflexivity. }
  assert (Hg' : HealthCounts.good counts = length (List.filter above issues)).
  { rewrite Hg. apply Hfilter. intros i. rewrite Hbucket. pose proof (Hnever i).
    destruct (below i), (above i); try reflexivity. discriminate. }
  assert (Hn' : HealthCounts.normal counts
                = length (List.filter (fun i => negb (below i) && negb (above i)) issues)).
  { rewrite Hn. apply Hfilter. intros i. rewrite Hbucket.
    destruct (below i), (above i); reflexivity. }
  split; [exact Hu'|]. split; [exact Hg'|]. split; [exact Hn'|].
  split; [|split; [exact Ht|split; [exact Hnever | vm_compute; reflexivity]]].
  rewrite Hu', Hg', Hn', Ht. clear - Hnever.
  induction issues as [|i l IH]; [reflexivity|]. cbn [List.filter length].
  pose proof (Hnever i). destruct (below i), (above i); cbn [negb andb length];
    try discriminate; lia.
Qed.


(** * Instances on the sample data *)

Lemma latecomer_not_added :
  NoDup (map key (SampleSprint.issues ++ [SampleScope.latecomer])%list)
  /\ exists report,
       scopeChanges SampleScope.monday SampleRun.teamPayload SampleSprint.sprint
                    (SampleSprint.issues ++ [SampleScope.latecomer])%list
       = Returned report
       /\ (forall item, In item (ScopeReport.added report) ->
                        toISODate (startDate SampleSprint.sprint)
                        < toISODate (ScopeItem.changeDate item))
       /\ (forall a, In a (fst (detectAdded SampleScope.monday SampleSprint.sprint
                                            (SampleSprint.issues ++ [SampleScope.latecomer])%list)) ->
                     toISODate (startDate SampleSprint.sprint) < AddedIssue.addedDate a)
       /\ (forall i, In i (SampleSprint.issues ++ [SampleScope.latecomer])%list ->
                     toISODate (created i) < toISODate (startDate SampleSprint.sprint) ->
                     ~ In (key i) (map ScopeItem.key (ScopeReport.added report))
                     /\ ~ In (key i)
                          (map AddedIssue.key
                               (fst (detectAdded SampleScope.monday SampleSprint.sprint
                                       (SampleSprint.issues ++ [SampleScope.latecomer])%list)))).
Proof.
  assert (H : NoDup (map key (SampleSprint.issues ++ [SampleScope.latecomer])%list)).
  { apply (bool_decide_unpack _). vm_compute. exact I. }
  split; [exact H|].
  exact (added_only_after_start_day SampleScope.monday SampleRun.teamPayload
           SampleSprint.sprint (SampleSprint.issues ++ [SampleScope.latecomer])%list H).
Defined.

Lemma first_release_figures :
  In SampleReleases.first
     (ReleaseReport.releases (releaseData SampleSprint.sprint SampleReleases.issues))
  /\ Release.totalIssues SampleReleases.first
     = length (issuesOfVersion (Release.id SampleReleases.first) SampleReleases.issues)
  /\ Release.progress SampleReleases.first
     = progressOf (Release.doneIssues SampleReleases.first)
                  (Release.totalIssues SampleReleases.first).
Proof.
  assert (H : In SampleReleases.first
     (ReleaseReport.releases (releaseData SampleSprint.sprint SampleReleases.issues))).
  { vm_compute. left. reflexivity. }
  split; [exact H|].
  pose proof (release_figures SampleSprint.sprint SampleReleases.issues
                SampleReleases.first H) as T.
  split; [exact (proj1 (proj2 (proj2 (proj2 T))))|].
  exact (proj1 (proj2 (proj2 (proj2 (proj2 (proj2 (proj2 (proj2 (proj2 T))))))))).
Defined.

Lemma two_weeks_have_ten_working_days :
  countWorkingDays (SampleSprint.jan 1) (SampleSprint.jan 14) = 5 * 2.
Proof.
  apply (proj1 (countWorkingDays_weeks (SampleSprint.jan 1) (SampleSprint.jan 14)) 2).
  - lia.
  - vm_compute. discriminate.
  - vm_compute. reflexivity.
Defined.

Lemma changelog_read_in_any_order :
  Permutation [SampleChangelog.movedOut; SampleScope.movedIn]
              [SampleScope.movedIn; SampleChangelog.movedOut]
  /\ NoDup (map history_created [SampleChangelog.movedOut; SampleScope.movedIn])
  /\ analyzeSprintChangelog [SampleChangelog.movedOut; SampleScope.movedIn] "PRJ Sprint 7" "7"
     = analyzeSprintChangelog [SampleScope.movedIn; SampleChangelog.movedOut]
                              "PRJ Sprint 7" "7".
Proof.
  assert (H1 : Permutation [SampleChangelog.movedOut; SampleScope.movedIn]
                           [SampleScope.movedIn; SampleChangelog.movedOut])
    by apply perm_swap.
  assert (H2 : NoDup (map history_created [SampleChangelog.movedOut; SampleScope.movedIn])).
  { apply (bool_decide_unpack _). vm_compute. exact I. }
  split; [exact H1|]. split; [exact H2|].
  exact (changelog_order_irrelevant _ _ "PRJ Sprint 7" "7" H1 H2).
Defined.
Lemma sprint7_baseline_round_trip :
  storage_set_error SampleSprint.thursday (baselineKey "7") = None
  /\ storage_get_error SampleSprint.thursday (baselineKey "7") = None
  /\ storage_delete_error SampleSprint.thursday (baselineKey "7") = None
  /\ fst (getSprintBaseline SampleSprint.thursday "7"
            (snd (saveSprintBaseline SampleSprint.thursday "7" SampleSprint.issues
                                     SampleStore.env)))
     = Returned (Some (StoredBaseline
                         (makeBaseline SampleSprint.thursday "7" SampleSprint.issues)))
  /\ fst (getSprintBaseline SampleSprint.thursday "7"
            (snd (deleteSprintBaseline SampleSprint.thursday "7"
                    (snd (saveSprintBaseline SampleSprint.thursday "7" SampleSprint.issues
                                             SampleStore.env)))))
     = Returned None.
Proof.
  assert (H1 : storage_set_error SampleSprint.thursday (baselineKey "7") = None)
    by reflexivity.
  assert (H2 : storage_get_error SampleSprint.thursday (baselineKey "7") = None)
    by reflexivity.
  assert (H3 : storage_delete_error SampleSprint.thursday (baselineKey "7") = None)
    by reflexivity.
  split; [exact H1|]. split; [exact H2|]. split; [exact H3|].
  split.
  - exact (proj1 (proj2 (baseline_round_trip SampleSprint.thursday "7" SampleSprint.issues
                           SampleStore.env H1 H2 H3))).
  - exact (proj2 (proj2 (proj2 (proj2
             (baseline_round_trip SampleSprint.thursday "7" SampleSprint.issues
                SampleStore.env H1 H2 H3))))).
Defined.

Lemma gadget_config_round_trip :
  storage_set_error SampleSprint.thursday (configKey (orStr (Some "g1") "default")) = None
  /\ storage_get_error SampleSprint.thursday (configKey (orStr (Some "g1") "default")) = None
  /\ fst (resolve_getConfig (Report := unit) SampleSprint.thursday (Some "g1")
            (snd (resolve_saveConfig unit SampleSprint.thursday SampleConfig.config
                    (Some "g1") SampleStore.env)))
     = Returned (StoredObject (StoredConfig SampleConfig.config)).
Proof.
  assert (H1 : storage_set_error SampleSprint.thursday
                 (configKey (orStr (Some "g1") "default")) = None) by reflexivity.
  assert (H2 : storage_get_error SampleSprint.thursday
                 (configKey (orStr (Some "g1") "default")) = None) by reflexivity.
  split; [exact H1|]. split; [exact H2|].
  exact (proj1 (proj2 (config_round_trip unit SampleSprint.thursday SampleConfig.config
                         (Some "g1") None SampleStore.env H1 H2))).
Defined.

Lemma sprint7_baseline_settles :
  storage_get_error SampleSprint.thursday (baselineKey (sprint_id SampleSprint.sprint)) = None
  /\ storage_set_error SampleSprint.thursday (baselineKey (sprint_id SampleSprint.sprint))
     = None
  /\ (forall c, store SampleStore.env !! baselineKey (sprint_id SampleSprint.sprint)
                <> Some (StoredConfig c))
  /\ exists b e1,
       obtainBaseline SampleSprint.thursday SampleSprint.sprint SampleSprint.issues
                      SampleStore.env = (Returned b, e1)
       /\ store e1 !! baselineKey (sprint_id SampleSprint.sprint) = Some (StoredBaseline b)
       /\ isCorrupted b SampleSprint.issues = false.
Proof.
  assert (H1 : storage_get_error SampleSprint.thursday
                 (baselineKey (sprint_id SampleSprint.sprint)) = None) by reflexivity.
  assert (H2 : storage_set_error SampleSprint.thursday
                 (baselineKey (sprint_id SampleSprint.sprint)) = None) by reflexivity.
  assert (H3 : forall c, store SampleStore.env !! baselineKey (sprint_id SampleSprint.sprint)
                         <> Some (StoredConfig c)).
  { intros c H. vm_compute in H. discriminate H. }
  split; [exact H1|]. split; [exact H2|]. split; [exact H3|].
  destruct (obtainBaseline_settles SampleSprint.thursday SampleSprint.sprint
              SampleSprint.issues SampleStore.env H1 H2 H3) as (b & e1 & Ha & Hb & Hc & _).
  exists b, e1. auto.
Defined.

Lemma sprint7_reset :
  truthy (Payload.boardId SampleRun.teamPayload) = true
  /\ getActiveSprint SampleSprint.thursday (default "" (Payload.boardId SampleRun.teamPayload))
     = Returned (Some SampleSprint.sprint)
  /\ getSprintIssues SampleSprint.thursday (sprint_id SampleSprint.sprint)
     = Returned SampleSprint.issues
  /\ storage_get_error SampleSprint.thursday (baselineKey (sprint_id SampleSprint.sprint))
     = None
  /\ storage_set_error SampleSprint.thursday (baselineKey (sprint_id SampleSprint.sprint))
     = None
  /\ fst (resolve_deleteBaseline unit SampleSprint.thursday (Some SampleRun.teamPayload)
            SampleStore.env)
     = Returned (Success (MessageBody
                            ("Baseline for sprint " ++ sprint_name SampleSprint.sprint
                             ++ " deleted."))).
Proof.
  assert (H1 : truthy (Payload.boardId SampleRun.teamPayload) = true) by reflexivity.
  assert (H2 : getActiveSprint SampleSprint.thursday
                 (default "" (Payload.boardId SampleRun.teamPayload))
               = Returned (Some SampleSprint.sprint)) by reflexivity.
  assert (H3 : getSprintIssues SampleSprint.thursday (sprint_id SampleSprint.sprint)
               = Returned SampleSprint.issues) by reflexivity.
  assert (H4 : storage_get_error SampleSprint.thursday
                 (baselineKey (sprint_id SampleSprint.sprint)) = None) by reflexivity.
  assert (H5 : storage_set_error SampleSprint.thursday
                 (baselineKey (sprint_id SampleSprint.sprint)) = None) by reflexivity.
  split; [exact H1|]. split; [exact H2|]. split; [exact H3|]. split; [exact H4|].
  split; [exact H5|].
  exact (proj1 (reset_baseline unit SampleSprint.thursday SampleRun.teamPayload
                  SampleSprint.sprint SampleSprint.issues SampleStore.env
                  H1 H2 H3 H4 H5)).
Defined.

Lemma bars_on_wednesday :
  pointOfDay
    (BurndownData.dataPoints
       (burndownData SampleSprint.thursday SampleRun.teamPayload SampleSprint.sprint
                     SampleSprint.issues SampleSprint.baseline)) 2
  = Some SampleRun.wednesday
  /\ (0 <= DataPoint.added SampleRun.wednesday)%Q
  /\ (DataPoint.removed SampleRun.wednesday <= 0)%Q.
Proof.
  assert (H1 : pointOfDay
    (BurndownData.dataPoints
       (burndownData SampleSprint.thursday SampleRun.teamPayload SampleSprint.sprint
                     SampleSprint.issues SampleSprint.baseline)) 2
  = Some SampleRun.wednesday).
  { vm_compute. reflexivity. }
  split; [exact H1|].
  exact (proj2 (proj2 (scope_bars SampleSprint.thursday SampleRun.teamPayload
                         SampleSprint.sprint SampleSprint.issues SampleSprint.baseline
                         2%nat SampleRun.wednesday H1))).
Defined.

Lemma alice_sees_only_a_subtask :
  (forall i, In i (issuesOf SampleRun.alicePayload SampleFamily.bobsParent) ->
             isSubtaskIssue i = true /\ truthy (parent i) = true)
  /\ (BurndownData.currentRemaining
        (burndownData SampleSprint.thursday SampleRun.alicePayload SampleSprint.sprint
                      SampleFamily.bobsParent SampleSprint.baseline) == 0)%Q.
Proof.
  assert (H : forall i, In i (issuesOf SampleRun.alicePayload SampleFamily.bobsParent) ->
                        isSubtaskIssue i = true /\ truthy (parent i) = true).
  { intros i Hi. change (In i [Sample.sub1]) in Hi.
    destruct Hi as [<-|[]]. split; reflexivity. }
  split; [exact H|].
  exact (proj1 (proj2 (subtasks_alone_count_nothing SampleSprint.thursday
                         SampleRun.alicePayload SampleSprint.sprint SampleFamily.bobsParent
                         SampleSprint.baseline H))).
Defined.

Lemma family_counts_its_subtasks :
  NoDup (map key SampleFamily.issues)
  /\ (forall s, In s SampleFamily.issues -> Rule.isSubtask s = true ->
                exists pa, In pa SampleFamily.issues /\ parent s = Some (key pa)
                           /\ Rule.isSubtask pa = false)
  /\ (computeEffective timeestimate SampleFamily.issues
      == reduce_sum (fun i => secondsToHours (timeestimate i))
                    (List.filter (isLeaf SampleFamily.issues) SampleFamily.issues))%Q.
Proof.
  assert (H1 : NoDup (map key SampleFamily.issues)).
  { apply (bool_decide_unpack _). vm_compute. exact I. }
  assert (H2 : forall s, In s SampleFamily.issues -> Rule.isSubtask s = true ->
                exists pa, In pa SampleFamily.issues /\ parent s = Some (key pa)
                           /\ Rule.isSubtask pa = false).
  { intros s Hs Hsub. exists (Sample.parentItem (Some 21600) "alice").
    split; [left; reflexivity|].
    destruct Hs as [<-|[<-|[<-|[]]]]; [discriminate Hsub| |]; split; reflexivity. }
  split; [exact H1|]. split; [exact H2|].
  exact (complete_set_counts_leaves timeestimate SampleFamily.issues H1 H2).
Defined.

Lemma stack_on_wednesday :
  baselineInTenths SampleSprint.baseline
  /\ (forall i, In i (issuesOf SampleRun.teamPayload SampleSprint.issues) ->
                (0 <= estimateOf i)%Q)
  /\ pointOfDay
       (BurndownData.dataPoints
          (burndownData SampleSprint.thursday SampleRun.teamPayload SampleSprint.sprint
                        SampleSprint.issues SampleSprint.baseline)) 2
     = Some SampleRun.wednesday
  /\ toISODate (startDate SampleSprint.sprint) + Z.of_nat 2
     <= toISODate (now SampleSprint.thursday)
  /\ exists remaining totalRemaining,
       DataPoint.remaining SampleRun.wednesday = Some remaining
       /\ DataPoint.totalRemaining SampleRun.wednesday = Some totalRemaining
       /\ (remaining + DataPoint.added SampleRun.wednesday == totalRemaining)%Q.
Proof.
  assert (H1 : baselineInTenths SampleSprint.baseline)
    by apply makeBaseline_in_tenths.
  assert (H2 : forall i, In i (issuesOf SampleRun.teamPayload SampleSprint.issues) ->
                         (0 <= estimateOf i)%Q).
  { intros i Hi. change (In i SampleSprint.issues) in Hi.
    destruct Hi as [<-|[<-|[<-|[]]]]; vm_compute; discriminate. }
  assert (H3 : pointOfDay
    (BurndownData.dataPoints
       (burndownData SampleSprint.thursday SampleRun.teamPayload SampleSprint.sprint
                     SampleSprint.issues SampleSprint.baseline)) 2
  = Some SampleRun.wednesday).
  { vm_compute. reflexivity. }
  assert (H4 : toISODate (startDate SampleSprint.sprint) + Z.of_nat 2
               <= toISODate (now SampleSprint.thursday)).
  { apply Z.leb_le. vm_compute. reflexivity. }
  split; [exact H1|]. split; [exact H2|]. split; [exact H3|]. split; [exact H4|].
  exact (stacked_bars_add_up SampleSprint.thursday SampleRun.teamPayload SampleSprint.sprint
           SampleSprint.issues SampleSprint.baseline 2%nat SampleRun.wednesday
           H1 H2 H3 H4).
Defined.

Lemma logged_on_wednesday :
  pointOfDay
    (BurndownData.dataPoints
       (burndownData SampleSprint.thursday SampleRun.teamPayload SampleSprint.sprint
                     SampleSprint.issues SampleSprint.baseline)) 2
  = Some SampleRun.wednesday
  /\ DataPoint.timeLogged SampleRun.wednesday
     = DataPoint.cumulativeLogged SampleRun.wednesday.
Proof.
  assert (H1 : pointOfDay
    (BurndownData.dataPoints
       (burndownData SampleSprint.thursday SampleRun.teamPayload SampleSprint.sprint
                     SampleSprint.issues SampleSprint.baseline)) 2
  = Some SampleRun.wednesday).
  { vm_compute. reflexivity. }
  assert (H2 : toISODate (startDate SampleSprint.sprint) + Z.of_nat 2
               <= toISODate (now SampleSprint.thursday)).
  { apply Z.leb_le. vm_compute. reflexivity. }
  split; [exact H1|].
  exact (proj2 (proj2 (proj1 (proj2
           (logged_hours_accumulate SampleSprint.thursday SampleRun.teamPayload
              SampleSprint.sprint SampleSprint.issues SampleSprint.baseline))
           2%nat SampleRun.wednesday H1 H2))).
Defined.
